(** * pyperclipfix: clipboard backend resolution and access layer

    A shallow embedding of [src/pyperclipfix/__init__.py].  Python values,
    exceptions and calls are modelled first, then the host the module
    inspects, the backends, the native Windows protocol, backend
    resolution, the process-wide dispatch state and the polling helpers.

    Conventions of the model.
    - A Python [str] is a [string] whose characters are the code points
      below 256; [lower], [strip] and [splitlines] are Python's on these
      code points.  Texts with other code points are outside the model.
    - [bytes] are a [string] of octets; [str.encode('utf-8')] and
      [bytes.decode('utf-8')] are the host's codec.  A text of code points
      below 256 holds no surrogate, so encoding it cannot fail.
    - A Python [int] is a [Z] and its [str] the decimal digits, refused
      with [ValueError] past the interpreter's limit on the digits of
      that conversion.
    - A Python [float] is a binary64 [float]; its [str] is the runtime's
      shortest-repr routine, kept as a field of the host.
    - [_executable_exists] is [shutil.which], as on every Python 3.
    - The messages of the interpreter's own errors ([TypeError] of a
      call that does not fit, [ValueError] of [str] and of [Popen]) are
      worded as CPython words them; whether it names a function defined
      inside another by its qualified name, as 3.10 and later do, is a
      field of the host.
    - Everything the module asks of its surroundings (platform identity,
      environment, search path, importable modules, helper output, replies
      of the Win32 calls, clock readings) is read from a [Host] record, so
      that every theorem quantifies over all hosts. *)

From Stdlib Require Import ZArith List String Ascii Bool Lia Floats.
From Stdlib Require Import DecimalString.
Import ListNotations.

Set Warnings "-inexact-float".

Open Scope list_scope.
Open Scope string_scope.

(* ================================================================== *)
(** * Python values *)
(* ================================================================== *)

#[warnings="-register-all"]
Inductive pyvalue : Type :=
| PyStr (s : string)
| PyInt (n : Z)
| PyFloat (x : float)
| PyBool (b : bool)
| PyNone
| PyBytes (b : string)
| PyList (l : list pyvalue)
| PyObject (cls : string).

(** [text.__class__.__name__]. *)
Definition class_name (v : pyvalue) : string :=
  match v with
  | PyStr _ => "str"
  | PyInt _ => "int"
  | PyFloat _ => "float"
  | PyBool _ => "bool"
  | PyNone => "NoneType"
  | PyBytes _ => "bytes"
  | PyList _ => "list"
  | PyObject cls => cls
  end.

(** The built-in classes a value is an instance of, most specific first;
    [bool] derives from [int].  A [PyObject] stands for an instance of a
    class of that name that derives from [object] only. *)
Definition class_mro (v : pyvalue) : list string :=
  match v with
  | PyBool _ => ["bool"; "int"; "object"]
  | PyObject _ => ["object"]
  | _ => [class_name v; "object"]
  end.

Definition mem_string (x : string) (l : list string) : bool :=
  existsb (String.eqb x) l.

Definition isinstance (v : pyvalue) (types : list string) : bool :=
  existsb (fun t => mem_string t (class_mro v)) types.

(** Truth value of an object, as [if x:] and [not x] test it. *)
Definition truthy (v : pyvalue) : bool :=
  match v with
  | PyStr s => negb (String.eqb s "")
  | PyInt n => negb (Z.eqb n 0)
  | PyFloat x => negb (PrimFloat.eqb x 0%float)
  | PyBool b => b
  | PyNone => false
  | PyBytes b => negb (String.eqb b "")
  | PyList l => match l with [] => false | _ => true end
  | PyObject _ => true
  end.

(** [str(n)] for an [int]: decimal digits, a leading minus sign when
    negative. *)
Definition int_str (n : Z) : string := NilZero.string_of_int (Z.to_int n).

Definition bool_str (b : bool) : string := if b then "True" else "False".

(* ================================================================== *)
(** * Exceptions and outcomes *)
(* ================================================================== *)

Inductive exn : Type :=
| PyperclipException (msg : string)
| PyperclipWindowsException (msg : string)
| PyperclipTimeoutException (msg : string)
| ValueError (msg : string)
| TypeError (msg : string)
| IndexError (msg : string)
| ImportError (msg : string)
| AttributeError (msg : string)
| FileNotFoundError (msg : string)
| OSError (msg : string)
| CalledProcessError (argv : list string)
| UnicodeDecodeError (codec : string)
| LookupError (msg : string).

(** How a call ends: it returns, it raises, or the model's bound on loop
    iterations ran out while the loop was still going. *)
Inductive outcome (A : Type) : Type :=
| Ret (a : A)
| Raise (e : exn)
| Diverge.

Arguments Ret {A} a.
Arguments Raise {A} e.
Arguments Diverge {A}.

(** Code with effects: a state transformer that keeps the state reached
    when an exception is raised. *)
Definition M (S A : Type) : Type := S -> outcome A * S.

Definition ret {S A} (a : A) : M S A := fun s => (Ret a, s).

Definition raise {S A} (e : exn) : M S A := fun s => (Raise e, s).

Definition bind {S A B} (c : M S A) (k : A -> M S B) : M S B :=
  fun s =>
    match c s with
    | (Ret a, s') => k a s'
    | (Raise e, s') => (Raise e, s')
    | (Diverge, s') => (Diverge, s')
    end.

(** [try: body finally: fin].  The clean-up runs however the body ended;
    an exception of the clean-up replaces the body's outcome. *)
Definition try_finally {S A} (body : M S A) (fin : M S unit) : M S A :=
  fun s =>
    match body s with
    | (Diverge, s') => (Diverge, s')
    | (r, s') =>
        match fin s' with
        | (Ret _, s'') => (r, s'')
        | (Raise e, s'') => (Raise e, s'')
        | (Diverge, s'') => (Diverge, s'')
        end
    end.

(** [try: body except ImportError: handler]. *)
Definition except_ImportError {S A} (body : M S A) (handler : M S A) : M S A :=
  fun s =>
    match body s with
    | (Raise (ImportError _), s') => handler s'
    | r => r
    end.

Definition lift_outcome {S A} (r : outcome A) : M S A := fun s => (r, s).

Declare Scope py_scope.
Delimit Scope py_scope with py.
Notation "x <- c ;; k" := (bind c (fun x => k))
  (at level 61, c at next level, right associativity) : py_scope.
Notation "c ;;; k" := (bind c (fun _ => k))
  (at level 61, right associativity) : py_scope.
Open Scope py_scope.

(* ================================================================== *)
(** * Calling a Python function *)
(* ================================================================== *)

(** A parameter with its default, if it has one. *)
Definition param : Type := string * option pyvalue.

(** A signature: the function's name and its named parameters in order. *)
Record signature : Type := {
  sig_name : string;
  sig_params : list param
}.

Definition kwargs_t : Type := list (string * pyvalue).

Fixpoint assoc {A} (k : string) (l : list (string * A)) : option A :=
  match l with
  | [] => None
  | (k', v) :: l' => if String.eqb k k' then Some v else assoc k l'
  end.

(** Positional arguments fill the parameters from the left: what they
    bind, the parameters left, and whether arguments were left over. *)
Fixpoint bind_positional (ps : list param) (args : list pyvalue)
  : list (string * pyvalue) * list param * bool :=
  match args, ps with
  | [], _ => ([], ps, false)
  | _ :: _, [] => ([], [], true)
  | a :: args', (p, _) :: ps' =>
      let '(bound, rest, over) := bind_positional ps' args' in
      ((p, a) :: bound, rest, over)
  end.

(** The first keyword that names no remaining parameter. *)
Fixpoint unexpected_keyword (rest : list param) (kw : kwargs_t) : option string :=
  match kw with
  | [] => None
  | (k, _) :: kw' =>
      match assoc k rest with
      | Some _ => unexpected_keyword rest kw'
      | None => Some k
      end
  end.

(** The remaining parameters take their keyword, else their default. *)
Fixpoint bind_rest (fname : string) (rest : list param) (kw : kwargs_t)
  : outcome (list (string * pyvalue)) :=
  match rest with
  | [] => Ret []
  | (p, d) :: rest' =>
      match assoc p kw, d with
      | Some v, _ | None, Some v =>
          match bind_rest fname rest' kw with
          | Ret bound => Ret ((p, v) :: bound)
          | other => other
          end
      | None, None =>
          Raise (TypeError (fname ++ "() missing 1 required positional argument: '" ++ p ++ "'"))
      end
  end.

Definition plural (n : nat) : string := if Nat.eqb n 1 then "" else "s".

(** How many positional arguments a function takes, as the error message
    words it. *)
Definition takes_text (ps : list param) : string :=
  let total := List.length ps in
  let needed := List.length (filter (fun p => match snd p with None => true | Some _ => false end) ps) in
  if Nat.eqb needed total then
    int_str (Z.of_nat total) ++ " positional argument" ++ plural total
  else
    "from " ++ int_str (Z.of_nat needed) ++ " to " ++ int_str (Z.of_nat total)
    ++ " positional arguments".

(** Argument binding of a call for a function with a fixed parameter
    list, in the interpreter's order: the positional arguments are
    bound; then the keywords are taken one by one, the first that names
    a parameter already given or no parameter at all raising
    [TypeError]; then positional arguments left over raise it; then a
    parameter without argument and without default does. *)
Definition bind_args (sg : signature) (args : list pyvalue) (kw : kwargs_t)
  : outcome (list (string * pyvalue)) :=
  let '(bound, rest, over) := bind_positional (sig_params sg) args in
  match unexpected_keyword rest kw with
  | Some k =>
      match assoc k bound with
      | Some _ =>
          Raise (TypeError (sig_name sg ++ "() got multiple values for argument '" ++ k ++ "'"))
      | None =>
          Raise (TypeError (sig_name sg ++ "() got an unexpected keyword argument '" ++ k ++ "'"))
      end
  | None =>
      if over then
        Raise (TypeError (sig_name sg ++ "() takes " ++ takes_text (sig_params sg)
                          ++ " but " ++ int_str (Z.of_nat (List.length args))
                          ++ (if Nat.eqb (List.length args) 1 then " was given" else " were given")))
      else
        match bind_rest (sig_name sg) rest kw with
        | Ret more => Ret (bound ++ more)%list
        | other => other
        end
  end.

(** The value bound to a parameter ([PyNone] stands in when the name is
    not bound, which [bind_args] rules out for a parameter of the
    signature). *)
Definition arg (bound : list (string * pyvalue)) (p : string) : pyvalue :=
  match assoc p bound with Some v => v | None => PyNone end.

(* ================================================================== *)
(** * Strings *)
(* ================================================================== *)

(** [str.lower] on one code point below 256: the letters A to Z and the
    capital letters of Latin-1 (192 to 222, the multiplication sign 215
    apart) have their small letter 32 places on. *)
Definition ascii_lower (c : ascii) : ascii :=
  let n := nat_of_ascii c in
  if (Nat.leb 65 n && Nat.leb n 90)
     || (Nat.leb 192 n && Nat.leb n 222 && negb (Nat.eqb n 215))
  then ascii_of_nat (n + 32) else c.

(** [s.lower()]. *)
Fixpoint lower (s : string) : string :=
  match s with
  | EmptyString => EmptyString
  | String c s' => String (ascii_lower c) (lower s')
  end.

(** [needle in hay]. *)
Fixpoint contains (needle hay : string) : bool :=
  if prefix needle hay then true
  else match hay with
       | EmptyString => false
       | String _ hay' => contains needle hay'
       end.

(** [s.endswith(suffix)]. *)
Definition endswith (s suffix : string) : bool :=
  let n := String.length s in
  let k := String.length suffix in
  Nat.leb k n && String.eqb (substring (n - k) k s) suffix.

(** [s[:-k]]. *)
Definition drop_last (k : nat) (s : string) : string :=
  substring 0 (String.length s - k) s.

(** The code points below 256 that [str.strip] takes off: 9 to 13, 28 to
    32, 133 (next line) and 160 (no-break space). *)
Definition is_space (c : ascii) : bool :=
  let n := nat_of_ascii c in
  (Nat.leb 9 n && Nat.leb n 13) || (Nat.leb 28 n && Nat.leb n 32)
  || Nat.eqb n 133 || Nat.eqb n 160.

Fixpoint lstrip (s : string) : string :=
  match s with
  | String c s' => if is_space c then lstrip s' else s
  | EmptyString => EmptyString
  end.

Fixpoint rstrip (s : string) : string :=
  match s with
  | EmptyString => EmptyString
  | String c s' =>
      match rstrip s' with
      | EmptyString => if is_space c then EmptyString else String c EmptyString
      | t => String c t
      end
  end.

(** [s.strip()]. *)
Definition strip (s : string) : string := lstrip (rstrip s).

(** The code points below 256 at which [str.splitlines] breaks: 10 to
    13, 28 to 30 and 133 (next line). *)
Definition is_linebreak (c : ascii) : bool :=
  let n := nat_of_ascii c in
  (Nat.leb 10 n && Nat.leb n 13) || (Nat.leb 28 n && Nat.leb n 30) || Nat.eqb n 133.

(** [s.splitlines()]: the lines of [s] without their line breaks, a
    carriage return followed by a line feed counting as one break; no
    empty last line after a final break, and no line at all for the empty
    string.  [cur] is the line being read, if one has begun. *)
Fixpoint splitlines_from (cur : option string) (s : string) : list string :=
  let line := match cur with Some l => l | None => EmptyString end in
  match s with
  | EmptyString => match cur with Some l => [l] | None => [] end
  | String c s' =>
      if is_linebreak c then
        match c, s' with
        | "013"%char, String "010"%char s'' => line :: splitlines_from None s''
        | _, _ => line :: splitlines_from None s'
        end
      else splitlines_from (Some (line ++ String c EmptyString)%string) s'
  end.

Definition splitlines (s : string) : list string := splitlines_from None s.

(* ================================================================== *)
(** * The host and the effects of the module *)
(* ================================================================== *)

(** A Win32 or C runtime call of the native backend. *)
Inductive wincall : Type :=
| CreateWindowExA (lpClassName : string)
| DestroyWindow (hwnd : Z)
| OpenClipboard (hwnd : Z)
| CloseClipboard
| EmptyClipboard
| GetClipboardData (format : Z)
| SetClipboardData (format : Z) (handle : Z)
| GlobalAlloc (flags : Z) (size : Z)
| GlobalLock (handle : Z)
| GlobalUnlock (handle : Z)
| wcslen (text : string)
| memmove (dst : Z) (text : string) (count : Z).

(** The foreign function's [__name__]. *)
Definition call_name (c : wincall) : string :=
  match c with
  | CreateWindowExA _ => "CreateWindowExA"
  | DestroyWindow _ => "DestroyWindow"
  | OpenClipboard _ => "OpenClipboard"
  | CloseClipboard => "CloseClipboard"
  | EmptyClipboard => "EmptyClipboard"
  | GetClipboardData _ => "GetClipboardData"
  | SetClipboardData _ _ => "SetClipboardData"
  | GlobalAlloc _ _ => "GlobalAlloc"
  | GlobalLock _ => "GlobalLock"
  | GlobalUnlock _ => "GlobalUnlock"
  | wcslen _ => "wcslen"
  | memmove _ _ _ => "memmove"
  end.

(** What the module does to its surroundings, in the order it does it. *)
Inductive event : Type :=
| EvPathExists (path : string)
| EvIsFile (path : string)
| EvReadFile (path : string)
| EvWriteFile (path : string) (text : string)
| EvGetenv (name : string)
| EvWhich (name : string)
| EvImport (module : string)
| EvQApplication
| EvPopen (argv : list string) (stdin : option string)
| EvCheckCall (argv : list string)
| EvShell (cmd : string)
| EvWarn (msg : string)
| EvPasteboardSet (data : string)
| EvPasteboardGet
| EvQtSetText (text : string)
| EvQtText
| EvWin (c : wincall)
| EvSleep (seconds : float)
| EvTime.

(** The surroundings of the process.  Replies that may differ from one
    call to the next are indexed: what a helper prints and what the
    clipboard device and the toolkit clipboards hold, by the number of
    effects so far; clipboard-open attempts and clock readings, by their
    count.  Every other foreign function is called at most once in one
    native operation, so one return value for each, by the function's
    name, covers every run of an operation.  [win_error] is the text of
    [ctypes.WinError()] when the failure of the named call is reported,
    the text the system has for [last_error], the code [GetLastError]
    gives after that call; [locked_text] is the text found at a locked
    handle.  [ctypes_errno] is what [ctypes.get_errno()] reads: the
    runtime's private copy of [errno], which a foreign call writes only
    when its library was loaded with [use_errno=True]; the module loads
    none that way and never sets the copy, so it is one value
    throughout, and it is not the system's error code.

    Of the interpreter the host says whether the errors of a call name
    the function by its qualified name, as Python 3.10 and later do, and
    how many digits [str] of an [int] may have, [sys.get_int_max_str_digits()],
    0 standing for no limit.  Of the system it says how much longer than
    4096 bytes, the least POSIX lets a system take, one argument of a
    program may be. *)
Record Host : Type := {
  (* platform identity *)
  platform_system : string;
  os_name : string;
  (* file system, environment, search path, importable modules *)
  path_exists : string -> bool;
  path_isfile : string -> bool;
  file_text : string -> string;
  device_text : nat -> string;
  getenv : string -> option string;
  which : string -> option string;
  importable : string -> bool;
  qapplication_instance : bool;
  (* the interpreter: how it names functions, the digits of an int *)
  qualified_names : bool;
  int_max_str_digits : nat;
  (* the runtime: str of a float, the codec *)
  float_str : float -> string;
  str_encode : string -> string -> string;
  bytes_decode : string -> string -> string -> option string;
  handler_error : string -> exn;
  (* helper programs *)
  helper_stdout : nat -> list string -> string;
  helper_exit : nat -> list string -> Z;
  shell_stdout : nat -> string -> string;
  arg_room : N;
  (* toolkit clipboards *)
  pasteboard_string : nat -> option string;
  qt_text : nat -> string;
  (* the native clipboard *)
  win_reply : string -> Z;
  open_reply : nat -> Z;
  ctypes_errno : Z;
  last_error : string -> Z;
  locked_text : string;
  win_error : string -> string;
  (* the clock *)
  clock : nat -> float
}.

(** The state the effects thread: what happened so far, how many times
    the clock was read, how many times the clipboard was asked to open,
    and a ledger of what the process has acquired and not yet handed
    back: the window handles it created and has not passed to
    [DestroyWindow], and whether it opened the clipboard and has not
    called [CloseClipboard] since. *)
Record world : Type := {
  trace : list event;
  ticks : nat;
  opens : nat;
  hwnds : list Z;
  holding : bool
}.

Definition world0 : world :=
  {| trace := []; ticks := 0; opens := 0; hwnds := []; holding := false |}.

(** The world after further effects that touch nothing but the trace. *)
Definition probed (w : world) (evs : list event) : world :=
  {| trace := (trace w ++ evs)%list; ticks := ticks w; opens := opens w;
     hwnds := hwnds w; holding := holding w |}.

Definition emit (e : event) : M world unit := fun w => (Ret tt, probed w [e]).

(** The number of effects so far, the index of the next helper reply. *)
Definition stamp (w : world) : nat := List.length (trace w).

Definition ask {A} (f : nat -> A) : M world A := fun w => (Ret (f (stamp w)), w).

Section WithHost.

Variable h : Host.

(** [time.time()]. *)
Definition time_time : M world float :=
  fun w => (Ret (clock h (ticks w)),
            {| trace := (trace w ++ [EvTime])%list; ticks := S (ticks w); opens := opens w;
               hwnds := hwnds w; holding := holding w |}).

(** [time.sleep(seconds)]. *)
Definition time_sleep (seconds : float) : M world unit := emit (EvSleep seconds).

(** [shutil.which(name)], read for its truth value. *)
Definition _executable_exists (name : string) : M world bool :=
  emit (EvWhich name) ;;;
  ret (match which h name with Some _ => true | None => false end).

(** [os.getenv(name)]. *)
Definition os_getenv (name : string) : M world (option string) :=
  emit (EvGetenv name) ;;; ret (getenv h name).

(** [import module]. *)
Definition import (module : string) : M world unit :=
  emit (EvImport module) ;;;
  if importable h module then ret tt
  else raise (ImportError ("No module named '" ++ module ++ "'")).

(** The string holds the character of code 0. *)
Definition has_nul (s : string) : bool :=
  existsb (Ascii.eqb "000"%char) (list_ascii_of_string s).

(** How long an argument of a program may be is the system's to say
    ([arg_room]), but no system refuses one of 4096 bytes or fewer, the
    least that POSIX allows for [ARG_MAX]: the fixed arguments of the
    module's commands always pass. *)
Definition ARG_FLOOR : N := 4096.

(** The system does not take an argument this long. *)
Definition too_long (a : string) : bool :=
  N.ltb (ARG_FLOOR + arg_room h) (N.of_nat (String.length a)).

(** Starting the program of [argv], as [subprocess.Popen(argv, ...)]
    does: an argument that holds a null byte is refused before anything
    is run; a program that is not on the search path cannot be started;
    and the system refuses an argument that is too long. *)
Definition spawn (argv : list string) : M world unit :=
  if existsb has_nul argv then raise (ValueError "embedded null byte")
  else
    match which h (hd "" argv) with
    | None => raise (FileNotFoundError (hd "" argv))
    | Some _ =>
        if existsb too_long argv then
          raise (OSError ("[Errno 7] Argument list too long: '" ++ hd "" argv ++ "'"))
        else ret tt
    end.

(** [subprocess.Popen(argv, ...)] followed by [communicate(input)]: the
    helper's standard output. *)
Definition Popen_communicate (argv : list string) (input : option string) : M world string :=
  spawn argv ;;;
  out <- ask (fun n => helper_stdout h n argv) ;;
  emit (EvPopen argv input) ;;;
  ret out.

(** [subprocess.check_call(argv, close_fds=True)]. *)
Definition check_call (argv : list string) : M world unit :=
  spawn argv ;;;
  code <- ask (fun n => helper_exit h n argv) ;;
  emit (EvCheckCall argv) ;;;
  if Z.eqb code 0 then ret tt else raise (CalledProcessError argv).

(** [subprocess.run([cmd], capture_output=True, text=True, shell=True)],
    read for [result.stdout]; a shell always starts. *)
Definition shell_run (cmd : string) : M world string :=
  out <- ask (fun n => shell_stdout h n cmd) ;;
  emit (EvShell cmd) ;;;
  ret out.

Definition ENCODING : string := "utf-8".

(** [text.encode(ENCODING)], which cannot fail on a text of code points
    below 256. *)
Definition encode (text : string) : string := str_encode h ENCODING text.

(** How an error message names the class of an argument of the wrong
    type: by the name of its class, [None] by its own name. *)
Definition argument_class (v : pyvalue) : string :=
  match v with
  | PyNone => "None"
  | _ => class_name v
  end.

(** [data.decode(ENCODING, errors)]; [errors] must be a [str].  On bytes
    that do not decode, the handler [strict] raises [UnicodeDecodeError];
    what any other handler raises is the host's to say ([LookupError] for
    a name that is not registered). *)
Definition decode (data : string) (errors : pyvalue) : M world string :=
  match errors with
  | PyStr handler =>
      match bytes_decode h ENCODING handler data with
      | Some text => ret text
      | None =>
          raise (if String.eqb handler "strict" then UnicodeDecodeError ENCODING
                 else handler_error h handler)
      end
  | _ => raise (TypeError ("decode() argument 'errors' must be str, not "
                           ++ argument_class errors))
  end.

(** The number of decimal digits of an [int], its sign apart. *)
Definition digits (n : Z) : nat := String.length (int_str (Z.abs n)).

(** The interpreter refuses to convert an [int] of this many digits. *)
Definition over_limit (n : Z) : bool :=
  negb (Nat.eqb (int_max_str_digits h) 0) && Nat.ltb (int_max_str_digits h) (digits n).

Definition digit_limit_error : exn :=
  ValueError ("Exceeds the limit (" ++ int_str (Z.of_nat (int_max_str_digits h))
              ++ " digits) for integer string conversion; "
              ++ "use sys.set_int_max_str_digits() to increase the limit").

(** [str(x)].  The module calls it on the four accepted types only; for
    the other classes a placeholder stands for their text.  The
    conversion of an [int] is refused past the limit on its digits. *)
Definition str (v : pyvalue) : outcome string :=
  match v with
  | PyStr s => Ret s
  | PyInt n => if over_limit n then Raise digit_limit_error else Ret (int_str n)
  | PyFloat x => Ret (float_str h x)
  | PyBool b => Ret (bool_str b)
  | _ => Ret ("<" ++ class_name v ++ ">")
  end.

Definition acceptedTypes : list string := ["str"; "int"; "float"; "bool"].

Definition _stringifyText (text : pyvalue) : outcome string :=
  if negb (isinstance text acceptedTypes) then
    Raise (PyperclipException
             ("only str, int, float, and bool values can be copied to the clipboard, not "
              ++ class_name text))
  else str text.

End WithHost.

(* ================================================================== *)
(** * The backends that run a helper or a toolkit *)
(* ================================================================== *)

Definition nl : string := String "010"%char EmptyString.
Definition cr : string := String "013"%char EmptyString.

Definition EXCEPT_MSG : string :=
  nl ++ "    Pyperclip could not find a copy/paste mechanism for your system."
     ++ nl ++ "    For more information, please visit https://pyperclip.readthedocs.io/en/latest/index.html#not-implemented-error ".

Section Backends.

Variable h : Host.

Definition stringify (text : pyvalue) : M world string :=
  lift_outcome (_stringifyText h text).

(** ** macOS *)

Definition copy_osx_pbcopy (text : pyvalue) : M world pyvalue :=
  text <- stringify text ;;
  Popen_communicate h ["pbcopy"; "w"] (Some (encode h text)) ;;;
  ret PyNone.

Definition paste_osx_pbcopy (errors : pyvalue) : M world pyvalue :=
  stdout <- Popen_communicate h ["pbpaste"; "r"] None ;;
  text <- decode h stdout errors ;;
  ret (PyStr text).

Definition copy_osx_pyobjc (text : pyvalue) : M world pyvalue :=
  text <- stringify text ;;
  emit (EvPasteboardSet (encode h text)) ;;;
  ret PyNone.

(** [stringForType_] hands back [None] when the pasteboard holds no
    string. *)
Definition paste_osx_pyobjc : M world pyvalue :=
  content <- ask (pasteboard_string h) ;;
  emit EvPasteboardGet ;;;
  ret (match content with Some s => PyStr s | None => PyNone end).

(** ** Qt *)

(** The set-up of [init_qt_clipboard]: [QApplication] comes from qtpy,
    or from PyQt5 when that import fails for any reason; the running
    application is reused, else one is created. *)
Definition qt_application : M world unit :=
  emit (EvImport "qtpy.QtWidgets") ;;;
  (if importable h "qtpy.QtWidgets" then ret tt else import h "PyQt5.QtWidgets") ;;;
  if qapplication_instance h then ret tt else emit EvQApplication.

Definition copy_qt (text : pyvalue) : M world pyvalue :=
  text <- stringify text ;;
  emit (EvQtSetText text) ;;;
  ret PyNone.

Definition paste_qt : M world pyvalue :=
  text <- ask (qt_text h) ;;
  emit EvQtText ;;;
  ret (PyStr text).

(** ** xclip, xsel, wl-clipboard *)

Definition copy_xclip (text primary : pyvalue) : M world pyvalue :=
  text <- stringify text ;;
  let selection := if truthy primary then "p" else "c" in
  Popen_communicate h ["xclip"; "-selection"; selection] (Some (encode h text)) ;;;
  ret PyNone.

Definition paste_xclip (primary : pyvalue) : M world pyvalue :=
  let selection := if truthy primary then "p" else "c" in
  stdout <- Popen_communicate h ["xclip"; "-selection"; selection; "-o"] None ;;
  text <- decode h stdout (PyStr "strict") ;;
  ret (PyStr text).

Definition copy_xsel (text primary : pyvalue) : M world pyvalue :=
  text <- stringify text ;;
  let selection_flag := if truthy primary then "-p" else "-b" in
  Popen_communicate h ["xsel"; selection_flag; "-i"] (Some (encode h text)) ;;;
  ret PyNone.

Definition paste_xsel (primary : pyvalue) : M world pyvalue :=
  let selection_flag := if truthy primary then "-p" else "-b" in
  stdout <- Popen_communicate h ["xsel"; selection_flag; "-o"] None ;;
  text <- decode h stdout (PyStr "strict") ;;
  ret (PyStr text).

Definition copy_wl (text primary : pyvalue) : M world pyvalue :=
  text <- stringify text ;;
  let args := (["wl-copy"] ++ (if truthy primary then ["-p"] else []))%list in
  if negb (truthy (PyStr text)) then
    check_call h (args ++ ["--clear"])%list ;;; ret PyNone
  else
    Popen_communicate h args (Some (encode h text)) ;;; ret PyNone.

Definition paste_wl (primary : pyvalue) : M world pyvalue :=
  let args := (["wl-paste"; "-n"; "-t"; "text"] ++ (if truthy primary then ["-p"] else []))%list in
  stdout <- Popen_communicate h args None ;;
  text <- decode h stdout (PyStr "strict") ;;
  ret (PyStr text).

(** ** GPaste *)

Definition start_client_gpaste : M world unit :=
  shell_run h "gpaste-client daemon-reexec & exit" ;;;
  shell_run h "gpaste-client start & exit" ;;;
  ret tt.

Definition copy_gpaste (text : pyvalue) : M world pyvalue :=
  text <- stringify text ;;
  if negb (truthy (PyStr text)) then
    check_call h ["gpaste-client"; "delete-history"] ;;; ret PyNone
  else
    Popen_communicate h ["gpaste-client"; "add"] (Some (encode h text)) ;;; ret PyNone.

Definition paste_gpaste : M world pyvalue :=
  stdout <- shell_run h "gpaste-client history --raw & exit" ;;
  match map strip (splitlines stdout) with
  | last_item_in_history :: _ => ret (PyStr last_item_in_history)
  | [] => raise (IndexError "list index out of range")
  end.

(** ** Klipper *)

Definition copy_klipper (text : pyvalue) : M world pyvalue :=
  text <- stringify text ;;
  Popen_communicate h
    ["qdbus"; "org.kde.klipper"; "/klipper"; "setClipboardContents"; encode h text] None ;;;
  ret PyNone.

Definition paste_klipper : M world pyvalue :=
  stdout <- Popen_communicate h
              ["qdbus"; "org.kde.klipper"; "/klipper"; "getClipboardContents"] None ;;
  clipboardContents <- decode h stdout (PyStr "strict") ;;
  ret (PyStr (if endswith clipboardContents nl then drop_last 1 clipboardContents
              else clipboardContents)).

(** ** Cygwin's /dev/clipboard *)

Definition copy_dev_clipboard (text : pyvalue) : M world pyvalue :=
  text <- stringify text ;;
  (if String.eqb text "" then
     emit (EvWarn "Pyperclip cannot copy a blank string to the clipboard on Cygwin. This is effectively a no-op.")
   else ret tt) ;;;
  (if contains cr text then
     emit (EvWarn "Pyperclip cannot handle \r characters on Cygwin.")
   else ret tt) ;;;
  emit (EvWriteFile "/dev/clipboard" text) ;;;
  ret PyNone.

Definition paste_dev_clipboard : M world pyvalue :=
  if path_exists h "/dev/clipboard" then
    content <- ask (device_text h) ;;
    emit (EvReadFile "/dev/clipboard") ;;;
    ret (PyStr content)
  else raise (FileNotFoundError "/dev/clipboard").

(** ** Windows Subsystem for Linux *)

Definition copy_wsl (text : pyvalue) : M world pyvalue :=
  text <- stringify text ;;
  Popen_communicate h ["clip.exe"] (Some (encode h text)) ;;;
  ret PyNone.

Definition paste_wsl : M world pyvalue :=
  stdout <- Popen_communicate h ["powershell.exe"; "-noprofile"; "-command"; "Get-Clipboard"] None ;;
  text <- decode h (drop_last 2 stdout) (PyStr "strict") ;;
  ret (PyStr text).

(** ** No clipboard: [ClipboardUnavailable.__call__] *)

Definition ClipboardUnavailable_call : M world pyvalue :=
  raise (PyperclipException EXCEPT_MSG).

End Backends.

(* ================================================================== *)
(** * The native Windows backend *)
(* ================================================================== *)

Definition GMEM_MOVEABLE : Z := 2.
Definition CF_UNICODETEXT : Z := 13.
(** [sizeof(c_wchar)] on Windows. *)
Definition sizeof_c_wchar : Z := 2.

Section Native.

Variable h : Host.

(** [PyperclipWindowsException(message)]: the message is extended with
    the text of [ctypes.WinError()]. *)
Definition windows_exception (message : string) (failing : string) : exn :=
  PyperclipWindowsException (message ++ " (" ++ win_error h failing ++ ")").

(** The ledger after a foreign call whose return value is [r]: a call
    that creates, destroys, opens or closes does so when it hands back a
    value other than 0, and changes nothing when it hands back 0. *)
Definition account (c : wincall) (r : Z) (w : world) : world :=
  {| trace := (trace w ++ [EvWin c])%list;
     ticks := ticks w;
     opens := match c with OpenClipboard _ => S (opens w) | _ => opens w end;
     hwnds := match c with
              | CreateWindowExA _ => if Z.eqb r 0 then hwnds w else r :: hwnds w
              | DestroyWindow hwnd =>
                  if Z.eqb r 0 then hwnds w else remove Z.eq_dec hwnd (hwnds w)
              | _ => hwnds w
              end;
     holding := match c with
                | OpenClipboard _ => if Z.eqb r 0 then holding w else true
                | CloseClipboard => if Z.eqb r 0 then holding w else false
                | _ => holding w
                end |}.

(** A foreign function called as it was loaded. *)
Definition foreign (c : wincall) : M world Z :=
  fun w =>
    let r := match c with
             | OpenClipboard _ => open_reply h (opens w)
             | _ => win_reply h (call_name c)
             end in
    (Ret r, account c r w).

(** [CheckedCall(f)(args)]: the call, then an exception when it handed
    back a false value and [get_errno()] is set. *)
Definition CheckedCall (c : wincall) : M world Z :=
  r <- foreign c ;;
  if Z.eqb r 0 && negb (Z.eqb (ctypes_errno h) 0) then
    raise (windows_exception ("Error calling " ++ call_name c) (call_name c))
  else ret r.

(** What [ctypes] raises on Windows when a foreign function writes
    through a null pointer, on a 64-bit interpreter. *)
Definition access_violation : exn :=
  OSError "exception: access violation writing 0x0000000000000000".

(** [ctypes.memmove(dst, c_wchar_p(text), count)]: called as it is, not
    through [CheckedCall]; copying to a null destination faults. *)
Definition ctypes_memmove (dst : Z) (text : string) (count : Z) : M world Z :=
  r <- foreign (memmove dst text count) ;;
  if Z.eqb dst 0 then raise access_violation else ret r.

(** [with window() as hwnd: body]. *)
Definition window {A} (body : Z -> M world A) : M world A :=
  hwnd <- CheckedCall (CreateWindowExA "STATIC") ;;
  try_finally (body hwnd) (CheckedCall (DestroyWindow hwnd) ;;; ret tt).

(** The retry loop of [clipboard(hwnd)], at most [fuel] rounds of it:
    whether the clipboard was opened before the clock reached [t]. *)
Fixpoint open_loop (fuel : nat) (t : float) (hwnd : Z) : M world bool :=
  match fuel with
  | O => fun w => (Diverge, w)
  | S fuel' =>
      now <- time_time h ;;
      if PrimFloat.ltb now t then
        success <- foreign (OpenClipboard hwnd) ;;
        if negb (Z.eqb success 0) then ret true
        else time_sleep 0.01 ;;; open_loop fuel' t hwnd
      else ret false
  end.

(** [with clipboard(hwnd): body]. *)
Definition clipboard {A} (fuel : nat) (hwnd : Z) (body : M world A) : M world A :=
  now <- time_time h ;;
  let t := PrimFloat.add now 0.5 in
  success <- open_loop fuel t hwnd ;;
  if negb success then
    raise (windows_exception "Error calling OpenClipboard" "OpenClipboard")
  else
    try_finally body (CheckedCall CloseClipboard ;;; ret tt).

Definition copy_windows (fuel : nat) (text : pyvalue) : M world pyvalue :=
  text <- lift_outcome (_stringifyText h text) ;;
  window (fun hwnd =>
    clipboard fuel hwnd (
      CheckedCall EmptyClipboard ;;;
      if truthy (PyStr text) then
        n <- CheckedCall (wcslen text) ;;
        let count := (n + 1)%Z in
        handle <- CheckedCall (GlobalAlloc GMEM_MOVEABLE (count * sizeof_c_wchar)) ;;
        locked_handle <- CheckedCall (GlobalLock handle) ;;
        ctypes_memmove locked_handle text (count * sizeof_c_wchar) ;;;
        CheckedCall (GlobalUnlock handle) ;;;
        CheckedCall (SetClipboardData CF_UNICODETEXT handle) ;;;
        ret PyNone
      else ret PyNone)).

Definition paste_windows (fuel : nat) : M world pyvalue :=
  clipboard fuel 0 (
    handle <- CheckedCall (GetClipboardData CF_UNICODETEXT) ;;
    if Z.eqb handle 0 then ret (PyStr "")
    else
      locked_handle <- CheckedCall (GlobalLock handle) ;;
      let return_value :=
        if Z.eqb locked_handle 0 then PyNone else PyStr (locked_text h) in
      CheckedCall (GlobalUnlock handle) ;;;
      ret return_value).

End Native.

(* ================================================================== *)
(** * Backends as values: initialisers and calls *)
(* ================================================================== *)

(** The clipboard mechanisms of the module, one for each [init_*]
    function. *)
Inductive backend : Type :=
| DevClipboard
| Windows
| Wsl
| OsxPyobjc
| OsxPbcopy
| Gpaste
| Klipper
| WlClipboard
| Xsel
| Xclip
| Qt
| NoClipboard.

(** The function objects the entry points can be bound to: the two lazy
    stubs, and the pair an initialiser returns (for [NoClipboard], two
    [ClipboardUnavailable] instances). *)
Inductive callable : Type :=
| lazy_load_stub_copy
| lazy_load_stub_paste
| copy_of (b : backend)
| paste_of (b : backend).

Definition backend_eqb (a b : backend) : bool :=
  match a, b with
  | DevClipboard, DevClipboard | Windows, Windows | Wsl, Wsl
  | OsxPyobjc, OsxPyobjc | OsxPbcopy, OsxPbcopy | Gpaste, Gpaste
  | Klipper, Klipper | WlClipboard, WlClipboard | Xsel, Xsel
  | Xclip, Xclip | Qt, Qt | NoClipboard, NoClipboard => true
  | _, _ => false
  end.

(** [f != g] on function objects: identity.  An initialiser makes new
    objects at every call; the module only ever compares against the two
    stubs, which is all this comparison is used for. *)
Definition callable_neqb (f g : callable) : bool :=
  match f, g with
  | lazy_load_stub_copy, lazy_load_stub_copy => false
  | lazy_load_stub_paste, lazy_load_stub_paste => false
  | copy_of a, copy_of b => negb (backend_eqb a b)
  | paste_of a, paste_of b => negb (backend_eqb a b)
  | _, _ => true
  end.

Definition required (p : string) : param := (p, None).
Definition optional (p : string) (d : pyvalue) : param := (p, Some d).

(** The parameter lists of the backend functions, as their [def] lines
    give them.  [ClipboardUnavailable.__call__] takes any arguments and
    has no entry. *)
Definition signature_of (f : callable) : option signature :=
  match f with
  | lazy_load_stub_copy => Some {| sig_name := "lazy_load_stub_copy"; sig_params := [required "text"] |}
  | lazy_load_stub_paste => Some {| sig_name := "lazy_load_stub_paste"; sig_params := [] |}
  | copy_of DevClipboard => Some {| sig_name := "copy_dev_clipboard"; sig_params := [required "text"] |}
  | paste_of DevClipboard => Some {| sig_name := "paste_dev_clipboard"; sig_params := [] |}
  | copy_of Windows => Some {| sig_name := "copy_windows"; sig_params := [required "text"] |}
  | paste_of Windows => Some {| sig_name := "paste_windows"; sig_params := [] |}
  | copy_of Wsl => Some {| sig_name := "copy_wsl"; sig_params := [required "text"] |}
  | paste_of Wsl => Some {| sig_name := "paste_wsl"; sig_params := [] |}
  | copy_of OsxPyobjc => Some {| sig_name := "copy_osx_pyobjc"; sig_params := [required "text"] |}
  | paste_of OsxPyobjc => Some {| sig_name := "paste_osx_pyobjc"; sig_params := [] |}
  | copy_of OsxPbcopy => Some {| sig_name := "copy_osx_pbcopy"; sig_params := [required "text"] |}
  | paste_of OsxPbcopy =>
      Some {| sig_name := "paste_osx_pbcopy"; sig_params := [optional "errors" (PyStr "strict")] |}
  | copy_of Gpaste => Some {| sig_name := "copy_gpaste"; sig_params := [required "text"] |}
  | paste_of Gpaste => Some {| sig_name := "paste_gpaste"; sig_params := [] |}
  | copy_of Klipper => Some {| sig_name := "copy_klipper"; sig_params := [required "text"] |}
  | paste_of Klipper => Some {| sig_name := "paste_klipper"; sig_params := [] |}
  | copy_of WlClipboard =>
      Some {| sig_name := "copy_wl"; sig_params := [required "text"; optional "primary" (PyBool false)] |}
  | paste_of WlClipboard =>
      Some {| sig_name := "paste_wl"; sig_params := [optional "primary" (PyBool false)] |}
  | copy_of Xsel =>
      Some {| sig_name := "copy_xsel"; sig_params := [required "text"; optional "primary" (PyBool false)] |}
  | paste_of Xsel =>
      Some {| sig_name := "paste_xsel"; sig_params := [optional "primary" (PyBool false)] |}
  | copy_of Xclip =>
      Some {| sig_name := "copy_xclip"; sig_params := [required "text"; optional "primary" (PyBool false)] |}
  | paste_of Xclip =>
      Some {| sig_name := "paste_xclip"; sig_params := [optional "primary" (PyBool false)] |}
  | copy_of Qt => Some {| sig_name := "copy_qt"; sig_params := [required "text"] |}
  | paste_of Qt => Some {| sig_name := "paste_qt"; sig_params := [] |}
  | copy_of NoClipboard | paste_of NoClipboard => None
  end.

(** The initialiser inside which the functions of a backend are
    defined. *)
Definition defined_in (b : backend) : string :=
  match b with
  | DevClipboard => "init_dev_clipboard_clipboard"
  | Windows => "init_windows_clipboard"
  | Wsl => "init_wsl_clipboard"
  | OsxPyobjc => "init_osx_pyobjc_clipboard"
  | OsxPbcopy => "init_osx_pbcopy_clipboard"
  | Gpaste => "init_gpaste_clipboard"
  | Klipper => "init_klipper_clipboard"
  | WlClipboard => "init_wl_clipboard"
  | Xsel => "init_xsel_clipboard"
  | Xclip => "init_xclip_clipboard"
  | Qt => "init_qt_clipboard"
  | NoClipboard => "init_no_clipboard"
  end.

(** The signature under the name the interpreter gives the function in
    the errors of a call: the qualified name of a function defined
    inside an initialiser when it uses qualified names, the name of the
    [def] line otherwise and for the module's own functions. *)
Definition shown (h : Host) (f : callable) (sg : signature) : signature :=
  match f with
  | copy_of b | paste_of b =>
      if qualified_names h then
        {| sig_name := defined_in b ++ ".<locals>." ++ sig_name sg;
           sig_params := sig_params sg |}
      else sg
  | _ => sg
  end.

Section Calls.

Variable h : Host.
(** The bound on the rounds of one clipboard-open retry loop. *)
Variable fuel : nat.

(** The body of a backend function, its parameters bound. *)
Definition body_of (f : callable) (a : list (string * pyvalue)) : M world pyvalue :=
  match f with
  | copy_of DevClipboard => copy_dev_clipboard h (arg a "text")
  | paste_of DevClipboard => paste_dev_clipboard h
  | copy_of Windows => copy_windows h fuel (arg a "text")
  | paste_of Windows => paste_windows h fuel
  | copy_of Wsl => copy_wsl h (arg a "text")
  | paste_of Wsl => paste_wsl h
  | copy_of OsxPyobjc => copy_osx_pyobjc h (arg a "text")
  | paste_of OsxPyobjc => paste_osx_pyobjc h
  | copy_of OsxPbcopy => copy_osx_pbcopy h (arg a "text")
  | paste_of OsxPbcopy => paste_osx_pbcopy h (arg a "errors")
  | copy_of Gpaste => copy_gpaste h (arg a "text")
  | paste_of Gpaste => paste_gpaste h
  | copy_of Klipper => copy_klipper h (arg a "text")
  | paste_of Klipper => paste_klipper h
  | copy_of WlClipboard => copy_wl h (arg a "text") (arg a "primary")
  | paste_of WlClipboard => paste_wl h (arg a "primary")
  | copy_of Xsel => copy_xsel h (arg a "text") (arg a "primary")
  | paste_of Xsel => paste_xsel h (arg a "primary")
  | copy_of Xclip => copy_xclip h (arg a "text") (arg a "primary")
  | paste_of Xclip => paste_xclip h (arg a "primary")
  | copy_of Qt => copy_qt h (arg a "text")
  | paste_of Qt => paste_qt h
  | copy_of NoClipboard | paste_of NoClipboard => ClipboardUnavailable_call
  | lazy_load_stub_copy | lazy_load_stub_paste => fun w => (Diverge, w)
  end.

(** Calling a backend function with positional and keyword arguments:
    the arguments are bound to its parameters, then its body runs.  The
    stubs are not backend functions: they are called through [call]
    below, and an initialiser never returns one. *)
Definition call_backend (f : callable) (args : list pyvalue) (kw : kwargs_t) : M world pyvalue :=
  match signature_of f with
  | None => ClipboardUnavailable_call
  | Some sg =>
      a <- lift_outcome (bind_args (shown h f sg) args kw) ;;
      body_of f a
  end.

(** ** The initialisers *)

Definition pair_of (b : backend) : callable * callable := (copy_of b, paste_of b).

Definition init_osx_pbcopy_clipboard : M world (callable * callable) := ret (pair_of OsxPbcopy).
Definition init_osx_pyobjc_clipboard : M world (callable * callable) := ret (pair_of OsxPyobjc).
Definition init_qt_clipboard : M world (callable * callable) :=
  qt_application h ;;; ret (pair_of Qt).
Definition init_xclip_clipboard : M world (callable * callable) := ret (pair_of Xclip).
Definition init_xsel_clipboard : M world (callable * callable) := ret (pair_of Xsel).
Definition init_wl_clipboard : M world (callable * callable) := ret (pair_of WlClipboard).
Definition init_gpaste_clipboard : M world (callable * callable) :=
  start_client_gpaste h ;;; ret (pair_of Gpaste).
Definition init_klipper_clipboard : M world (callable * callable) := ret (pair_of Klipper).
Definition init_dev_clipboard_clipboard : M world (callable * callable) := ret (pair_of DevClipboard).
Definition init_no_clipboard : M world (callable * callable) := ret (pair_of NoClipboard).
(** [ctypes.windll] exists only where [os.name] is ['nt']. *)
Definition init_windows_clipboard : M world (callable * callable) :=
  if String.eqb (os_name h) "nt" then ret (pair_of Windows)
  else raise (AttributeError "module 'ctypes' has no attribute 'windll'").
Definition init_wsl_clipboard : M world (callable * callable) := ret (pair_of Wsl).

Definition initialiser (b : backend) : M world (callable * callable) :=
  match b with
  | DevClipboard => init_dev_clipboard_clipboard
  | Windows => init_windows_clipboard
  | Wsl => init_wsl_clipboard
  | OsxPyobjc => init_osx_pyobjc_clipboard
  | OsxPbcopy => init_osx_pbcopy_clipboard
  | Gpaste => init_gpaste_clipboard
  | Klipper => init_klipper_clipboard
  | WlClipboard => init_wl_clipboard
  | Xsel => init_xsel_clipboard
  | Xclip => init_xclip_clipboard
  | Qt => init_qt_clipboard
  | NoClipboard => init_no_clipboard
  end.

(* ================================================================== *)
(** * Backend resolution *)
(* ================================================================== *)

Definition os_path_exists (path : string) : M world bool :=
  emit (EvPathExists path) ;;; ret (path_exists h path).

Definition os_path_isfile (path : string) : M world bool :=
  emit (EvIsFile path) ;;; ret (path_isfile h path).

Definition read_file (path : string) : M world string :=
  emit (EvReadFile path) ;;; ret (file_text h path).

(** Truth value of an optional string: set and not empty. *)
Definition set_nonempty (v : option string) : bool :=
  match v with Some s => negb (String.eqb s "") | None => false end.

(** [determine_clipboard()] is written here from its last statement to
    its first: each [from_*] is the text of the function from one of its
    comment headings down to its end. *)

(** From [try: import qtpy] to the final [return init_no_clipboard()]. *)
Definition from_toolkit : M world (callable * callable) :=
  except_ImportError (import h "qtpy" ;;; init_qt_clipboard)
    (except_ImportError (import h "PyQt5" ;;; init_qt_clipboard)
       init_no_clipboard).

(** From [# For X11 (generic):]. *)
Definition from_x11 : M world (callable * callable) :=
  display <- os_getenv h "DISPLAY" ;;
  if set_nonempty display then
    xsel <- _executable_exists h "xsel" ;;
    if xsel then init_xsel_clipboard
    else
      xclip <- _executable_exists h "xclip" ;;
      if xclip then init_xclip_clipboard else from_toolkit
  else from_toolkit.

(** From [# For wayland (generic):]. *)
Definition from_wayland : M world (callable * callable) :=
  wayland_display <- os_getenv h "WAYLAND_DISPLAY" ;;
  if set_nonempty wayland_display then
    wl_copy <- _executable_exists h "wl-copy" ;;
    if wl_copy then init_wl_clipboard else from_x11
  else from_x11.

(** From [# For KDE], inside [if xdg_current_desktop is not None:]. *)
Definition from_kde (xdg_current_desktop : string) : M world (callable * callable) :=
  if contains "kde" (lower xdg_current_desktop) then
    klipper <- _executable_exists h "klipper" ;;
    if klipper then
      qdbus <- _executable_exists h "qdbus" ;;
      if qdbus then init_klipper_clipboard else from_wayland
    else from_wayland
  else from_wayland.

(** From [xdg_current_desktop = os.getenv('XDG_CURRENT_DESKTOP')]. *)
Definition from_desktop : M world (callable * callable) :=
  xdg_current_desktop <- os_getenv h "XDG_CURRENT_DESKTOP" ;;
  match xdg_current_desktop with
  | Some desktop =>
      if contains "gnome" (lower desktop) then
        gpaste <- _executable_exists h "gpaste-client" ;;
        if gpaste then init_gpaste_clipboard else from_kde desktop
      else from_kde desktop
  | None => from_wayland
  end.

(** From [# Setup for the MAC OS X platform:]. *)
Definition from_mac : M world (callable * callable) :=
  if String.eqb (os_name h) "mac" || String.eqb (platform_system h) "Darwin" then
    pyobjc <- except_ImportError (import h "Foundation" ;;; import h "AppKit" ;;; ret true)
                (ret false) ;;
    if pyobjc then init_osx_pyobjc_clipboard else init_osx_pbcopy_clipboard
  else from_desktop.

(** From [if platform.system() == 'Linux' and
    os.path.isfile('/proc/version'):]. *)
Definition from_wsl : M world (callable * callable) :=
  if String.eqb (platform_system h) "Linux" then
    isfile <- os_path_isfile "/proc/version" ;;
    if isfile then
      version <- read_file "/proc/version" ;;
      if contains "microsoft" (lower version) then init_wsl_clipboard else from_mac
    else from_mac
  else from_mac.

Definition determine_clipboard : M world (callable * callable) :=
  if contains "cygwin" (lower (platform_system h)) then
    exists_ <- os_path_exists "/dev/clipboard" ;;
    if exists_ then init_dev_clipboard_clipboard else from_wsl
  else if String.eqb (os_name h) "nt" || String.eqb (platform_system h) "Windows" then
    init_windows_clipboard
  else from_wsl.

End Calls.

(* ================================================================== *)
(** * The process-wide dispatch state *)
(* ================================================================== *)

(** The module's two global names and the surroundings. *)
Record process : Type := {
  copy : callable;
  paste : callable;
  env : world
}.

(** The state right after the module is loaded. *)
Definition loaded (w : world) : process :=
  {| copy := lazy_load_stub_copy; paste := lazy_load_stub_paste; env := w |}.

Definition in_world {A} (c : M world A) : M process A :=
  fun p =>
    let (r, w) := c (env p) in
    (r, {| copy := copy p; paste := paste p; env := w |}).

(** [copy, paste = pair]. *)
Definition rebind (pair : callable * callable) : M process unit :=
  fun p => (Ret tt, {| copy := fst pair; paste := snd pair; env := env p |}).

Fixpoint join (sep : string) (l : list string) : string :=
  match l with
  | [] => ""
  | [x] => x
  | x :: l' => x ++ sep ++ join sep l'
  end.

(** [repr(s)] for a name without quotes or escapes. *)
Definition repr_str (s : string) : string := "'" ++ s ++ "'".

Section Dispatch.

Variable h : Host.
Variable fuel : nat.

Definition clipboard_types : list (string * M world (callable * callable)) :=
  [ ("gpaste", init_gpaste_clipboard h);
    ("pbcopy", init_osx_pbcopy_clipboard);
    ("pyobjc", init_osx_pyobjc_clipboard);
    ("qt", init_qt_clipboard h);
    ("xclip", init_xclip_clipboard);
    ("xsel", init_xsel_clipboard);
    ("wl-clipboard", init_wl_clipboard);
    ("klipper", init_klipper_clipboard);
    ("windows", init_windows_clipboard h);
    ("wsl", init_wsl_clipboard);
    ("dev_clipboard", init_dev_clipboard_clipboard);
    ("no", init_no_clipboard) ].

Definition set_clipboard (clipboard : string) : M process unit :=
  match assoc clipboard clipboard_types with
  | None =>
      raise (ValueError ("Argument must be one of "
                         ++ join ", " (map (fun kv => repr_str (fst kv)) clipboard_types)))
  | Some init =>
      pair <- in_world init ;;
      rebind pair
  end.

(** Calling a function object.  A lazy stub runs the resolution, binds
    both entry points to what it returned and forwards the call to the
    entry point just bound. *)
Definition call (f : callable) (args : list pyvalue) (kw : kwargs_t) : M process pyvalue :=
  match f, signature_of f with
  | lazy_load_stub_copy, Some sg =>
      a <- lift_outcome (bind_args sg args kw) ;;
      pair <- in_world (determine_clipboard h) ;;
      rebind pair ;;;
      (fun p => in_world (call_backend h fuel (copy p) [arg a "text"] []) p)
  | lazy_load_stub_paste, Some sg =>
      a <- lift_outcome (bind_args sg args kw) ;;
      pair <- in_world (determine_clipboard h) ;;
      rebind pair ;;;
      (fun p => in_world (call_backend h fuel (paste p) [] []) p)
  | _, _ => in_world (call_backend h fuel f args kw)
  end.

(** [pyperclip.copy(...)] and [pyperclip.paste(...)]: whatever the global
    name is bound to at the time of the call. *)
Definition call_copy (args : list pyvalue) (kw : kwargs_t) : M process pyvalue :=
  fun p => call (copy p) args kw p.

Definition call_paste (args : list pyvalue) (kw : kwargs_t) : M process pyvalue :=
  fun p => call (paste p) args kw p.

Definition is_available (p : process) : bool :=
  callable_neqb (copy p) lazy_load_stub_copy && callable_neqb (paste p) lazy_load_stub_paste.

End Dispatch.

(* ================================================================== *)
(** * Blocking poll utilities *)
(* ================================================================== *)

(** [a != b] for what [paste] hands back: a [str] or [None]. *)
Definition text_neqb (a b : pyvalue) : bool :=
  match a, b with
  | PyStr x, PyStr y => negb (String.eqb x y)
  | PyNone, PyNone => false
  | _, _ => true
  end.

Section Poll.

(** The loops are written over the three things they use: the [paste]
    entry point, [time.time] and [time.sleep].  [float_text] is [str] on
    floats. *)
Variable S : Type.
Variable paste_ : M S pyvalue.
Variable time_ : M S float.
Variable sleep_ : float -> M S unit.
Variable float_text : float -> string.

(** [timeout is not None and time.time() > startTime + timeout]. *)
Definition timed_out (startTime : float) (timeout : option float) : M S bool :=
  match timeout with
  | None => ret false
  | Some seconds =>
      now <- time_ ;;
      ret (PrimFloat.ltb (PrimFloat.add startTime seconds) now)
  end.

Definition timeout_text (timeout : option float) : string :=
  match timeout with Some seconds => float_text seconds | None => "None" end.

Fixpoint waitForPaste_loop (fuel : nat) (startTime : float) (timeout : option float)
  : M S pyvalue :=
  match fuel with
  | O => fun s => (Diverge, s)
  | Datatypes.S fuel' =>
      clipboardText <- paste_ ;;
      if text_neqb clipboardText (PyStr "") then ret clipboardText
      else
        sleep_ 0.01 ;;;
        late <- timed_out startTime timeout ;;
        if late then
          raise (PyperclipTimeoutException
                   ("waitForPaste() timed out after " ++ timeout_text timeout ++ " seconds."))
        else waitForPaste_loop fuel' startTime timeout
  end.

Definition waitForPaste (fuel : nat) (timeout : option float) : M S pyvalue :=
  startTime <- time_ ;;
  waitForPaste_loop fuel startTime timeout.

Fixpoint waitForNewPaste_loop (fuel : nat) (startTime : float) (originalText : pyvalue)
  (timeout : option float) : M S pyvalue :=
  match fuel with
  | O => fun s => (Diverge, s)
  | Datatypes.S fuel' =>
      currentText <- paste_ ;;
      if text_neqb currentText originalText then ret currentText
      else
        sleep_ 0.01 ;;;
        late <- timed_out startTime timeout ;;
        if late then
          raise (PyperclipTimeoutException
                   ("waitForNewPaste() timed out after " ++ timeout_text timeout ++ " seconds."))
        else waitForNewPaste_loop fuel' startTime originalText timeout
  end.

Definition waitForNewPaste (fuel : nat) (timeout : option float) : M S pyvalue :=
  startTime <- time_ ;;
  originalText <- paste_ ;;
  waitForNewPaste_loop fuel startTime originalText timeout.

End Poll.

(* ================================================================== *)
(** * Concrete hosts *)
(* ================================================================== *)

(** A host given by its identity, its files, its environment, the
    programs on its search path and its importable modules.  Helpers
    print [out]; the codec is the identity, floats print as [0.0]; the
    interpreter names functions by the name of their [def] line and has
    the default limit of 4300 digits. *)
Definition host_of (system name : string) (files : list string)
  (vars : list (string * string)) (programs modules : list string) (out : string) : Host :=
  {| platform_system := system;
     os_name := name;
     path_exists := fun p => mem_string p files;
     path_isfile := fun p => mem_string p files;
     file_text := fun _ => out;
     device_text := fun _ => out;
     getenv := fun v => assoc v vars;
     which := fun n => if mem_string n programs then Some ("/usr/bin/" ++ n) else None;
     importable := fun m => mem_string m modules;
     qapplication_instance := false;
     qualified_names := false;
     int_max_str_digits := 4300;
     float_str := fun _ => "0.0";
     str_encode := fun _ text => text;
     bytes_decode := fun _ _ data => Some data;
     handler_error := fun name => LookupError ("unknown error handler name '" ++ name ++ "'");
     helper_stdout := fun _ _ => out;
     helper_exit := fun _ _ => 0%Z;
     shell_stdout := fun _ _ => out;
     arg_room := 0%N;
     pasteboard_string := fun _ => None;
     qt_text := fun _ => out;
     win_reply := fun _ => 0%Z;
     open_reply := fun _ => 0%Z;
     ctypes_errno := 0%Z;
     last_error := fun _ => 0%Z;
     locked_text := out;
     win_error := fun _ => "[WinError 0]";
     clock := fun _ => 0%float |}.

(** A Linux machine with nothing to reach a clipboard with. *)
Definition bare_linux : Host := host_of "Linux" "posix" [] [] [] [] "".

(** A Linux machine in a GNOME session with GPaste, whose history is
    empty. *)
Definition gnome_linux : Host :=
  host_of "Linux" "posix" [] [("XDG_CURRENT_DESKTOP", "ubuntu:GNOME"); ("DISPLAY", ":0")]
    ["gpaste-client"; "xsel"; "xclip"] [] "".


(** A Linux machine in a KDE session with Klipper and xclip. *)
Definition kde_linux : Host :=
  host_of "Linux" "posix" [] [("XDG_CURRENT_DESKTOP", "KDE"); ("DISPLAY", ":0")]
    ["klipper"; "qdbus"; "xclip"] [] "hello".

(** A Windows machine with the given replies of its clipboard. *)
Definition windows_host (replies : string -> Z) (attempts : nat -> Z) (error : Z)
  (readings : nat -> float) (text : string) : Host :=
  {| platform_system := "Windows";
     os_name := "nt";
     path_exists := fun _ => false;
     path_isfile := fun _ => false;
     file_text := fun _ => "";
     device_text := fun _ => "";
     getenv := fun _ => None;
     which := fun _ => None;
     importable := fun _ => false;
     qapplication_instance := false;
     qualified_names := false;
     int_max_str_digits := 4300;
     float_str := fun _ => "0.0";
     str_encode := fun _ text => text;
     bytes_decode := fun _ _ data => Some data;
     handler_error := fun name => LookupError ("unknown error handler name '" ++ name ++ "'");
     helper_stdout := fun _ _ => "";
     helper_exit := fun _ _ => 0%Z;
     shell_stdout := fun _ _ => "";
     arg_room := 0%N;
     pasteboard_string := fun _ => None;
     qt_text := fun _ => "";
     win_reply := replies;
     open_reply := attempts;
     ctypes_errno := error;
     last_error := fun _ => 0%Z;
     locked_text := text;
     win_error := fun _ => "[WinError 0] The operation completed successfully.";
     clock := readings |}.

(* ================================================================== *)
(** * The vocabulary of the statements *)
(* ================================================================== *)

(** ** Coercion and calls *)

Definition unsupported (v : pyvalue) : exn :=
  PyperclipException
    ("only str, int, float, and bool values can be copied to the clipboard, not "
     ++ class_name v).



(** ** Resolution *)

Definition on_path (h : Host) (name : string) : bool :=
  match which h name with Some _ => true | None => false end.

Definition is_cygwin (h : Host) : bool := contains "cygwin" (lower (platform_system h)).

Definition is_windows (h : Host) : bool :=
  String.eqb (os_name h) "nt" || String.eqb (platform_system h) "Windows".

Definition is_wsl (h : Host) : bool :=
  String.eqb (platform_system h) "Linux" && path_isfile h "/proc/version"
  && contains "microsoft" (lower (file_text h "/proc/version")).

Definition is_mac (h : Host) : bool :=
  String.eqb (os_name h) "mac" || String.eqb (platform_system h) "Darwin".

(** The desktop-session identity names [desktop]. *)
Definition session (h : Host) (desktop : string) : bool :=
  match getenv h "XDG_CURRENT_DESKTOP" with
  | Some d => contains desktop (lower d)
  | None => false
  end.

Definition display_set (h : Host) (var : string) : bool := set_nonempty (getenv h var).

(** A toolkit binding loads: qtpy or PyQt5 imports, and [QApplication]
    can be imported from one of them. *)
Definition toolkit_loads (h : Host) : bool :=
  (importable h "qtpy" || importable h "PyQt5")
  && (importable h "qtpy.QtWidgets" || importable h "PyQt5.QtWidgets").

(** The branches of the resolution in the order they are tried, each with
    the condition under which it is taken and the backend it selects.
    The Windows test is the [elif] of the Cygwin test, so it is not made
    on a Cygwin host. *)
Definition resolution_order : list ((Host -> bool) * backend) :=
  [ (fun h => is_cygwin h && path_exists h "/dev/clipboard", DevClipboard);
    (fun h => negb (is_cygwin h) && is_windows h, Windows);
    (is_wsl, Wsl);
    (fun h => is_mac h && importable h "Foundation" && importable h "AppKit", OsxPyobjc);
    (is_mac, OsxPbcopy);
    (fun h => session h "gnome" && on_path h "gpaste-client", Gpaste);
    (fun h => session h "kde" && on_path h "klipper" && on_path h "qdbus", Klipper);
    (fun h => display_set h "WAYLAND_DISPLAY" && on_path h "wl-copy", WlClipboard);
    (fun h => display_set h "DISPLAY" && on_path h "xsel", Xsel);
    (fun h => display_set h "DISPLAY" && on_path h "xclip", Xclip);
    (toolkit_loads, Qt) ].

(** The backend of the first branch of [branches] whose condition holds,
    the unavailable sentinel when none does. *)
Fixpoint first_match (branches : list ((Host -> bool) * backend)) (h : Host) : backend :=
  match branches with
  | [] => NoClipboard
  | (guard, b) :: rest => if guard h then b else first_match rest h
  end.

(** The place of a backend's branch in the order. *)
Definition rank (b : backend) : nat :=
  match b with
  | DevClipboard => 0
  | Windows => 1
  | Wsl => 2
  | OsxPyobjc => 3
  | OsxPbcopy => 4
  | Gpaste => 5
  | Klipper => 6
  | WlClipboard => 7
  | Xsel => 8
  | Xclip => 9
  | Qt => 10
  | NoClipboard => 11
  end.

(** The branch a probe of the surroundings belongs to: the first branch
    whose condition asks for it. *)
Definition probe_rank (e : event) : nat :=
  match e with
  | EvPathExists _ => 0
  | EvIsFile _ | EvReadFile _ => 2
  | EvImport m =>
      if String.eqb m "Foundation" || String.eqb m "AppKit" then 3 else 10
  | EvGetenv v =>
      if String.eqb v "XDG_CURRENT_DESKTOP" then 5
      else if String.eqb v "WAYLAND_DISPLAY" then 7
      else if String.eqb v "DISPLAY" then 8 else 0
  | EvWhich n =>
      if String.eqb n "gpaste-client" then 5
      else if String.eqb n "klipper" || String.eqb n "qdbus" then 6
      else if String.eqb n "wl-copy" then 7
      else if String.eqb n "xsel" then 8
      else if String.eqb n "xclip" then 9 else 0
  | EvQApplication => 10
  | _ => 0
  end.

(** Resolution stops at the branch of [b]: after the probes [evs], none
    of which belongs to a later branch, the initialiser of [b] runs and
    its result is the result. *)
Definition stops_at (h : Host) (c : M world (callable * callable)) (b : backend) : Prop :=
  forall w, exists evs,
    c w = initialiser h b (probed w evs)
    /\ Forall (fun e => probe_rank e <= rank b) evs.

(** The backend resolution selects when only the branches from place [k]
    on are left to try. *)
Definition winner_from (k : nat) (h : Host) : backend :=
  first_match (skipn k resolution_order) h.

(** ** Dispatch *)

(** The names [set_clipboard] takes, each with the backend whose
    initialiser it stands for. *)
Definition named_backends : list (string * backend) :=
  [ ("gpaste", Gpaste); ("pbcopy", OsxPbcopy); ("pyobjc", OsxPyobjc); ("qt", Qt);
    ("xclip", Xclip); ("xsel", Xsel); ("wl-clipboard", WlClipboard); ("klipper", Klipper);
    ("windows", Windows); ("wsl", Wsl); ("dev_clipboard", DevClipboard); ("no", NoClipboard) ].

(** A call of one of the two entry points. *)
Inductive request : Type :=
| Copy (args : list pyvalue) (kw : kwargs_t)
| Paste (args : list pyvalue) (kw : kwargs_t).

Definition serve (h : Host) (fuel : nat) (r : request) : M process pyvalue :=
  match r with
  | Copy args kw => call_copy h fuel args kw
  | Paste args kw => call_paste h fuel args kw
  end.

(** A run of calls: how each ended and what [is_available()] answered
    right after it, and the state reached. *)
Fixpoint serve_all (h : Host) (fuel : nat) (rs : list request) (p : process)
  : list (outcome pyvalue * bool) * process :=
  match rs with
  | [] => ([], p)
  | r :: rs' =>
      let (o, p') := serve h fuel r p in
      let (os, p'') := serve_all h fuel rs' p' in
      ((o, is_available p') :: os, p'')
  end.

(** ** The native backend *)

(** The time until which [clipboard(hwnd)] entered in [w] keeps trying. *)
Definition deadline (h : Host) (w : world) : float :=
  PrimFloat.add (clock h (ticks w)) 0.5.

(** What [n] failed rounds of the retry loop leave in the trace: a look
    at the clock, an attempt to open, a sleep of 10 ms. *)
Definition retry_trace (hwnd : Z) (n : nat) : list event :=
  List.concat (repeat [EvTime; EvWin (OpenClipboard hwnd); EvSleep 0.01] n).

(** From [w] on the clipboard stays busy: the next [n] attempts are made
    before the deadline and fail, and the deadline has passed when the
    clock is read after them. *)
Definition stalled (h : Host) (w : world) (n : nat) : Prop :=
  (forall i, i < n ->
             PrimFloat.ltb (clock h (ticks w + 1 + i)) (deadline h w) = true
             /\ open_reply h (opens w + i) = 0%Z)
  /\ PrimFloat.ltb (clock h (ticks w + 1 + n)) (deadline h w) = false.

(** From [w] on the clipboard opens at the attempt after [n] failed
    ones, all made before the deadline. *)
Definition opens_after (h : Host) (w : world) (n : nat) : Prop :=
  (forall i, i < n ->
             PrimFloat.ltb (clock h (ticks w + 1 + i)) (deadline h w) = true
             /\ open_reply h (opens w + i) = 0%Z)
  /\ PrimFloat.ltb (clock h (ticks w + 1 + n)) (deadline h w) = true
  /\ open_reply h (opens w + n) <> 0%Z.

(** The wrapped call fails: a false return value with [errno] set. *)
Definition call_fails (h : Host) (name : string) : bool :=
  Z.eqb (win_reply h name) 0 && negb (Z.eqb (ctypes_errno h) 0).

(** The ledger is as it was: the same window handles, the same answer to
    whether the clipboard is held. *)
Definition kept (w w' : world) : Prop :=
  hwnds w' = hwnds w /\ holding w' = holding w.

(** The world when [clipboard(hwnd)], entered in [w], gives up after
    [n] failed rounds. *)
Definition given_up (hwnd : Z) (n : nat) (w : world) : world :=
  {| trace := (trace w ++ [EvTime] ++ retry_trace hwnd n ++ [EvTime])%list;
     ticks := ticks w + n + 2; opens := opens w + n;
     hwnds := hwnds w; holding := holding w |}.

(** The world when [clipboard(hwnd)], entered in [w], has the clipboard
    after [n] failed rounds. *)
Definition opened (hwnd : Z) (n : nat) (w : world) : world :=
  {| trace := (trace w ++ [EvTime] ++ retry_trace hwnd n
               ++ [EvTime; EvWin (OpenClipboard hwnd)])%list;
     ticks := ticks w + n + 2; opens := opens w + n + 1;
     hwnds := hwnds w; holding := true |}.

Definition busy_error (h : Host) : exn :=
  windows_exception h "Error calling OpenClipboard" "OpenClipboard".

(** A Windows machine whose clipboard another process holds for good,
    and whose clock reads 0 s, 0.1 s and then 1 s. *)
Definition busy_windows : Host :=
  windows_host (fun _ => 7%Z) (fun _ => 0%Z) 0
    (fun k => match k with 0 => 0%float | 1 => 0.1%float | _ => 1%float end) "".

(** A Windows machine whose clipboard another process holds for good
    and on which [DestroyWindow] fails, with [errno] set. *)
Definition stuck_windows : Host :=
  windows_host (fun name => if String.eqb name "DestroyWindow" then 0%Z else 7%Z)
    (fun _ => 0%Z) 5
    (fun k => match k with 0 => 0%float | 1 => 0.1%float | _ => 1%float end) "".

(** A Windows machine whose clipboard is free and on which
    [GetClipboardData] fails with the system's error 5, access denied,
    no code having set the runtime's copy of [errno]. *)
Definition denied_windows : Host :=
  {| platform_system := "Windows";
     os_name := "nt";
     path_exists := fun _ => false;
     path_isfile := fun _ => false;
     file_text := fun _ => "";
     device_text := fun _ => "";
     getenv := fun _ => None;
     which := fun _ => None;
     importable := fun _ => false;
     qapplication_instance := false;
     qualified_names := false;
     int_max_str_digits := 4300;
     float_str := fun _ => "0.0";
     str_encode := fun _ text => text;
     bytes_decode := fun _ _ data => Some data;
     handler_error := fun name => LookupError ("unknown error handler name '" ++ name ++ "'");
     helper_stdout := fun _ _ => "";
     helper_exit := fun _ _ => 0%Z;
     shell_stdout := fun _ _ => "";
     arg_room := 0%N;
     pasteboard_string := fun _ => None;
     qt_text := fun _ => "";
     win_reply := fun name => if String.eqb name "GetClipboardData" then 0%Z else 1%Z;
     open_reply := fun _ => 1%Z;
     ctypes_errno := 0%Z;
     last_error := fun name => if String.eqb name "GetClipboardData" then 5%Z else 0%Z;
     locked_text := "";
     win_error := fun name =>
                    if String.eqb name "GetClipboardData" then "[WinError 5] Access is denied."
                    else "[WinError 0] The operation completed successfully.";
     clock := fun _ => 0%float |}.

(** A Windows machine whose clipboard is free and holds no text. *)
Definition empty_windows : Host :=
  windows_host (fun name => if String.eqb name "GetClipboardData" then 0%Z else 1%Z)
    (fun _ => 1%Z) 0 (fun _ => 0%float) "".

(** ** Polling *)

(** A clipboard and a clock given by what they answer, call after call:
    the [k]-th call of [paste] ends as [reads k] says (a text, [None],
    or an exception), the [k]-th call of [time.time] reads
    [readings k].  Any clipboard and clock a run can meet are of this
    form. *)
Record script : Type := {
  reads : nat -> outcome (option string);
  readings : nat -> float
}.

(** How many times the loop has pasted, read the clock and slept. *)
Record polled : Type := {
  pasted : nat;
  timed : nat;
  slept : nat
}.

Definition text_value (o : option string) : pyvalue :=
  match o with Some s => PyStr s | None => PyNone end.

Definition scripted_paste (sc : script) : M polled pyvalue :=
  fun s =>
    (match reads sc (pasted s) with
     | Ret o => Ret (text_value o)
     | Raise e => Raise e
     | Diverge => Diverge
     end,
     {| pasted := S (pasted s); timed := timed s; slept := slept s |}).

Definition scripted_time (sc : script) : M polled float :=
  fun s => (Ret (readings sc (timed s)),
            {| pasted := pasted s; timed := S (timed s); slept := slept s |}).

Definition scripted_sleep (seconds : float) : M polled unit :=
  fun s => (Ret tt, {| pasted := pasted s; timed := timed s; slept := S (slept s) |}).

(** [waitForNewPaste(timeout)] against a script. *)
Definition waitForNewPaste_on (sc : script) (float_text : float -> string)
  (fuel : nat) (timeout : option float) : M polled pyvalue :=
  waitForNewPaste polled (scripted_paste sc) (scripted_time sc) scripted_sleep float_text
    fuel timeout.

(** [waitForPaste(timeout)] and [waitForNewPaste(timeout)] of the
    module: over its [paste] entry point and the host's clock. *)
Definition module_waitForPaste (h : Host) (fuel polls : nat) (timeout : option float)
  : M process pyvalue :=
  waitForPaste process (call_paste h fuel [] []) (in_world (time_time h))
    (fun seconds => in_world (time_sleep seconds)) (float_str h) polls timeout.

Definition module_waitForNewPaste (h : Host) (fuel polls : nat) (timeout : option float)
  : M process pyvalue :=
  waitForNewPaste process (call_paste h fuel [] []) (in_world (time_time h))
    (fun seconds => in_world (time_sleep seconds)) (float_str h) polls timeout.

Definition timeout_error (float_text : float -> string) (seconds : float) : exn :=
  PyperclipTimeoutException
    ("waitForNewPaste() timed out after " ++ float_text seconds ++ " seconds.").

(** The loop of [waitForNewPaste] against a script. *)
Definition loop (sc : script) (float_text : float -> string) (startTime : float)
  (original : option string) (timeout : option float) (fuel : nat) : M polled pyvalue :=
  waitForNewPaste_loop polled (scripted_paste sc) (scripted_time sc) scripted_sleep float_text
    fuel startTime (text_value original) timeout.

(** A clipboard that reads [a], [a], [b]; and one that reads [a] for
    ever under a clock that reads 0 s, 0 s and then 1 s. *)
Definition changing_script : script :=
  {| reads := fun k => match k with 0 | 1 => Ret (Some "a") | _ => Ret (Some "b") end;
     readings := fun _ => 0%float |}.

Definition constant_script : script :=
  {| reads := fun _ => Ret (Some "a");
     readings := fun k => match k with 0 | 1 => 0%float | _ => 1%float end |}.

Definition polled0 : polled := {| pasted := 0; timed := 0; slept := 0 |}.

(** ** Helper output *)

(** No character of [s] is a line break. *)
Definition one_line (s : string) : bool :=
  forallb (fun c => negb (is_linebreak c)) (list_ascii_of_string s).

(** ** Polling for any text *)

(** [waitForPaste(timeout)] against a script. *)
Definition waitForPaste_on (sc : script) (float_text : float -> string)
  (fuel : nat) (timeout : option float) : M polled pyvalue :=
  waitForPaste polled (scripted_paste sc) (scripted_time sc) scripted_sleep float_text
    fuel timeout.

(** The loop of [waitForPaste] against a script. *)
Definition paste_loop (sc : script) (float_text : float -> string) (startTime : float)
  (timeout : option float) (fuel : nat) : M polled pyvalue :=
  waitForPaste_loop polled (scripted_paste sc) (scripted_time sc) scripted_sleep float_text
    fuel startTime timeout.

(** How many times the clock is read after the start when [k] polls
    found nothing new: once after each of them when a timeout is given,
    never when none is. *)
Definition clock_checks (timeout : option float) (k : nat) : nat :=
  match timeout with Some _ => k | None => 0 end.

(** No check of the clock made before poll [k] finds it later than
    [startTime + timeout]. *)
Definition in_time (sc : script) (startTime : float) (timeout : option float)
  (first k : nat) : Prop :=
  forall seconds, timeout = Some seconds ->
    forall i, i < k ->
      PrimFloat.ltb (PrimFloat.add startTime seconds) (readings sc (first + i)) = false.

(** A clipboard that holds nothing as text for one poll and then the
    empty text for ever; one that is empty until its third poll. *)
Definition no_text_script : script :=
  {| reads := fun k => match k with 0 => Ret None | _ => Ret (Some "") end;
     readings := fun _ => 0%float |}.

Definition filling_script : script :=
  {| reads := fun k => match k with 0 | 1 => Ret (Some "") | _ => Ret (Some "b") end;
     readings := fun _ => 0%float |}.

(** A clipboard that stays empty under a clock that reads 0 s, 0 s and
    then 1 s; and one whose second read fails. *)
Definition empty_script : script :=
  {| reads := fun _ => Ret (Some "");
     readings := fun k => match k with 0 | 1 => 0%float | _ => 1%float end |}.

Definition failing_script : script :=
  {| reads := fun k => match k with
                       | 0 => Ret (Some "")
                       | _ => Raise (PyperclipException "clipboard lost")
                       end;
     readings := fun _ => 0%float |}.

(** How a call of the scripted [paste] whose read ends as [r] ends. *)
Definition handed (r : outcome (option string)) : outcome pyvalue :=
  match r with
  | Ret o => Ret (text_value o)
  | Raise e => Raise e
  | Diverge => Diverge
  end.

(** The counters after [k] polls that found nothing new and one that
    ended the wait, [first] reads having been made before the loop. *)
Definition after_polls (timeout : option float) (first k : nat) (s : polled) : polled :=
  {| pasted := pasted s + first + k + 1;
     timed := timed s + 1 + clock_checks timeout k;
     slept := slept s + k |}.

(** ** Dispatch after resolution *)

(** Both entry points are bound to the functions of one backend. *)
Definition resolved (p : process) : Prop :=
  exists b, copy p = copy_of b /\ paste p = paste_of b.

(** What the surroundings see of an initialiser that returns: the two
    daemon commands of GPaste, nothing for the backends whose
    initialiser only defines its two functions. *)
Definition setup_trace (b : backend) : list event :=
  match b with
  | Gpaste => [EvShell "gpaste-client daemon-reexec & exit"; EvShell "gpaste-client start & exit"]
  | _ => []
  end.

(** A machine that reports itself as Cygwin without [/dev/clipboard],
    and one that reports Windows while [os.name] is not ['nt']. *)
Definition cygwin_host : Host := host_of "CYGWIN_NT-10.0" "nt" [] [] [] [] "".

Definition odd_windows : Host := host_of "Windows" "posix" [] [] [] [] "".

(** ** The calls of a native operation *)

(** A call made while the clipboard is open, between opening and
    closing it. *)
Definition inner_call (e : event) : Prop :=
  match e with
  | EvWin EmptyClipboard | EvWin (GetClipboardData _) | EvWin (SetClipboardData _ _)
  | EvWin (GlobalAlloc _ _) | EvWin (GlobalLock _) | EvWin (GlobalUnlock _)
  | EvWin (wcslen _) | EvWin (memmove _ _ _) => True
  | _ => False
  end.

(** The write of this text copies it to a null pointer: the text is not
    empty and [GlobalLock] hands back a null pointer. *)
Definition null_copy (h : Host) (text : string) : bool :=
  truthy (PyStr text) && Z.eqb (win_reply h "GlobalLock") 0.

(** The error of a wrapped call. *)
Definition call_error (h : Host) (name : string) : exn :=
  windows_exception h ("Error calling " ++ name) name.

(** A Windows machine whose clipboard is free, every other call of which
    hands back [reply], with [errno] reading [error]. *)
Definition free_windows (reply error : Z) : Host :=
  windows_host (fun _ => reply) (fun _ => 1%Z) error (fun _ => 0%float) "held".

(** A Windows machine whose clipboard is free and on which [GlobalAlloc]
    fails. *)
Definition no_memory_windows : Host :=
  windows_host (fun name => if String.eqb name "GlobalAlloc" then 0%Z else 7%Z)
    (fun _ => 1%Z) 8 (fun _ => 0%float) "".

(** ** The helper programs of the writes *)

(** The program the write of a backend starts, for the backends whose
    write starts one. *)
Definition write_helper (b : backend) : option string :=
  match b with
  | OsxPbcopy => Some "pbcopy"
  | Xclip => Some "xclip"
  | Xsel => Some "xsel"
  | WlClipboard => Some "wl-copy"
  | Gpaste => Some "gpaste-client"
  | Klipper => Some "qdbus"
  | Wsl => Some "clip.exe"
  | _ => None
  end.

(** The command the writes of wl-clipboard and GPaste run for the empty
    text. *)
Definition clearing_command (b : backend) : list string :=
  match b with
  | WlClipboard => ["wl-copy"; "--clear"]
  | Gpaste => ["gpaste-client"; "delete-history"]
  | _ => []
  end.

(** A Wayland machine whose [wl-copy] exits with status 1. *)
Definition failing_wayland : Host :=
  {| platform_system := "Linux";
     os_name := "posix";
     path_exists := fun _ => false;
     path_isfile := fun _ => false;
     file_text := fun _ => "";
     device_text := fun _ => "";
     getenv := fun v => if String.eqb v "WAYLAND_DISPLAY" then Some "wayland-0" else None;
     which := fun n => if String.eqb n "wl-copy" then Some "/usr/bin/wl-copy" else None;
     importable := fun _ => false;
     qapplication_instance := false;
     qualified_names := false;
     int_max_str_digits := 4300;
     float_str := fun _ => "0.0";
     str_encode := fun _ text => text;
     bytes_decode := fun _ _ data => Some data;
     handler_error := fun name => LookupError ("unknown error handler name '" ++ name ++ "'");
     helper_stdout := fun _ _ => "";
     helper_exit := fun _ _ => 1%Z;
     shell_stdout := fun _ _ => "";
     arg_room := 0%N;
     pasteboard_string := fun _ => None;
     qt_text := fun _ => "";
     win_reply := fun _ => 0%Z;
     open_reply := fun _ => 0%Z;
     ctypes_errno := 0%Z;
     last_error := fun _ => 0%Z;
     locked_text := "";
     win_error := fun _ => "";
     clock := fun _ => 0%float |}.

(** ** What resolution does to the surroundings *)

(** The effects of a resolution: looking at the surroundings, and what
    the initialisers of GPaste and Qt do when they are run. *)
Definition resolution_event (e : event) : Prop :=
  match e with
  | EvPathExists _ | EvIsFile _ | EvReadFile _ | EvGetenv _ | EvWhich _ | EvImport _ => True
  | EvQApplication => True
  | EvShell cmd =>
      cmd = "gpaste-client daemon-reexec & exit" \/ cmd = "gpaste-client start & exit"
  | _ => False
  end.

(** A computation that touches the surroundings through such effects
    only, however it ends. *)
Definition resolves_quietly {A} (c : M world A) : Prop :=
  forall w, exists evs, snd (c w) = probed w evs /\ Forall resolution_event evs.

(* ================================================================== *)
(** * Text coercion *)
(* ================================================================== *)

(** An argument of at most 4096 bytes is never too long. *)
Lemma short_argument (h : Host) (a : string) :
  (N.of_nat (String.length a) <= ARG_FLOOR)%N -> too_long h a = false.
Proof. intro H. unfold too_long. apply N.ltb_ge. lia. Qed.

Lemma short_arguments (h : Host) (argv : list string) :
  Forall (fun a => (N.of_nat (String.length a) <=? ARG_FLOOR)%N = true) argv ->
  existsb (too_long h) argv = false.
Proof.
  induction 1 as [| a argv Ha _ IH]; [ reflexivity | ].
  cbn [existsb]. rewrite IH, orb_false_r. apply short_argument. now apply N.leb_le.
Qed.

(** A program on the search path starts when its arguments hold no null
    byte and are short. *)
Lemma spawn_starts (h : Host) (argv : list string) (w : world) :
  existsb has_nul argv = false ->
  on_path h (hd "" argv) = true ->
  Forall (fun a => (N.of_nat (String.length a) <=? ARG_FLOOR)%N = true) argv ->
  spawn h argv w = (Ret tt, w).
Proof.
  unfold on_path. intros Hnul Hp Hshort. unfold spawn. rewrite Hnul.
  destruct (which h (hd "" argv)); [ | discriminate Hp ].
  rewrite (short_arguments h argv Hshort). reflexivity.
Qed.

Lemma Popen_runs (h : Host) (argv : list string) (input : option string) (w : world) :
  existsb has_nul argv = false ->
  on_path h (hd "" argv) = true ->
  Forall (fun a => (N.of_nat (String.length a) <=? ARG_FLOOR)%N = true) argv ->
  Popen_communicate h argv input w
  = (Ret (helper_stdout h (stamp w) argv), probed w [EvPopen argv input]).
Proof.
  intros Hnul Hp Hshort. unfold Popen_communicate. unfold bind at 1.
  rewrite (spawn_starts h argv w Hnul Hp Hshort). reflexivity.
Qed.

(** The program is not on the search path: nothing is run. *)
Lemma spawn_missing (h : Host) (argv : list string) (w : world) :
  existsb has_nul argv = false ->
  on_path h (hd "" argv) = false ->
  spawn h argv w = (Raise (FileNotFoundError (hd "" argv)), w).
Proof.
  unfold on_path. intros Hnul Hp. unfold spawn. rewrite Hnul.
  destruct (which h (hd "" argv)); [ discriminate Hp | reflexivity ].
Qed.

Ltac short := repeat constructor.

Arguments over_limit : simpl never.
Arguments digit_limit_error : simpl never.

Lemma stringify_cases (h : Host) (v : pyvalue) :
  _stringifyText h v =
  match v with
  | PyStr s => Ret s
  | PyInt n => if over_limit h n then Raise (digit_limit_error h) else Ret (int_str n)
  | PyFloat x => Ret (float_str h x)
  | PyBool b => Ret (bool_str b)
  | _ => Raise (unsupported v)
  end.
Proof. destruct v; reflexivity. Qed.

(** C4, as the source has it.  Text Coercion hands back the text of a
    [str], the runtime's text of a [float], [True]/[False] for a [bool],
    and the decimal digits of an [int] unless it has more digits than
    the interpreter's limit on that conversion (when there is one), in
    which case it raises [ValueError]; for a value of any other class it
    raises the unsupported-type error, which carries the name of that
    class.  The write operation of every backend other than the
    unavailable sentinel starts with it: when the coercion raises, the
    write raises the same error and nothing has happened; otherwise the
    write does what it does on the coerced text.  The write of the
    unavailable sentinel raises the no-mechanism error on every input,
    whatever the arguments, without coercing. *)
Theorem coercion_guards_every_write (h : Host) :
  (forall v,
      _stringifyText h v =
      match v with
      | PyStr s => Ret s
      | PyInt n =>
          if negb (Nat.eqb (int_max_str_digits h) 0)
             && Nat.ltb (int_max_str_digits h) (String.length (int_str (Z.abs n)))
          then Raise (ValueError
                        ("Exceeds the limit (" ++ int_str (Z.of_nat (int_max_str_digits h))
                         ++ " digits) for integer string conversion; "
                         ++ "use sys.set_int_max_str_digits() to increase the limit"))
          else Ret (int_str n)
      | PyFloat x => Ret (float_str h x)
      | PyBool b => Ret (bool_str b)
      | _ => Raise (PyperclipException
                      ("only str, int, float, and bool values can be copied to the clipboard, not "
                       ++ class_name v))
      end)
  /\ (forall fuel b v w,
         b <> NoClipboard ->
         call_backend h fuel (copy_of b) [v] [] w =
         match _stringifyText h v with
         | Ret s => call_backend h fuel (copy_of b) [PyStr s] [] w
         | Raise e => (Raise e, w)
         | Diverge => (Diverge, w)
         end)
  /\ (forall fuel args kw w,
         call_backend h fuel (copy_of NoClipboard) args kw w
         = (Raise (PyperclipException EXCEPT_MSG), w)).
Proof.
  split; [ | split ].
  - intro v. apply stringify_cases.
  - intros fuel b v w Hb.
    destruct b; try congruence;
      unfold call_backend, shown; cbn [signature_of];
      destruct (qualified_names h); destruct v; try reflexivity;
      cbn;
      match goal with
      | |- context [over_limit h ?n] => destruct (over_limit h n)
      end; reflexivity.
  - intros fuel args kw w. reflexivity.
Qed.

(** On a list, the write of the xclip backend stops in the coercion with
    nothing done, and the write of an [int] is the write of its digits. *)
Lemma coercion_guards_every_write_witness :
  call_backend bare_linux 0 (copy_of Xclip) [PyList []] [] world0
  = (Raise (PyperclipException
              "only str, int, float, and bool values can be copied to the clipboard, not list"),
     world0)
  /\ call_backend kde_linux 0 (copy_of Xclip) [PyInt 42] [] world0
     = call_backend kde_linux 0 (copy_of Xclip) [PyStr "42"] [] world0.
Proof.
  split.
  - exact (proj1 (proj2 (coercion_guards_every_write bare_linux)) 0%nat Xclip (PyList []) world0
             ltac:(discriminate)).
  - exact (proj1 (proj2 (coercion_guards_every_write kde_linux)) 0%nat Xclip (PyInt 42) world0
             ltac:(discriminate)).
Defined.

(** C4 as stated fails on the unavailable sentinel: its write on a list
    raises the no-mechanism error, not the unsupported-type error the
    coercion raises on that list. *)
Lemma sentinel_write_skips_coercion :
  call_backend bare_linux 0 (copy_of NoClipboard) [PyList []] [] world0
  = (Raise (PyperclipException EXCEPT_MSG), world0)
  /\ _stringifyText bare_linux (PyList [])
     = Raise (PyperclipException
                "only str, int, float, and bool values can be copied to the clipboard, not list").
Proof. split; reflexivity. Qed.

(* ================================================================== *)
(** * The primary-selection flag *)
(* ================================================================== *)




(* ================================================================== *)
(** * Reading an empty clipboard *)
(* ================================================================== *)

(** C5 at its failing inputs.  When the GPaste history is empty, the
    helper prints nothing, the read takes the first of no lines and
    raises [IndexError]; when the macOS pasteboard holds no string, the
    PyObjC read hands back [None].  Neither is the empty string the
    claim promises for a clipboard without text. *)
Theorem empty_clipboard_reads (h : Host) (w : world) :
  (shell_stdout h (stamp w) "gpaste-client history --raw & exit" = "" ->
   fst (paste_gpaste h w) = Raise (IndexError "list index out of range"))
  /\ (pasteboard_string h (stamp w) = None ->
      fst (paste_osx_pyobjc h w) = Ret PyNone).
Proof.
  split; intro H.
  - unfold paste_gpaste, shell_run, bind, ask, emit, raise. rewrite H. reflexivity.
  - unfold paste_osx_pyobjc, bind, ask, emit, ret. rewrite H. reflexivity.
Qed.

Lemma empty_clipboard_reads_witness :
  fst (paste_gpaste gnome_linux world0) = Raise (IndexError "list index out of range")
  /\ fst (paste_osx_pyobjc gnome_linux world0) = Ret PyNone.
Proof.
  split.
  - exact (proj1 (empty_clipboard_reads gnome_linux world0) eq_refl).
  - exact (proj2 (empty_clipboard_reads gnome_linux world0) eq_refl).
Defined.

(* ================================================================== *)
(** * Resolution as an ordered list of branches *)
(* ================================================================== *)

Lemma probed_app (w : world) (a b : list event) :
  probed (probed w a) b = probed w (a ++ b)%list.
Proof. unfold probed; simpl. now rewrite app_assoc. Qed.

Lemma probed_nil (w : world) : probed w [] = w.
Proof. destruct w; unfold probed; simpl. now rewrite app_nil_r. Qed.

Lemma rank_winner_from (h : Host) (k : nat) : k <= 11 -> k <= rank (winner_from k h).
Proof.
  intro Hk. unfold winner_from.
  do 12 (destruct k as [|k]; [ cbn [skipn resolution_order first_match];
    repeat match goal with
      | |- context [if ?g then _ else _] => destruct g
      end; simpl; lia | ]).
  lia.
Qed.

(** Resolution that goes on after probes of earlier branches still stops
    at the same branch. *)
Lemma stops_at_later (h : Host) (c : M world (callable * callable)) (b : backend)
  (w : world) (evs0 : list event) :
  stops_at h c b ->
  Forall (fun e => probe_rank e <= rank b) evs0 ->
  exists evs, c (probed w evs0) = initialiser h b (probed w evs)
              /\ Forall (fun e => probe_rank e <= rank b) evs.
Proof.
  intros Hc H0. destruct (Hc (probed w evs0)) as [evs [Heq Hr]].
  exists (evs0 ++ evs)%list. split.
  - now rewrite Heq, probed_app.
  - apply Forall_app; split; assumption.
Qed.

Ltac run_probes :=
  unfold bind, os_getenv, _executable_exists, os_path_exists, os_path_isfile, read_file,
    import, except_ImportError, emit, ret, raise;
  cbn [set_nonempty negb andb orb];
  rewrite ?probed_app; cbn [app].

Ltac use_flags :=
  repeat match goal with
    | H : _ = true |- _ => rewrite !H
    | H : _ = false |- _ => rewrite !H
    | H : _ = Some _ |- _ => rewrite !H
    | H : _ = None |- _ => rewrite !H
    end.

Ltac toolkit_runs :=
  unfold from_toolkit, initialiser, init_qt_clipboard, qt_application, init_no_clipboard;
  run_probes; use_flags; cbn; use_flags; cbn; rewrite ?probed_app; cbn [app]; reflexivity.

Lemma toolkit_stage (h : Host) : stops_at h (from_toolkit h) (winner_from 10 h).
Proof.
  intro w.
  change (winner_from 10 h) with (if toolkit_loads h then Qt else NoClipboard).
  unfold toolkit_loads.
  destruct (importable h "qtpy") eqn:E1; destruct (importable h "qtpy.QtWidgets") eqn:E2;
    destruct (importable h "PyQt5.QtWidgets") eqn:E3; destruct (importable h "PyQt5") eqn:E4;
    destruct (qapplication_instance h) eqn:E5; cbn [orb andb];
    first
      [ solve [ exists [EvImport "qtpy"]; split; [ toolkit_runs | repeat constructor; cbn; lia ] ]
      | solve [ exists [EvImport "qtpy"; EvImport "PyQt5"]; split;
                [ toolkit_runs | repeat constructor; cbn; lia ] ]
      | solve [ eexists; split; [ toolkit_runs | repeat constructor; cbn; lia ] ] ].
Qed.

Ltac rank_goal k h :=
  first [ solve [ cbn; lia ]
        | solve [ apply Nat.le_trans with k;
                  [ cbn; lia | apply (rank_winner_from h k); lia ] ] ].

Ltac ranks k h :=
  repeat first [ apply Forall_nil | apply Forall_cons; [ rank_goal k h | ] ].

(** A leaf of the resolution: either a branch is taken and its
    initialiser is what is left to run, or the next stage takes over. *)
Ltac leaf next k h :=
  first [ solve [ eexists; split; [ reflexivity | ranks k h ] ]
        | solve [ apply stops_at_later; [ apply next | ranks k h ] ]
        | solve [ apply next ] ].

(** Case analysis on what the host answers to the probes in sight. *)
Ltac split_host h :=
  repeat (run_probes;
          match goal with
          | |- context [getenv h ?v] => destruct (getenv h v)
          | |- context [which h ?n] => destruct (which h n)
          | |- context [String.eqb ?d ""] => destruct (String.eqb d "")
          | |- context [importable h ?m] => destruct (importable h m)
          | |- context [path_isfile h ?f] => destruct (path_isfile h f)
          | |- context [path_exists h ?f] => destruct (path_exists h f)
          | |- context [contains ?a ?b] => destruct (contains a b)
          end);
  run_probes.

Lemma x11_stage (h : Host) : stops_at h (from_x11 h) (winner_from 8 h).
Proof.
  intro w.
  change (winner_from 8 h) with
    (if display_set h "DISPLAY" && on_path h "xsel" then Xsel
     else if display_set h "DISPLAY" && on_path h "xclip" then Xclip
          else winner_from 10 h).
  unfold from_x11, display_set, on_path.
  split_host h; leaf (toolkit_stage h) 10 h.
Qed.

Lemma wayland_stage (h : Host) : stops_at h (from_wayland h) (winner_from 7 h).
Proof.
  intro w.
  change (winner_from 7 h) with
    (if display_set h "WAYLAND_DISPLAY" && on_path h "wl-copy" then WlClipboard
     else winner_from 8 h).
  unfold from_wayland, display_set, on_path.
  split_host h; leaf (x11_stage h) 8 h.
Qed.

Lemma kde_stage (h : Host) (d : string) :
  getenv h "XDG_CURRENT_DESKTOP" = Some d ->
  stops_at h (from_kde h d) (winner_from 6 h).
Proof.
  intros Hd w.
  change (winner_from 6 h) with
    (if session h "kde" && on_path h "klipper" && on_path h "qdbus" then Klipper
     else winner_from 7 h).
  unfold from_kde, session, on_path. rewrite Hd.
  split_host h; leaf (wayland_stage h) 7 h.
Qed.

Lemma desktop_stage (h : Host) : stops_at h (from_desktop h) (winner_from 5 h).
Proof.
  intro w.
  change (winner_from 5 h) with
    (if session h "gnome" && on_path h "gpaste-client" then Gpaste else winner_from 6 h).
  unfold from_desktop, on_path.
  destruct (getenv h "XDG_CURRENT_DESKTOP") as [d|] eqn:Hd.
  - unfold session. run_probes. rewrite !Hd.
    split_host h; leaf (kde_stage h d Hd) 6 h.
  - change (winner_from 6 h) with
      (if session h "kde" && on_path h "klipper" && on_path h "qdbus" then Klipper
       else winner_from 7 h).
    unfold session. run_probes. rewrite !Hd. cbn [andb].
    leaf (wayland_stage h) 7 h.
Qed.

Lemma mac_stage (h : Host) : stops_at h (from_mac h) (winner_from 3 h).
Proof.
  intro w.
  change (winner_from 3 h) with
    (if is_mac h && importable h "Foundation" && importable h "AppKit" then OsxPyobjc
     else if is_mac h then OsxPbcopy else winner_from 5 h).
  unfold from_mac, is_mac.
  destruct (String.eqb (os_name h) "mac" || String.eqb (platform_system h) "Darwin");
    split_host h; leaf (desktop_stage h) 5 h.
Qed.

Lemma wsl_stage (h : Host) : stops_at h (from_wsl h) (winner_from 2 h).
Proof.
  intro w.
  change (winner_from 2 h) with (if is_wsl h then Wsl else winner_from 3 h).
  unfold from_wsl, is_wsl.
  destruct (String.eqb (platform_system h) "Linux");
    split_host h; leaf (mac_stage h) 3 h.
Qed.

(** The resolution is the walk down [resolution_order]: it stops at the
    first branch whose condition holds, having probed for no later one. *)
Lemma determine_clipboard_stops (h : Host) :
  stops_at h (determine_clipboard h) (first_match resolution_order h).
Proof.
  intro w.
  change (first_match resolution_order h) with
    (if is_cygwin h && path_exists h "/dev/clipboard" then DevClipboard
     else if negb (is_cygwin h) && is_windows h then Windows else winner_from 2 h).
  unfold determine_clipboard, is_cygwin, is_windows.
  destruct (contains "cygwin" (lower (platform_system h)));
    [ | destruct (String.eqb (os_name h) "nt" || String.eqb (platform_system h) "Windows") ];
    split_host h;
    first [ leaf (wsl_stage h) 2 h
          | exists []; rewrite probed_nil; split; [ reflexivity | constructor ] ].
Qed.

Lemma initialiser_returns (h : Host) (b : backend) (w : world) :
  (b = Windows -> os_name h = "nt") ->
  (b = Qt -> importable h "qtpy.QtWidgets" || importable h "PyQt5.QtWidgets" = true) ->
  fst (initialiser h b w) = Ret (pair_of b).
Proof.
  intros Hwin Hqt. destruct b; try reflexivity.
  - unfold initialiser, init_windows_clipboard. rewrite (Hwin eq_refl). reflexivity.
  - specialize (Hqt eq_refl). unfold initialiser, init_qt_clipboard, qt_application.
    run_probes. destruct (importable h "qtpy.QtWidgets"); cbn in Hqt |- *.
    + destruct (qapplication_instance h); reflexivity.
    + rewrite Hqt. destruct (qapplication_instance h); reflexivity.
Qed.

Lemma first_match_Qt (h : Host) :
  first_match resolution_order h = Qt ->
  importable h "qtpy.QtWidgets" || importable h "PyQt5.QtWidgets" = true.
Proof.
  unfold first_match, resolution_order.
  repeat match goal with
    | |- (if ?g then _ else _) = _ -> _ => destruct g eqn:?; [ discriminate | ]
    end.
  destruct (toolkit_loads h) eqn:Ht; [ | discriminate ].
  intros _. unfold toolkit_loads in Ht. apply andb_true_iff in Ht. apply Ht.
Qed.

Lemma determine_clipboard_returns (h : Host) (w : world) :
  (first_match resolution_order h = Windows -> os_name h = "nt") ->
  fst (determine_clipboard h w) = Ret (pair_of (first_match resolution_order h)).
Proof.
  intro Hwin. destruct (determine_clipboard_stops h w) as [evs [Heq _]].
  rewrite Heq. apply initialiser_returns; [ assumption | apply first_match_Qt ].
Qed.

(** C1.  Backend resolution walks an ordered list of branches and the
    first branch whose condition holds wins: the result is what the
    initialiser of that branch's backend returns, run after probes of the
    surroundings none of which belongs to a later branch, and it is the
    pair of that backend whenever the initialiser can load its library.
    The order is the one of [resolution_order]; on a host that is
    neither Cygwin, Windows, WSL nor macOS it is: GNOME session with
    gpaste-client on the search path, KDE session with klipper and qdbus,
    Wayland display with wl-copy, X11 display with xsel, X11 display
    with xclip, a toolkit binding, and the unavailable sentinel last. *)
Theorem resolution_first_match_wins (h : Host) :
  (forall w, exists probes,
      determine_clipboard h w
      = initialiser h (first_match resolution_order h) (probed w probes)
      /\ Forall (fun e => probe_rank e <= rank (first_match resolution_order h)) probes)
  /\ (forall w,
         (first_match resolution_order h = Windows -> os_name h = "nt") ->
         fst (determine_clipboard h w)
         = Ret (copy_of (first_match resolution_order h),
                paste_of (first_match resolution_order h)))
  /\ map snd resolution_order
     = [DevClipboard; Windows; Wsl; OsxPyobjc; OsxPbcopy; Gpaste; Klipper;
        WlClipboard; Xsel; Xclip; Qt]
  /\ (is_cygwin h = false -> is_windows h = false -> is_wsl h = false -> is_mac h = false ->
      first_match resolution_order h
      = if session h "gnome" && on_path h "gpaste-client" then Gpaste
        else if session h "kde" && on_path h "klipper" && on_path h "qdbus" then Klipper
        else if display_set h "WAYLAND_DISPLAY" && on_path h "wl-copy" then WlClipboard
        else if display_set h "DISPLAY" && on_path h "xsel" then Xsel
        else if display_set h "DISPLAY" && on_path h "xclip" then Xclip
        else if toolkit_loads h then Qt
        else NoClipboard).
Proof.
  split; [ | split; [ | split ] ].
  - exact (determine_clipboard_stops h).
  - intros w Hwin. exact (determine_clipboard_returns h w Hwin).
  - reflexivity.
  - intros Hc Hw Hl Hm. unfold first_match, resolution_order.
    rewrite Hc, Hw, Hl, Hm. reflexivity.
Qed.

(** In a GNOME session with GPaste, xsel and xclip installed, GPaste is
    selected; in a KDE session with Klipper, qdbus and xclip, Klipper. *)
Lemma resolution_first_match_wins_witness :
  fst (determine_clipboard gnome_linux world0) = Ret (copy_of Gpaste, paste_of Gpaste)
  /\ first_match resolution_order kde_linux = Klipper.
Proof.
  split.
  - refine (proj1 (proj2 (resolution_first_match_wins gnome_linux)) world0 _).
    vm_compute. discriminate.
  - exact (proj2 (proj2 (proj2 (resolution_first_match_wins kde_linux)))
             eq_refl eq_refl eq_refl eq_refl).
Defined.

Lemma nothing_matches (h : Host) :
  is_cygwin h = false -> is_windows h = false -> is_wsl h = false -> is_mac h = false ->
  (forall name, which h name = None) ->
  importable h "qtpy" = false -> importable h "PyQt5" = false ->
  first_match resolution_order h = NoClipboard.
Proof.
  intros Hc Hw Hl Hm Hwhich Hq Hp. unfold first_match, resolution_order.
  rewrite Hc, Hw, Hl, Hm. unfold on_path, toolkit_loads.
  rewrite !Hwhich, Hq, Hp. cbn. rewrite !andb_false_r. reflexivity.
Qed.

(** C7.  On a host that is neither Cygwin, Windows, WSL nor macOS, with
    no helper program on the search path and neither qtpy nor PyQt5
    importable (whatever its session and display variables say),
    resolution returns the pair of unavailable sentinels; and every call
    of either sentinel, whatever the arguments and the host, raises
    [PyperclipException] with the one message [EXCEPT_MSG] and does
    nothing else. *)
Theorem no_mechanism_found (h : Host) (fuel : nat) :
  is_cygwin h = false -> is_windows h = false -> is_wsl h = false -> is_mac h = false ->
  (forall name, which h name = None) ->
  importable h "qtpy" = false -> importable h "PyQt5" = false ->
  (forall w, fst (determine_clipboard h w) = Ret (copy_of NoClipboard, paste_of NoClipboard))
  /\ (forall (h' : Host) args kw w,
         call_backend h' fuel (copy_of NoClipboard) args kw w
         = (Raise (PyperclipException EXCEPT_MSG), w)
         /\ call_backend h' fuel (paste_of NoClipboard) args kw w
            = (Raise (PyperclipException EXCEPT_MSG), w)).
Proof.
  intros Hc Hw Hl Hm Hwhich Hq Hp.
  pose proof (nothing_matches h Hc Hw Hl Hm Hwhich Hq Hp) as Hno.
  split.
  - intro w. rewrite (determine_clipboard_returns h w); rewrite Hno;
      [ reflexivity | discriminate ].
  - intros h' args kw w. split; reflexivity.
Qed.

Lemma no_mechanism_found_witness :
  (forall w, fst (determine_clipboard bare_linux w) = Ret (copy_of NoClipboard, paste_of NoClipboard))
  /\ (forall (h' : Host) args kw w,
         call_backend h' 0 (copy_of NoClipboard) args kw w
         = (Raise (PyperclipException EXCEPT_MSG), w)
         /\ call_backend h' 0 (paste_of NoClipboard) args kw w
            = (Raise (PyperclipException EXCEPT_MSG), w)).
Proof.
  apply (no_mechanism_found bare_linux 0); reflexivity.
Defined.

(* ================================================================== *)
(** * The dispatch state: override and lazy resolution *)
(* ================================================================== *)

Lemma assoc_absent {A} (k : string) (l : list (string * A)) :
  ~ In k (map fst l) -> assoc k l = None.
Proof.
  induction l as [| [k' v] l IH]; intro Hn; [ reflexivity | ].
  simpl in *. destruct (String.eqb_spec k k') as [-> | Hne].
  - exfalso. apply Hn. now left.
  - apply IH. intro Hin. apply Hn. now right.
Qed.

Lemma initialiser_pair (h : Host) (b : backend) (w w' : world) (pair : callable * callable) :
  initialiser h b w = (Ret pair, w') -> pair = pair_of b.
Proof.
  destruct b; cbn [initialiser];
    unfold init_dev_clipboard_clipboard, init_windows_clipboard, init_wsl_clipboard,
      init_osx_pyobjc_clipboard, init_osx_pbcopy_clipboard, init_gpaste_clipboard,
      init_klipper_clipboard, init_wl_clipboard, init_xsel_clipboard, init_xclip_clipboard,
      init_qt_clipboard, init_no_clipboard, bind, ret, raise;
    repeat match goal with
      | |- context [match ?c ?s with _ => _ end] => destruct (c s) as [[? | ? | ] ?]
      | |- context [if ?g then _ else _] => destruct g
      end;
    intro H; inversion H; reflexivity.
Qed.

Lemma named_initialiser (h : Host) (name : string) (b : backend) :
  In (name, b) named_backends -> assoc name (clipboard_types h) = Some (initialiser h b).
Proof.
  unfold named_backends. simpl.
  intros H. repeat (destruct H as [H | H]; [ inversion H; subst; reflexivity | ]).
  contradiction.
Qed.

(** C10.  [set_clipboard] knows twelve names.  Called with any other
    name it raises [ValueError] and the state is exactly what it was:
    both entry points keep their bindings.  Called with a known name it
    runs the initialiser of the backend of that name: when the
    initialiser returns, both entry points are bound, together, to the
    write and the read of that backend; when it raises, the exception
    comes out and both entry points keep their bindings. *)
Theorem set_clipboard_rebinds_together (h : Host) (name : string) (p : process) :
  map fst (clipboard_types h) = map fst named_backends
  /\ (~ In name (map fst named_backends) ->
      set_clipboard h name p
      = (Raise (ValueError
                  "Argument must be one of 'gpaste', 'pbcopy', 'pyobjc', 'qt', 'xclip', 'xsel', 'wl-clipboard', 'klipper', 'windows', 'wsl', 'dev_clipboard', 'no'"),
         p))
  /\ (forall b,
         In (name, b) named_backends ->
         set_clipboard h name p
         = match initialiser h b (env p) with
           | (Ret _, w') => (Ret tt, {| copy := copy_of b; paste := paste_of b; env := w' |})
           | (Raise e, w') => (Raise e, {| copy := copy p; paste := paste p; env := w' |})
           | (Diverge, w') => (Diverge, {| copy := copy p; paste := paste p; env := w' |})
           end).
Proof.
  split; [ reflexivity | split ].
  - intro Hn. unfold set_clipboard.
    rewrite assoc_absent by exact Hn. reflexivity.
  - intros b Hb. unfold set_clipboard. rewrite (named_initialiser h name b Hb).
    unfold bind, in_world, rebind.
    destruct (initialiser h b (env p)) as [[pair | e | ] w'] eqn:Hi; try reflexivity.
    rewrite (initialiser_pair h b _ _ _ Hi). reflexivity.
Qed.

(** The name gtk of the docstring is not known and changes nothing; the
    name xclip binds both entry points to the xclip backend. *)
Lemma set_clipboard_rebinds_together_witness :
  set_clipboard bare_linux "gtk" (loaded world0)
  = (Raise (ValueError
              "Argument must be one of 'gpaste', 'pbcopy', 'pyobjc', 'qt', 'xclip', 'xsel', 'wl-clipboard', 'klipper', 'windows', 'wsl', 'dev_clipboard', 'no'"),
     loaded world0)
  /\ set_clipboard bare_linux "xclip" (loaded world0)
     = (Ret tt, {| copy := copy_of Xclip; paste := paste_of Xclip; env := world0 |}).
Proof.
  split.
  - refine (proj1 (proj2 (set_clipboard_rebinds_together bare_linux "gtk" (loaded world0))) _).
    simpl. intros H.
    repeat (destruct H as [H | H]; [ discriminate H | ]). exact H.
  - refine (proj2 (proj2 (set_clipboard_rebinds_together bare_linux "xclip" (loaded world0)))
              Xclip _).
    simpl. tauto.
Defined.

Lemma sentinels_stay (h : Host) (fuel : nat) (rs : list request) (p : process) :
  copy p = copy_of NoClipboard -> paste p = paste_of NoClipboard ->
  Forall (fun ob => ob = (Raise (PyperclipException EXCEPT_MSG), true))
         (fst (serve_all h fuel rs p))
  /\ snd (serve_all h fuel rs p) = p.
Proof.
  intros Hc Hp. induction rs as [| r rs IH]; [ split; [ constructor | reflexivity ] | ].
  assert (Hr : serve h fuel r p = (Raise (PyperclipException EXCEPT_MSG), p)).
  { destruct p as [c q e]. simpl in Hc, Hp. subst c q.
    destruct r; reflexivity. }
  simpl. rewrite Hr.
  destruct (serve_all h fuel rs p) as [os p''] eqn:Hs. simpl in IH |- *.
  destruct IH as [IHo IHp]. split; [ | exact IHp ].
  constructor; [ | exact IHo ].
  unfold is_available. rewrite Hc, Hp. reflexivity.
Qed.

(** C9.  Where resolution yields the pair of unavailable sentinels, a
    first call [copy(v)] or [paste()] on the freshly loaded module
    raises the no-mechanism error, yet leaves both entry points bound to
    the sentinels instead of the lazy stubs, so that [is_available()]
    answers [True]; and in any run of further calls of [copy] and
    [paste], with any arguments, every call raises the same error and
    [is_available()] keeps answering [True] after each. *)
Theorem unavailable_reported_available (h : Host) (fuel : nat) (w : world)
  (v : pyvalue) (first : request) (rest : list request) :
  fst (determine_clipboard h w) = Ret (copy_of NoClipboard, paste_of NoClipboard) ->
  first = Copy [v] [] \/ first = Paste [] [] ->
  is_available (loaded w) = false
  /\ fst (serve h fuel first (loaded w)) = Raise (PyperclipException EXCEPT_MSG)
  /\ copy (snd (serve h fuel first (loaded w))) = copy_of NoClipboard
  /\ paste (snd (serve h fuel first (loaded w))) = paste_of NoClipboard
  /\ is_available (snd (serve h fuel first (loaded w))) = true
  /\ Forall (fun ob => ob = (Raise (PyperclipException EXCEPT_MSG), true))
            (fst (serve_all h fuel rest (snd (serve h fuel first (loaded w))))).
Proof.
  intros Hres Hfirst.
  assert (Hrun : serve h fuel first (loaded w)
                 = (Raise (PyperclipException EXCEPT_MSG),
                    {| copy := copy_of NoClipboard; paste := paste_of NoClipboard;
                       env := snd (determine_clipboard h w) |})).
  { destruct (determine_clipboard h w) as [r w1] eqn:Hd. simpl in Hres. subst r.
    destruct Hfirst as [-> | ->];
      unfold serve, call_copy, call_paste, loaded, call; cbn;
      unfold bind, in_world, rebind, lift_outcome; cbn; rewrite Hd; reflexivity. }
  rewrite Hrun. cbn [fst snd copy paste].
  repeat split.
  apply (sentinels_stay h fuel rest); reflexivity.
Qed.

Lemma unavailable_reported_available_witness :
  is_available (loaded world0) = false
  /\ fst (serve bare_linux 0 (Copy [PyStr "x"] []) (loaded world0))
     = Raise (PyperclipException EXCEPT_MSG)
  /\ copy (snd (serve bare_linux 0 (Copy [PyStr "x"] []) (loaded world0))) = copy_of NoClipboard
  /\ paste (snd (serve bare_linux 0 (Copy [PyStr "x"] []) (loaded world0))) = paste_of NoClipboard
  /\ is_available (snd (serve bare_linux 0 (Copy [PyStr "x"] []) (loaded world0))) = true
  /\ Forall (fun ob => ob = (Raise (PyperclipException EXCEPT_MSG), true))
            (fst (serve_all bare_linux 0 [Paste [] []; Copy [PyInt 1] []]
                    (snd (serve bare_linux 0 (Copy [PyStr "x"] []) (loaded world0))))).
Proof.
  apply (unavailable_reported_available bare_linux 0 world0 (PyStr "x")
           (Copy [PyStr "x"] []) [Paste [] []; Copy [PyInt 1] []]).
  - reflexivity.
  - left. reflexivity.
Defined.

(* ================================================================== *)
(** * The native backend: opening, retrying, releasing *)
(* ================================================================== *)

Lemma world_eq (w1 w2 : world) :
  trace w1 = trace w2 -> ticks w1 = ticks w2 -> opens w1 = opens w2 ->
  hwnds w1 = hwnds w2 -> holding w1 = holding w2 -> w1 = w2.
Proof. destruct w1, w2; simpl; intros; subst; reflexivity. Qed.

(** The loop gives up: after [n] failed rounds the clock has reached
    [t]. *)
Lemma open_loop_stalls (h : Host) (t : float) (hwnd : Z) :
  forall n fuel w,
    n < fuel ->
    (forall i, i < n -> PrimFloat.ltb (clock h (ticks w + i)) t = true
                        /\ open_reply h (opens w + i) = 0%Z) ->
    PrimFloat.ltb (clock h (ticks w + n)) t = false ->
    open_loop h fuel t hwnd w
    = (Ret false,
       {| trace := (trace w ++ retry_trace hwnd n ++ [EvTime])%list;
          ticks := ticks w + n + 1; opens := opens w + n;
          hwnds := hwnds w; holding := holding w |}).
Proof.
  induction n as [| n IH]; intros fuel w Hfuel Hfail Hlate;
    (destruct fuel as [| fuel]; [ lia | ]).
  - cbn [open_loop]. unfold bind, time_time, ret.
    rewrite Nat.add_0_r in Hlate. rewrite Hlate. f_equal.
    apply world_eq; simpl; try reflexivity; lia.
  - cbn [open_loop]. unfold bind, time_time, foreign, time_sleep, emit, ret.
    destruct (Hfail 0%nat ltac:(lia)) as [Hearly Hbusy].
    rewrite Nat.add_0_r in Hearly, Hbusy. rewrite Hearly.
    cbn [account opens]. rewrite Hbusy. cbn [Z.eqb negb].
    rewrite IH.
    + f_equal. apply world_eq; cbn; try reflexivity; try lia.
      rewrite <- !app_assoc. reflexivity.
    + lia.
    + intros i Hi. cbn. specialize (Hfail (S i) ltac:(lia)).
      rewrite !Nat.add_succ_r in Hfail. exact Hfail.
    + cbn. rewrite Nat.add_succ_r in Hlate. exact Hlate.
Qed.

(** The loop gets the clipboard at the attempt after [n] failed rounds. *)
Lemma open_loop_opens (h : Host) (t : float) (hwnd : Z) :
  forall n fuel w,
    n < fuel ->
    (forall i, i < n -> PrimFloat.ltb (clock h (ticks w + i)) t = true
                        /\ open_reply h (opens w + i) = 0%Z) ->
    PrimFloat.ltb (clock h (ticks w + n)) t = true ->
    open_reply h (opens w + n) <> 0%Z ->
    open_loop h fuel t hwnd w
    = (Ret true,
       {| trace := (trace w ++ retry_trace hwnd n ++ [EvTime; EvWin (OpenClipboard hwnd)])%list;
          ticks := ticks w + n + 1; opens := opens w + n + 1;
          hwnds := hwnds w; holding := true |}).
Proof.
  induction n as [| n IH]; intros fuel w Hfuel Hfail Hearly Hfree;
    (destruct fuel as [| fuel]; [ lia | ]).
  - cbn [open_loop]. unfold bind, time_time, foreign, ret.
    rewrite Nat.add_0_r in Hearly, Hfree. rewrite Hearly. cbn [account opens].
    apply Z.eqb_neq in Hfree. rewrite Hfree. cbn [negb]. f_equal.
    apply world_eq; cbn; try reflexivity; try lia.
    + rewrite <- app_assoc. reflexivity.
    + rewrite Hfree. reflexivity.
  - cbn [open_loop]. unfold bind, time_time, foreign, time_sleep, emit, ret.
    destruct (Hfail 0%nat ltac:(lia)) as [Hearly0 Hbusy].
    rewrite Nat.add_0_r in Hearly0, Hbusy. rewrite Hearly0.
    cbn [account opens]. rewrite Hbusy. cbn [Z.eqb negb].
    rewrite IH.
    + f_equal. apply world_eq; cbn; try reflexivity; try lia.
      rewrite <- !app_assoc. reflexivity.
    + lia.
    + intros i Hi. cbn. specialize (Hfail (S i) ltac:(lia)).
      rewrite !Nat.add_succ_r in Hfail. exact Hfail.
    + cbn. rewrite Nat.add_succ_r in Hearly. exact Hearly.
    + cbn. rewrite Nat.add_succ_r in Hfree. exact Hfree.
Qed.

Lemma open_loop_ledger (h : Host) (t : float) (hwnd : Z) :
  forall fuel w r w',
    open_loop h fuel t hwnd w = (r, w') ->
    hwnds w' = hwnds w
    /\ match r with
       | Ret true => holding w' = true
       | Ret false => holding w' = holding w
       | Raise _ => False
       | Diverge => True
       end.
Proof.
  induction fuel as [| fuel IH]; intros w r w' H.
  - cbn in H. inversion H; subst. split; [ reflexivity | exact I ].
  - cbn [open_loop] in H. unfold bind, time_time, foreign, time_sleep, emit, ret in H.
    destruct (PrimFloat.ltb (clock h (ticks w)) t).
    + cbn [account opens] in H.
      destruct (Z.eqb (open_reply h (opens w)) 0) eqn:Ho; cbn [negb] in H.
      * apply IH in H. cbn in H. rewrite Ho in H. exact H.
      * inversion H; subst. cbn. rewrite Ho. split; reflexivity.
    + inversion H; subst. split; reflexivity.
Qed.

Ltac run_native :=
  cbv beta iota zeta delta
    [bind CheckedCall foreign ctypes_memmove ret raise lift_outcome call_name];
  repeat (match goal with
          | |- context [if ?c then _ else _] => destruct c eqn:?
          end; cbv beta iota zeta).

Ltac flatten_trace :=
  cbn [trace account opened probed];
  repeat first [ rewrite <- app_assoc | progress cbn [app] ].

(** The calls made while the clipboard is open are calls of the inner
    kind, which leave the ledger alone, and they end. *)
Lemma copy_body_calls (h : Host) (text : string) (w : world) (r : outcome pyvalue) (w' : world) :
  (CheckedCall h EmptyClipboard ;;;
   if truthy (PyStr text) then
     n <- CheckedCall h (wcslen text) ;;
     let count := (n + 1)%Z in
     handle <- CheckedCall h (GlobalAlloc GMEM_MOVEABLE (count * sizeof_c_wchar)) ;;
     locked_handle <- CheckedCall h (GlobalLock handle) ;;
     ctypes_memmove h locked_handle text (count * sizeof_c_wchar) ;;;
     CheckedCall h (GlobalUnlock handle) ;;;
     CheckedCall h (SetClipboardData CF_UNICODETEXT handle) ;;;
     ret PyNone
   else ret PyNone) w = (r, w') ->
  (kept w w' /\ r <> Diverge)
  /\ exists calls, trace w' = (trace w ++ calls)%list /\ Forall inner_call calls.
Proof.
  unfold truthy. run_native;
    intro H; inversion H; subst;
    (split; [ split; [ split; reflexivity | discriminate ] | ]);
    eexists; (split; [ flatten_trace; reflexivity | repeat constructor ]).
Qed.

Lemma copy_body_kept (h : Host) (text : string) (w : world) (r : outcome pyvalue) (w' : world) :
  (CheckedCall h EmptyClipboard ;;;
   if truthy (PyStr text) then
     n <- CheckedCall h (wcslen text) ;;
     let count := (n + 1)%Z in
     handle <- CheckedCall h (GlobalAlloc GMEM_MOVEABLE (count * sizeof_c_wchar)) ;;
     locked_handle <- CheckedCall h (GlobalLock handle) ;;
     ctypes_memmove h locked_handle text (count * sizeof_c_wchar) ;;;
     CheckedCall h (GlobalUnlock handle) ;;;
     CheckedCall h (SetClipboardData CF_UNICODETEXT handle) ;;;
     ret PyNone
   else ret PyNone) w = (r, w') ->
  kept w w' /\ r <> Diverge.
Proof. intro H. exact (proj1 (copy_body_calls h text w r w' H)). Qed.

Lemma paste_body_calls (h : Host) (w : world) (r : outcome pyvalue) (w' : world) :
  (handle <- CheckedCall h (GetClipboardData CF_UNICODETEXT) ;;
   if Z.eqb handle 0 then ret (PyStr "")
   else
     locked_handle <- CheckedCall h (GlobalLock handle) ;;
     let return_value :=
       if Z.eqb locked_handle 0 then PyNone else PyStr (locked_text h) in
     CheckedCall h (GlobalUnlock handle) ;;;
     ret return_value) w = (r, w') ->
  (kept w w' /\ r <> Diverge)
  /\ exists calls, trace w' = (trace w ++ calls)%list /\ Forall inner_call calls.
Proof.
  run_native;
    intro H; inversion H; subst;
    (split; [ split; [ split; reflexivity | discriminate ] | ]);
    eexists; (split; [ flatten_trace; reflexivity | repeat constructor ]).
Qed.

Lemma paste_body_kept (h : Host) (w : world) (r : outcome pyvalue) (w' : world) :
  (handle <- CheckedCall h (GetClipboardData CF_UNICODETEXT) ;;
   if Z.eqb handle 0 then ret (PyStr "")
   else
     locked_handle <- CheckedCall h (GlobalLock handle) ;;
     let return_value :=
       if Z.eqb locked_handle 0 then PyNone else PyStr (locked_text h) in
     CheckedCall h (GlobalUnlock handle) ;;;
     ret return_value) w = (r, w') ->
  kept w w' /\ r <> Diverge.
Proof. intro H. exact (proj1 (paste_body_calls h w r w' H)). Qed.

(** [with clipboard(hwnd): body] hands the clipboard back however it
    ends, when the body leaves the ledger alone and [CloseClipboard]
    succeeds. *)
Lemma clipboard_releases {A} (h : Host) (fuel : nat) (hwnd : Z) (body : M world A) :
  win_reply h "CloseClipboard" <> 0%Z ->
  (forall w r w', body w = (r, w') -> kept w w' /\ r <> Diverge) ->
  forall w r w',
    clipboard h fuel hwnd body w = (r, w') ->
    r <> Diverge ->
    holding w = false ->
    hwnds w' = hwnds w /\ holding w' = false.
Proof.
  intros Hclose Hbody w r w' H Hr Hfree. apply Z.eqb_neq in Hclose.
  unfold clipboard in H. unfold bind at 1 in H. unfold time_time at 1 in H.
  cbn beta iota in H. unfold bind at 1 in H.
  match type of H with
  | context [open_loop h fuel ?t hwnd ?w1] =>
      destruct (open_loop h fuel t hwnd w1) as [[[|] | e | ] w2] eqn:Hl;
      apply open_loop_ledger in Hl; cbn in Hl; destruct Hl as [Hh Ho]
  end.
  - cbn [negb] in H. unfold try_finally in H.
    destruct (body w2) as [rb w3] eqn:Hb. destruct (Hbody _ _ _ Hb) as [[Hk1 Hk2] Hnd].
    cbv beta iota zeta delta [bind CheckedCall foreign ret raise call_name] in H.
    rewrite Hclose in H. cbn [andb] in H.
    destruct rb as [a | e | ]; [ | | congruence ];
      inversion H; subst; cbn; rewrite Hclose; (split; [ congruence | reflexivity ]).
  - cbn [negb] in H. unfold raise in H. inversion H; subst. split; congruence.
  - contradiction.
  - inversion H; subst. congruence.
Qed.

(** [with window() as hwnd: body] destroys the window it created however
    it ends, when the body leaves the handles alone and [DestroyWindow]
    succeeds. *)
Lemma window_releases {A} (h : Host) (body : Z -> M world A) :
  win_reply h "DestroyWindow" <> 0%Z ->
  (forall hwnd w r w', body hwnd w = (r, w') -> r <> Diverge -> holding w = false ->
                       hwnds w' = hwnds w /\ holding w' = false) ->
  forall w r w',
    window h body w = (r, w') ->
    r <> Diverge ->
    hwnds w = [] -> holding w = false ->
    hwnds w' = [] /\ holding w' = false.
Proof.
  intros Hdestroy Hbody w r w' H Hr Hnone Hfree. apply Z.eqb_neq in Hdestroy.
  unfold window in H. unfold bind at 1, CheckedCall at 1 in H.
  unfold bind at 1, foreign at 1 in H. cbn [call_name] in H.
  destruct (Z.eqb (win_reply h "CreateWindowExA") 0 && negb (Z.eqb (ctypes_errno h) 0))
    eqn:Hfails.
  - apply andb_true_iff in Hfails. destruct Hfails as [Hnull _].
    unfold raise in H. inversion H; subst. cbn. rewrite Hnull, Hnone.
    split; [ reflexivity | assumption ].
  - unfold ret at 1 in H. unfold try_finally in H.
    match type of H with
    | context [body ?hw ?w1] => destruct (body hw w1) as [rb w2] eqn:Hb
    end.
    assert (Hnd : rb <> Diverge) by (intros ->; inversion H; subst; congruence).
    destruct (Hbody _ _ _ _ Hb Hnd Hfree) as [Hk1 Hk2]. cbn in Hk1.
    cbv beta iota zeta delta [bind CheckedCall foreign ret raise call_name] in H.
    rewrite Hdestroy in H. cbn [andb] in H.
    destruct rb as [a | e | ]; [ | | congruence ];
      inversion H; subst; cbn; rewrite Hdestroy, Hk1, Hnone;
      (split; [ | assumption ]);
      destruct (Z.eqb (win_reply h "CreateWindowExA") 0); cbn;
      try reflexivity;
      (destruct (Z.eq_dec (win_reply h "CreateWindowExA") (win_reply h "CreateWindowExA"));
       [ reflexivity | congruence ]).
Qed.

Lemma clipboard_stalls {A} (h : Host) (fuel : nat) (hwnd : Z) (body : M world A)
  (n : nat) (w : world) :
  n < fuel -> stalled h w n ->
  clipboard h fuel hwnd body w = (Raise (busy_error h), given_up hwnd n w).
Proof.
  intros Hfuel [Hfail Hlate].
  unfold clipboard. unfold bind at 1. unfold time_time at 1. cbn beta iota.
  unfold bind at 1.
  rewrite (open_loop_stalls h _ hwnd n fuel).
  - cbn [negb]. unfold raise, busy_error. f_equal.
    apply world_eq; cbn; try reflexivity; try lia.
    rewrite <- !app_assoc. reflexivity.
  - exact Hfuel.
  - intros i Hi. cbn. specialize (Hfail i Hi).
    replace (ticks w + 1 + i) with (S (ticks w + i)) in Hfail by lia. exact Hfail.
  - cbn. replace (ticks w + 1 + n) with (S (ticks w + n)) in Hlate by lia. exact Hlate.
Qed.

Lemma clipboard_opens {A} (h : Host) (fuel : nat) (hwnd : Z) (body : M world A)
  (n : nat) (w : world) :
  n < fuel -> opens_after h w n ->
  clipboard h fuel hwnd body w
  = try_finally body (CheckedCall h CloseClipboard ;;; ret tt) (opened hwnd n w).
Proof.
  intros Hfuel [Hfail [Hearly Hfree]].
  unfold clipboard. unfold bind at 1. unfold time_time at 1. cbn beta iota.
  unfold bind at 1.
  rewrite (open_loop_opens h _ hwnd n fuel).
  - cbn [negb]. f_equal.
    apply world_eq; cbn; try reflexivity; try lia.
    rewrite <- !app_assoc. reflexivity.
  - exact Hfuel.
  - intros i Hi. cbn. specialize (Hfail i Hi).
    replace (ticks w + 1 + i) with (S (ticks w + i)) in Hfail by lia. exact Hfail.
  - cbn. replace (ticks w + 1 + n) with (S (ticks w + n)) in Hearly by lia. exact Hearly.
  - cbn. exact Hfree.
Qed.

Lemma copy_windows_releases (h : Host) (fuel : nat) (v : pyvalue) (w : world)
  (r : outcome pyvalue) (w' : world) :
  win_reply h "CloseClipboard" <> 0%Z -> win_reply h "DestroyWindow" <> 0%Z ->
  copy_windows h fuel v w = (r, w') -> r <> Diverge ->
  hwnds w = [] -> holding w = false ->
  hwnds w' = [] /\ holding w' = false.
Proof.
  intros Hclose Hdestroy.
  unfold copy_windows. unfold bind at 1, lift_outcome.
  destruct (_stringifyText h v) as [text | e | ]; intros H Hr Hnone Hfree.
  - revert H Hr Hnone Hfree. apply (window_releases h _ Hdestroy).
    intros hwnd w1 r1 w1' H1 Hr1 Hfree1.
    revert H1 Hr1 Hfree1. apply (clipboard_releases h fuel hwnd _ Hclose).
    intros w2 r2 w2'. apply copy_body_kept.
  - inversion H; subst. split; assumption.
  - inversion H; subst. congruence.
Qed.

Lemma paste_windows_releases (h : Host) (fuel : nat) (w : world)
  (r : outcome pyvalue) (w' : world) :
  win_reply h "CloseClipboard" <> 0%Z ->
  paste_windows h fuel w = (r, w') -> r <> Diverge ->
  hwnds w = [] -> holding w = false ->
  hwnds w' = [] /\ holding w' = false.
Proof.
  intro Hclose. unfold paste_windows. intros H Hr Hnone Hfree.
  rewrite <- Hnone.
  revert H Hr Hfree. apply (clipboard_releases h fuel 0 _ Hclose).
  intros w2 r2 w2'. apply paste_body_kept.
Qed.

Lemma copy_windows_stalls (h : Host) (fuel : nat) (v : pyvalue) (text : string)
  (n : nat) (w : world) :
  n < fuel -> _stringifyText h v = Ret text ->
  call_fails h "CreateWindowExA" = false -> stalled h w n ->
  copy_windows h fuel v w
  = (Raise (if call_fails h "DestroyWindow"
            then windows_exception h "Error calling DestroyWindow" "DestroyWindow"
            else busy_error h),
     account (DestroyWindow (win_reply h "CreateWindowExA")) (win_reply h "DestroyWindow")
       (given_up (win_reply h "CreateWindowExA") n
          (account (CreateWindowExA "STATIC") (win_reply h "CreateWindowExA") w))).
Proof.
  intros Hfuel Htext Hwin Hstall.
  unfold copy_windows. unfold bind at 1, lift_outcome. rewrite Htext.
  unfold window. unfold bind at 1, CheckedCall at 1.
  unfold bind at 1, foreign at 1. cbn [call_name].
  unfold call_fails in Hwin. rewrite Hwin. unfold ret at 1.
  unfold try_finally.
  rewrite (clipboard_stalls h fuel _ _ n); [ | exact Hfuel | exact Hstall ].
  cbv beta iota zeta delta [bind CheckedCall foreign ret raise call_name].
  unfold call_fails.
  destruct (Z.eqb (win_reply h "DestroyWindow") 0 && negb (Z.eqb (ctypes_errno h) 0));
    reflexivity.
Qed.

Lemma close_ends {A} (h : Host) (body : M world A) (w : world) :
  fst (body w) <> Diverge ->
  fst (try_finally body (CheckedCall h CloseClipboard ;;; ret tt) w) <> Diverge.
Proof.
  intro Hb. unfold try_finally. destruct (body w) as [[a | e | ] w1]; cbn in Hb;
    [ | | congruence ];
    cbv beta iota zeta delta [bind CheckedCall foreign ret raise call_name];
    destruct (Z.eqb (win_reply h "CloseClipboard") 0 && negb (Z.eqb (ctypes_errno h) 0));
    cbn; discriminate.
Qed.

(** When the body of [with clipboard(hwnd):] ends, [CloseClipboard] is
    the one call made after it. *)
Lemma close_after {A} (h : Host) (body : M world A) (w : world) (rb : outcome A) (wb : world) :
  body w = (rb, wb) -> rb <> Diverge ->
  trace (snd (try_finally body (CheckedCall h CloseClipboard ;;; ret tt) w))
  = (trace wb ++ [EvWin CloseClipboard])%list
  /\ fst (try_finally body (CheckedCall h CloseClipboard ;;; ret tt) w) <> Diverge.
Proof.
  intros Hb Hnd. unfold try_finally. rewrite Hb.
  cbv beta iota zeta delta [bind CheckedCall foreign ret raise call_name].
  destruct rb as [a | e | ]; [ | | congruence ];
    destruct (Z.eqb (win_reply h "CloseClipboard") 0 && negb (Z.eqb (ctypes_errno h) 0));
    cbn; (split; [ reflexivity | discriminate ]).
Qed.

Lemma opens_after_same (h : Host) (w w1 : world) (n : nat) :
  ticks w1 = ticks w -> opens w1 = opens w -> opens_after h w n -> opens_after h w1 n.
Proof.
  intros Ht Ho. unfold opens_after, deadline. rewrite Ht, Ho. exact (fun H => H).
Qed.

(** The write that gets the clipboard: its calls inside the two scopes. *)
Lemma copy_windows_opens (h : Host) (fuel : nat) (v : pyvalue) (text : string)
  (n : nat) (w : world) :
  n < fuel -> _stringifyText h v = Ret text ->
  call_fails h "CreateWindowExA" = false -> opens_after h w n ->
  copy_windows h fuel v w
  = try_finally
      (try_finally
         (CheckedCall h EmptyClipboard ;;;
          if truthy (PyStr text) then
            n <- CheckedCall h (wcslen text) ;;
            let count := (n + 1)%Z in
            handle <- CheckedCall h (GlobalAlloc GMEM_MOVEABLE (count * sizeof_c_wchar)) ;;
            locked_handle <- CheckedCall h (GlobalLock handle) ;;
            ctypes_memmove h locked_handle text (count * sizeof_c_wchar) ;;;
            CheckedCall h (GlobalUnlock handle) ;;;
            CheckedCall h (SetClipboardData CF_UNICODETEXT handle) ;;;
            ret PyNone
          else ret PyNone)
         (CheckedCall h CloseClipboard ;;; ret tt))
      (CheckedCall h (DestroyWindow (win_reply h "CreateWindowExA")) ;;; ret tt)
      (opened (win_reply h "CreateWindowExA") n
         (account (CreateWindowExA "STATIC") (win_reply h "CreateWindowExA") w)).
Proof.
  intros Hfuel Htext Hwin Hopen.
  unfold copy_windows. unfold bind at 1, lift_outcome. rewrite Htext.
  unfold window. unfold bind at 1, CheckedCall at 1.
  unfold bind at 1, foreign at 1. cbn [call_name].
  unfold call_fails in Hwin. rewrite Hwin. unfold ret at 1.
  unfold try_finally at 1.
  rewrite (clipboard_opens h fuel _ _ n);
    [ | exact Hfuel | apply (opens_after_same h w); [ reflexivity | reflexivity | exact Hopen ] ].
  reflexivity.
Qed.

(** A read that gets the clipboard makes its calls and closes the
    clipboard, the last thing it does. *)
Lemma paste_windows_order (h : Host) (fuel : nat) (n : nat) (w : world) :
  n < fuel -> opens_after h w n ->
  exists calls,
    trace (snd (paste_windows h fuel w))
    = (trace w ++ [EvTime] ++ retry_trace 0 n ++ [EvTime; EvWin (OpenClipboard 0)]
       ++ calls ++ [EvWin CloseClipboard])%list
    /\ Forall inner_call calls.
Proof.
  intros Hfuel Hopen.
  unfold paste_windows. rewrite (clipboard_opens h fuel 0 _ n w Hfuel Hopen).
  match goal with
  | |- context [try_finally ?b _ ?w1] => destruct (b w1) as [rb wb] eqn:Hb
  end.
  destruct (paste_body_calls h _ _ _ Hb) as [[_ Hnd] [calls [Hcalls Hinner]]].
  destruct (close_after h _ _ _ _ Hb Hnd) as [Htrace _].
  exists calls. split; [ | exact Hinner ].
  rewrite Htrace, Hcalls. flatten_trace. reflexivity.
Qed.

(** A write that gets the clipboard makes its calls, closes the
    clipboard and destroys its window, the last two things it does. *)
Lemma copy_windows_order (h : Host) (fuel : nat) (n : nat) (w : world)
  (v : pyvalue) (text : string) :
  n < fuel -> opens_after h w n ->
  _stringifyText h v = Ret text ->
  call_fails h "CreateWindowExA" = false ->
  exists calls,
    trace (snd (copy_windows h fuel v w))
    = (trace w ++ [EvWin (CreateWindowExA "STATIC"); EvTime]
       ++ retry_trace (win_reply h "CreateWindowExA") n
       ++ [EvTime; EvWin (OpenClipboard (win_reply h "CreateWindowExA"))]
       ++ calls
       ++ [EvWin CloseClipboard; EvWin (DestroyWindow (win_reply h "CreateWindowExA"))])%list
    /\ Forall inner_call calls.
Proof.
  intros Hfuel Hopen Htext Hwin.
  rewrite (copy_windows_opens h fuel v text n w Hfuel Htext Hwin Hopen).
  match goal with
  | |- context [try_finally (try_finally ?b ?f) _ ?w1] =>
      destruct (b w1) as [rb wb] eqn:Hb;
      destruct (copy_body_calls h _ _ _ _ Hb) as [[_ Hnd] [calls [Hcalls Hinner]]];
      destruct (close_after h _ _ _ _ Hb Hnd) as [Htrace Hends];
      unfold try_finally at 1;
      destruct (try_finally b f w1) as [rc wc]
  end.
  cbn [fst snd] in Htrace, Hends.
  exists calls. split; [ | exact Hinner ].
  cbv beta iota zeta delta [bind CheckedCall foreign ret raise call_name].
  destruct rc as [a | e | ]; [ | | congruence ];
    destruct (Z.eqb (win_reply h "DestroyWindow") 0 && negb (Z.eqb (ctypes_errno h) 0));
    cbn [snd account trace]; rewrite Htrace, Hcalls; flatten_trace; reflexivity.
Qed.

(** Once the clipboard can be had, both operations end. *)
Lemma native_operations_end (h : Host) (fuel : nat) (w : world) (n : nat) :
  n < fuel -> opens_after h w n ->
  (forall v, fst (copy_windows h fuel v w) <> Diverge)
  /\ fst (paste_windows h fuel w) <> Diverge.
Proof.
  intros Hfuel Hopen. split.
  - intro v. unfold copy_windows. unfold bind at 1, lift_outcome.
    destruct (_stringifyText h v) as [text | e | ] eqn:Hs; cbn; try discriminate.
    + unfold window. unfold bind at 1, CheckedCall at 1.
      unfold bind at 1, foreign at 1. cbn [call_name].
      destruct (Z.eqb (win_reply h "CreateWindowExA") 0 && negb (Z.eqb (ctypes_errno h) 0));
        [ cbn; discriminate | ].
      unfold ret at 1. unfold try_finally.
      rewrite (clipboard_opens h fuel _ _ n);
        [ | exact Hfuel | apply (opens_after_same h w); [ reflexivity | reflexivity | exact Hopen ] ].
      match goal with
      | |- context [try_finally ?b ?f ?w1] =>
          pose proof (close_ends h b w1) as Hends;
          destruct (try_finally b f w1) as [[a | e | ] w2]
      end.
      * cbv beta iota zeta delta [bind CheckedCall foreign ret raise call_name].
        destruct (Z.eqb (win_reply h "DestroyWindow") 0 && negb (Z.eqb (ctypes_errno h) 0));
          cbn; discriminate.
      * cbv beta iota zeta delta [bind CheckedCall foreign ret raise call_name].
        destruct (Z.eqb (win_reply h "DestroyWindow") 0 && negb (Z.eqb (ctypes_errno h) 0));
          cbn; discriminate.
      * exfalso. apply Hends; [ | reflexivity ].
        match goal with
        | |- fst (?b ?w1) <> Diverge =>
            destruct (b w1) as [r2 w2'] eqn:Hb; apply copy_body_kept in Hb; apply Hb
        end.
    + rewrite stringify_cases in Hs. destruct v; try discriminate Hs.
      match type of Hs with
      | context [over_limit h ?z] => destruct (over_limit h z)
      end; discriminate Hs.
  - unfold paste_windows. rewrite (clipboard_opens h fuel 0 _ n w Hfuel Hopen).
    apply close_ends.
    match goal with
    | |- fst (?b ?w1) <> Diverge =>
        destruct (b w1) as [r2 w2'] eqn:Hb; apply paste_body_kept in Hb; apply Hb
    end.
Qed.

(** C2, as the source has it.  Every native operation asks for the
    clipboard in rounds: it looks at the clock, tries to open, and after
    a failed attempt sleeps 10 ms, for as long as the clock reads less
    than 0.5 s past the reading taken on entry.  When the clipboard
    stays busy until then, the read raises the clipboard-busy error
    having done nothing but those rounds, and the write does the same
    between creating its window and passing it to [DestroyWindow]: it
    raises the busy error unless [DestroyWindow] fails as a wrapped call
    fails, in which case it raises the error of [DestroyWindow]
    instead.  When the clipboard is had, the operation makes its calls
    and then, however they ended, calls [CloseClipboard], and the write
    passes its window to [DestroyWindow] after that, its last call.  The
    clipboard and the window are released when these two calls hand
    back a value other than 0: then an operation that started with
    nothing held ends with nothing held.  Both operations do end once
    the clipboard can be had within the deadline. *)
Theorem native_open_retry_and_release (h : Host) (fuel : nat) (w : world) :
  (forall n,
      n < fuel -> stalled h w n ->
      paste_windows h fuel w
      = (Raise (PyperclipWindowsException
                  ("Error calling OpenClipboard (" ++ win_error h "OpenClipboard" ++ ")")),
         {| trace := (trace w ++ [EvTime] ++ retry_trace 0 n ++ [EvTime])%list;
            ticks := ticks w + n + 2; opens := opens w + n;
            hwnds := hwnds w; holding := holding w |}))
  /\ (forall n v text,
         n < fuel -> _stringifyText h v = Ret text ->
         call_fails h "CreateWindowExA" = false -> stalled h w n ->
         fst (copy_windows h fuel v w)
         = Raise (PyperclipWindowsException
                    (if call_fails h "DestroyWindow"
                     then "Error calling DestroyWindow (" ++ win_error h "DestroyWindow" ++ ")"
                     else "Error calling OpenClipboard (" ++ win_error h "OpenClipboard" ++ ")"))
         /\ trace (snd (copy_windows h fuel v w))
            = (trace w ++ [EvWin (CreateWindowExA "STATIC"); EvTime]
               ++ retry_trace (win_reply h "CreateWindowExA") n
               ++ [EvTime; EvWin (DestroyWindow (win_reply h "CreateWindowExA"))])%list)
  /\ (forall n,
         n < fuel -> opens_after h w n ->
         (exists calls,
             trace (snd (paste_windows h fuel w))
             = (trace w ++ [EvTime] ++ retry_trace 0 n ++ [EvTime; EvWin (OpenClipboard 0)]
                ++ calls ++ [EvWin CloseClipboard])%list
             /\ Forall inner_call calls)
         /\ (forall v text,
                _stringifyText h v = Ret text ->
                call_fails h "CreateWindowExA" = false ->
                exists calls,
                  trace (snd (copy_windows h fuel v w))
                  = (trace w ++ [EvWin (CreateWindowExA "STATIC"); EvTime]
                     ++ retry_trace (win_reply h "CreateWindowExA") n
                     ++ [EvTime; EvWin (OpenClipboard (win_reply h "CreateWindowExA"))]
                     ++ calls
                     ++ [EvWin CloseClipboard;
                         EvWin (DestroyWindow (win_reply h "CreateWindowExA"))])%list
                  /\ Forall inner_call calls))
  /\ (hwnds w = [] -> holding w = false ->
      win_reply h "CloseClipboard" <> 0%Z ->
      (forall r w',
          paste_windows h fuel w = (r, w') -> r <> Diverge ->
          hwnds w' = [] /\ holding w' = false)
      /\ (win_reply h "DestroyWindow" <> 0%Z ->
          forall v r w',
            copy_windows h fuel v w = (r, w') -> r <> Diverge ->
            hwnds w' = [] /\ holding w' = false))
  /\ (forall n,
         n < fuel -> opens_after h w n ->
         (forall v, fst (copy_windows h fuel v w) <> Diverge)
         /\ fst (paste_windows h fuel w) <> Diverge).
Proof.
  split; [ | split; [ | split; [ | split ] ] ];
    [ | | | | exact (native_operations_end h fuel w) ].
  - intros n Hfuel Hstall. unfold paste_windows.
    rewrite (clipboard_stalls h fuel 0 _ n w Hfuel Hstall). reflexivity.
  - intros n v text Hfuel Htext Hwin Hstall.
    rewrite (copy_windows_stalls h fuel v text n w Hfuel Htext Hwin Hstall).
    split.
    + unfold busy_error, windows_exception.
      destruct (call_fails h "DestroyWindow"); reflexivity.
    + cbn. repeat first [ rewrite <- app_assoc | progress cbn [app] ]. reflexivity.
  - intros n Hfuel Hopen. split.
    + exact (paste_windows_order h fuel n w Hfuel Hopen).
    + intros v text Htext Hwin.
      exact (copy_windows_order h fuel n w v text Hfuel Hopen Htext Hwin).
  - intros Hnone Hfree Hclose. split.
    + intros r w' H Hr. exact (paste_windows_releases h fuel w r w' Hclose H Hr Hnone Hfree).
    + intros Hdestroy v r w' H Hr.
      exact (copy_windows_releases h fuel v w r w' Hclose Hdestroy H Hr Hnone Hfree).
Qed.

(** One failed round, then the deadline has passed: the read raises the
    busy error; and the write that goes the same way, all its calls
    succeeding, holds nothing at its end. *)
Lemma native_open_retry_and_release_witness :
  paste_windows busy_windows 2 world0
  = (Raise (PyperclipWindowsException
              "Error calling OpenClipboard ([WinError 0] The operation completed successfully.)"),
     {| trace := [EvTime; EvTime; EvWin (OpenClipboard 0); EvSleep 0.01; EvTime];
        ticks := 3; opens := 1; hwnds := []; holding := false |})
  /\ hwnds (snd (copy_windows busy_windows 2 (PyStr "x") world0)) = []
  /\ holding (snd (copy_windows busy_windows 2 (PyStr "x") world0)) = false.
Proof.
  split.
  - refine (proj1 (native_open_retry_and_release busy_windows 2 world0) 1%nat _ _).
    + lia.
    + split.
      * intros i Hi. assert (i = 0)%nat as -> by lia. split; reflexivity.
      * reflexivity.
  - refine (proj2 (proj1 (proj2 (proj2 (proj2 (native_open_retry_and_release busy_windows 2
                                                 world0))))
                     eq_refl eq_refl _)
              _ (PyStr "x") _ _ (surjective_pairing _) _).
    + cbv. discriminate.
    + cbv. discriminate.
    + vm_compute. discriminate.
Defined.

(** C2 as stated fails.  The clipboard stays busy and [DestroyWindow]
    fails with [errno] set: the write raises the error of
    [DestroyWindow], not the clipboard-busy error, and the window it
    created is not released. *)
Lemma busy_write_raises_destroy_error :
  fst (copy_windows stuck_windows 2 (PyStr "x") world0)
  = Raise (PyperclipWindowsException
             "Error calling DestroyWindow ([WinError 0] The operation completed successfully.)")
  /\ hwnds (snd (copy_windows stuck_windows 2 (PyStr "x") world0)) = [7%Z]
  /\ stalled stuck_windows
       (account (CreateWindowExA "STATIC") 7 world0) 1.
Proof.
  split; [ reflexivity | split; [ reflexivity | ] ].
  split.
  - intros i Hi. assert (i = 0)%nat as -> by lia. split; reflexivity.
  - reflexivity.
Qed.

(** C3, as the source has it.  A wrapped call raises exactly when the
    foreign function hands back a false value and [ctypes.get_errno()]
    reads a value other than 0: the error names the call and carries the
    text of [WinError()]; in every other case the return value comes
    back as it is.  What it tests is the runtime's private copy of
    [errno], not the system's error code, which is the code of
    [GetLastError] that [WinError()] puts into words.  So while that
    copy reads 0, as it does unless other code has set it, no wrapped
    call raises, whatever the system's error code: a read that gets the
    clipboard and whose [GetClipboardData] fails returns the empty
    string.  And while that copy reads another value, a call that hands
    back a null value with no system error raises. *)
Theorem checked_call_errors (h : Host) (fuel : nat) (w : world) :
  (forall c r w1,
      foreign h c w = (Ret r, w1) ->
      CheckedCall h c w
      = (if Z.eqb r 0 && negb (Z.eqb (ctypes_errno h) 0)
         then Raise (PyperclipWindowsException
                       ("Error calling " ++ call_name c
                        ++ " (" ++ win_error h (call_name c) ++ ")"))
         else Ret r,
         w1))
  /\ (ctypes_errno h = 0%Z ->
      (forall c, CheckedCall h c w = foreign h c w)
      /\ (forall n,
             n < fuel -> opens_after h w n ->
             win_reply h "GetClipboardData" = 0%Z ->
             last_error h "GetClipboardData" <> 0%Z ->
             fst (paste_windows h fuel w) = Ret (PyStr "")))
  /\ (ctypes_errno h <> 0%Z ->
      forall n,
        n < fuel -> opens_after h w n ->
        win_reply h "GetClipboardData" = 0%Z ->
        last_error h "GetClipboardData" = 0%Z ->
        fst (paste_windows h fuel w)
        = Raise (PyperclipWindowsException
                   (if Z.eqb (win_reply h "CloseClipboard") 0
                    then "Error calling CloseClipboard (" ++ win_error h "CloseClipboard" ++ ")"
                    else "Error calling GetClipboardData ("
                         ++ win_error h "GetClipboardData" ++ ")")))
  /\ (forall n,
         n < fuel -> opens_after h w n ->
         win_reply h "GetClipboardData" = 0%Z -> ctypes_errno h = 0%Z ->
         fst (paste_windows h fuel w) = Ret (PyStr "")).
Proof.
  assert (Hclear : forall n,
             n < fuel -> opens_after h w n ->
             win_reply h "GetClipboardData" = 0%Z -> ctypes_errno h = 0%Z ->
             fst (paste_windows h fuel w) = Ret (PyStr "")).
  { intros n Hfuel Hopen Hnull Hzero. unfold paste_windows.
    rewrite (clipboard_opens h fuel 0 _ n w Hfuel Hopen).
    unfold try_finally.
    cbv beta iota zeta delta [bind CheckedCall foreign ret raise call_name].
    rewrite Hnull, Hzero. cbn. rewrite andb_false_r. reflexivity. }
  split; [ | split; [ | split ] ].
  - intros c r w1 H. unfold CheckedCall, bind. rewrite H.
    destruct (Z.eqb r 0 && negb (Z.eqb (ctypes_errno h) 0)); reflexivity.
  - intro Hzero. split.
    + intro c. unfold CheckedCall, bind, foreign. rewrite Hzero.
      cbn [Z.eqb negb]. rewrite andb_false_r. reflexivity.
    + intros n Hfuel Hopen Hnull _. exact (Hclear n Hfuel Hopen Hnull Hzero).
  - intros Hset n Hfuel Hopen Hnull _. unfold paste_windows.
    rewrite (clipboard_opens h fuel 0 _ n w Hfuel Hopen).
    unfold try_finally.
    cbv beta iota zeta delta [bind CheckedCall foreign ret raise call_name].
    apply Z.eqb_neq in Hset. rewrite Hnull, Hset. cbn.
    destruct (Z.eqb (win_reply h "CloseClipboard") 0); reflexivity.
  - exact Hclear.
Qed.

(** [GetClipboardData] fails with the system's error 5, access denied:
    the read returns the empty string and no error is raised. *)
Lemma checked_call_errors_witness :
  fst (paste_windows denied_windows 1 world0) = Ret (PyStr "")
  /\ CheckedCall denied_windows (GetClipboardData CF_UNICODETEXT) world0
     = (Ret 0%Z, account (GetClipboardData CF_UNICODETEXT) 0 world0)
  /\ last_error denied_windows "GetClipboardData" = 5%Z.
Proof.
  split; [ | split ].
  - refine (proj2 (proj1 (proj2 (checked_call_errors denied_windows 1 world0)) eq_refl)
              0%nat _ _ eq_refl _).
    + lia.
    + split; [ | split ].
      * intros i Hi. lia.
      * reflexivity.
      * discriminate.
    + discriminate.
  - exact (proj1 (checked_call_errors denied_windows 1 world0)
             (GetClipboardData CF_UNICODETEXT) 0%Z _ eq_refl).
  - reflexivity.
Defined.

(* ================================================================== *)
(** * Polling against a scripted clipboard *)
(* ================================================================== *)

Lemma text_neqb_false (a b : option string) :
  text_neqb (text_value a) (text_value b) = false <-> a = b.
Proof.
  destruct a as [x |], b as [y |]; cbn; split; intro H;
    try discriminate; try reflexivity.
  - apply negb_false_iff in H. apply String.eqb_eq in H. now subst.
  - inversion H; subst. apply negb_false_iff. apply String.eqb_refl.
Qed.

Lemma text_neqb_true (a b : option string) :
  text_neqb (text_value a) (text_value b) = true <-> a <> b.
Proof.
  split.
  - intros H Heq. apply text_neqb_false in Heq. congruence.
  - intro Hne. destruct (text_neqb (text_value a) (text_value b)) eqn:E; [ reflexivity | ].
    apply text_neqb_false in E. contradiction.
Qed.

Section ScriptedLoop.

Variable sc : script.
Variable float_text : float -> string.
Variable startTime : float.
Variable original : option string.
Variable timeout : option float.

(** When the loop returns, it returns what a read handed it, a value
    other than the original, and every read before that one handed it
    the original. *)
Lemma loop_returns :
  forall fuel s v s',
    loop sc float_text startTime original timeout fuel s = (Ret v, s') ->
    exists k x,
      v = text_value x /\ x <> original
      /\ reads sc (pasted s + k) = Ret x
      /\ forall i, i < k -> reads sc (pasted s + i) = Ret original.
Proof.
  unfold loop.
  induction fuel as [| fuel IH]; intros s v s' H; [ discriminate H | ].
  cbn [waitForNewPaste_loop] in H.
  unfold bind at 1, scripted_paste at 1 in H.
  destruct (reads sc (pasted s)) as [x | e | ] eqn:Hread; try discriminate H.
  destruct (text_neqb (text_value x) (text_value original)) eqn:Hne.
  - unfold ret in H. inversion H; subst.
    exists 0%nat, x. rewrite Nat.add_0_r.
    repeat split; [ now apply text_neqb_true | exact Hread | intros i Hi; lia ].
  - apply text_neqb_false in Hne. subst x.
    unfold bind at 1, scripted_sleep at 1 in H.
    unfold bind at 1, timed_out in H.
    destruct timeout as [seconds |].
    + unfold bind at 1, scripted_time at 1, ret at 1 in H. cbn beta iota in H.
      destruct (PrimFloat.ltb (PrimFloat.add startTime seconds) _); [ discriminate H | ].
      apply IH in H. cbn [pasted] in H.
      destruct H as [k [x [Hv [Hx [Hk Hbefore]]]]].
      exists (S k), x. rewrite Nat.add_succ_r.
      repeat split; try assumption.
      intros i Hi. destruct i as [| i]; [ now rewrite Nat.add_0_r | ].
      rewrite Nat.add_succ_r. apply Hbefore. lia.
    + unfold ret at 1 in H. cbn beta iota in H.
      apply IH in H. cbn [pasted] in H.
      destruct H as [k [x [Hv [Hx [Hk Hbefore]]]]].
      exists (S k), x. rewrite Nat.add_succ_r.
      repeat split; try assumption.
      intros i Hi. destruct i as [| i]; [ now rewrite Nat.add_0_r | ].
      rewrite Nat.add_succ_r. apply Hbefore. lia.
Qed.

(** When the reads keep handing back the original until the clock is
    found past the limit, the loop raises the timeout error. *)
Lemma loop_times_out (seconds : float) :
  timeout = Some seconds ->
  forall k fuel s,
    k < fuel ->
    (forall i, i <= k -> reads sc (pasted s + i) = Ret original) ->
    (forall i, i < k ->
               PrimFloat.ltb (PrimFloat.add startTime seconds) (readings sc (timed s + i))
               = false) ->
    PrimFloat.ltb (PrimFloat.add startTime seconds) (readings sc (timed s + k)) = true ->
    fst (loop sc float_text startTime original timeout fuel s)
    = Raise (timeout_error float_text seconds).
Proof.
  intro Ht. unfold loop. rewrite Ht.
  induction k as [| k IH]; intros fuel s Hfuel Hsame Hearly Hlate;
    (destruct fuel as [| fuel]; [ lia | ]);
    cbn [waitForNewPaste_loop];
    unfold bind at 1, scripted_paste at 1;
    pose proof (Hsame 0%nat ltac:(lia)) as H0; rewrite Nat.add_0_r in H0; rewrite H0;
    rewrite (proj2 (text_neqb_false original original) eq_refl);
    unfold bind at 1, scripted_sleep at 1;
    unfold bind at 1, timed_out;
    unfold bind at 1, scripted_time at 1, ret at 1; cbn beta iota; cbn [timed].
  - rewrite Nat.add_0_r in Hlate. rewrite Hlate. reflexivity.
  - pose proof (Hearly 0%nat ltac:(lia)) as He. rewrite Nat.add_0_r in He. rewrite He.
    apply IH.
    + lia.
    + intros i Hi. cbn [pasted]. specialize (Hsame (S i) ltac:(lia)).
      rewrite Nat.add_succ_r in Hsame. exact Hsame.
    + intros i Hi. cbn [timed]. specialize (Hearly (S i) ltac:(lia)).
      rewrite Nat.add_succ_r in Hearly. exact Hearly.
    + cbn [timed]. rewrite Nat.add_succ_r in Hlate. exact Hlate.
Qed.

End ScriptedLoop.

Ltac poll_step :=
  cbn [waitForNewPaste_loop waitForPaste_loop];
  unfold bind at 1, scripted_paste at 1.

Ltac poll_sleep :=
  unfold bind at 1, scripted_sleep at 1;
  unfold bind at 1, timed_out.

Tactic Notation "poll_step" "in" hyp(H) :=
  cbn [waitForNewPaste_loop waitForPaste_loop] in H;
  unfold bind at 1, scripted_paste at 1 in H.

Tactic Notation "poll_sleep" "in" hyp(H) :=
  unfold bind at 1, scripted_sleep at 1 in H;
  unfold bind at 1, timed_out in H.

Section ScriptedWaits.

Variable sc : script.
Variable float_text : float -> string.
Variable startTime : float.

Lemma paste_loop_returns (timeout : option float) :
  forall fuel s v s',
    paste_loop sc float_text startTime timeout fuel s = (Ret v, s') ->
    exists k x,
      v = text_value x /\ x <> Some ""
      /\ reads sc (pasted s + k) = Ret x
      /\ forall i, i < k -> reads sc (pasted s + i) = Ret (Some "").
Proof.
  unfold paste_loop.
  induction fuel as [| fuel IH]; intros s v s' H; [ discriminate H | ].
  poll_step in H.
  destruct (reads sc (pasted s)) as [x | e | ] eqn:Hread; try discriminate H.
  change (PyStr "") with (text_value (Some "")) in H.
  destruct (text_neqb (text_value x) (text_value (Some ""))) eqn:Hne.
  - unfold ret in H. inversion H; subst.
    exists 0%nat, x. rewrite Nat.add_0_r.
    repeat split; [ now apply text_neqb_true | exact Hread | intros i Hi; lia ].
  - apply text_neqb_false in Hne. subst x.
    poll_sleep in H.
    assert (Hnext : forall s1,
               waitForPaste_loop polled (scripted_paste sc) (scripted_time sc) scripted_sleep
                 float_text fuel startTime timeout s1 = (Ret v, s') ->
               pasted s1 = S (pasted s) ->
               exists k x,
                 v = text_value x /\ x <> Some ""
                 /\ reads sc (pasted s + k) = Ret x
                 /\ forall i, i < k -> reads sc (pasted s + i) = Ret (Some "")).
    { intros s1 H1 Hs1. apply IH in H1. rewrite Hs1 in H1.
      destruct H1 as [k [x [Hv [Hx [Hk Hbefore]]]]].
      exists (S k), x. rewrite Nat.add_succ_r.
      repeat split; try assumption.
      intros i Hi. destruct i as [| i]; [ now rewrite Nat.add_0_r | ].
      rewrite Nat.add_succ_r. apply Hbefore. lia. }
    destruct timeout as [seconds |].
    + unfold bind at 1, scripted_time at 1, ret at 1 in H. cbn beta iota in H.
      destruct (PrimFloat.ltb (PrimFloat.add startTime seconds) _); [ discriminate H | ].
      apply (Hnext _ H). reflexivity.
    + unfold ret at 1 in H. cbn beta iota in H.
      apply (Hnext _ H). reflexivity.
Qed.

(** A poll that finds the awaited-against text sleeps, checks the clock
    when a timeout is given, and polls again. *)
Lemma loop_again (original : option string) (timeout : option float) (fuel : nat) (s : polled) :
  reads sc (pasted s) = Ret original ->
  in_time sc startTime timeout (timed s) 1 ->
  loop sc float_text startTime original timeout (S fuel) s
  = loop sc float_text startTime original timeout fuel
      {| pasted := S (pasted s); timed := timed s + clock_checks timeout 1;
         slept := S (slept s) |}.
Proof.
  intros Hread Htime. unfold loop. poll_step. rewrite Hread.
  rewrite (proj2 (text_neqb_false original original) eq_refl).
  poll_sleep. destruct timeout as [seconds |].
  - unfold bind at 1, scripted_time at 1, ret at 1. cbn beta iota. cbn [timed].
    pose proof (Htime seconds eq_refl 0%nat ltac:(lia)) as He.
    rewrite Nat.add_0_r in He. rewrite He.
    cbn [clock_checks pasted slept]. rewrite Nat.add_1_r. reflexivity.
  - unfold ret at 1. cbn beta iota. cbn [clock_checks pasted timed slept].
    rewrite Nat.add_0_r. reflexivity.
Qed.

Lemma paste_loop_again (timeout : option float) (fuel : nat) (s : polled) :
  reads sc (pasted s) = Ret (Some "") ->
  in_time sc startTime timeout (timed s) 1 ->
  paste_loop sc float_text startTime timeout (S fuel) s
  = paste_loop sc float_text startTime timeout fuel
      {| pasted := S (pasted s); timed := timed s + clock_checks timeout 1;
         slept := S (slept s) |}.
Proof.
  intros Hread Htime. unfold paste_loop. poll_step. rewrite Hread.
  change (PyStr "") with (text_value (Some "")).
  rewrite (proj2 (text_neqb_false (Some "") (Some "")) eq_refl).
  poll_sleep. destruct timeout as [seconds |].
  - unfold bind at 1, scripted_time at 1, ret at 1. cbn beta iota. cbn [timed].
    pose proof (Htime seconds eq_refl 0%nat ltac:(lia)) as He.
    rewrite Nat.add_0_r in He. rewrite He.
    cbn [clock_checks pasted slept]. rewrite Nat.add_1_r. reflexivity.
  - unfold ret at 1. cbn beta iota. cbn [clock_checks pasted timed slept].
    rewrite Nat.add_0_r. reflexivity.
Qed.

(** A poll whose read does not hand back the awaited-against text ends
    the loop as that read ended. *)
Lemma loop_ends (original : option string) (timeout : option float) (fuel : nat) (s : polled)
  (r : outcome (option string)) :
  reads sc (pasted s) = r -> r <> Ret original ->
  loop sc float_text startTime original timeout (S fuel) s
  = (handed r, {| pasted := S (pasted s); timed := timed s; slept := slept s |}).
Proof.
  intros Hread Hne. unfold loop. poll_step. rewrite Hread.
  destruct r as [x | e | ]; try reflexivity. cbn [handed].
  assert (Hx : x <> original) by congruence.
  apply text_neqb_true in Hx. rewrite Hx. reflexivity.
Qed.

Lemma paste_loop_ends (timeout : option float) (fuel : nat) (s : polled)
  (r : outcome (option string)) :
  reads sc (pasted s) = r -> r <> Ret (Some "") ->
  paste_loop sc float_text startTime timeout (S fuel) s
  = (handed r, {| pasted := S (pasted s); timed := timed s; slept := slept s |}).
Proof.
  intros Hread Hne. unfold paste_loop. poll_step. rewrite Hread.
  destruct r as [x | e | ]; try reflexivity. cbn [handed].
  assert (Hx : x <> Some "") by congruence.
  apply text_neqb_true in Hx. change (PyStr "") with (text_value (Some "")).
  rewrite Hx. reflexivity.
Qed.

Lemma in_time_next (timeout : option float) (first k : nat) :
  in_time sc startTime timeout first (S k) ->
  in_time sc startTime timeout first 1
  /\ in_time sc startTime timeout (first + clock_checks timeout 1) k.
Proof.
  intro H. split.
  - intros seconds Ht i Hi. apply (H seconds Ht). lia.
  - intros seconds Ht i Hi. rewrite Ht. cbn [clock_checks].
    replace (first + 1 + i) with (first + S i) by lia. apply (H seconds Ht). lia.
Qed.

Lemma polled_eq (a b : polled) :
  pasted a = pasted b -> timed a = timed b -> slept a = slept b -> a = b.
Proof. destruct a, b; simpl; intros; subst; reflexivity. Qed.

Lemma clock_checks_S (timeout : option float) (k : nat) :
  clock_checks timeout (S k) = clock_checks timeout 1 + clock_checks timeout k.
Proof. destruct timeout; reflexivity. Qed.

(** After [k] polls that find the awaited-against text, none of their
    clock checks late, the next poll ends the loop as its read ends. *)
Lemma loop_finds (original : option string) (timeout : option float)
  (r : outcome (option string)) :
  forall k fuel s,
    k < fuel ->
    (forall i, i < k -> reads sc (pasted s + i) = Ret original) ->
    reads sc (pasted s + k) = r -> r <> Ret original ->
    in_time sc startTime timeout (timed s) k ->
    loop sc float_text startTime original timeout fuel s
    = (handed r, {| pasted := pasted s + k + 1; timed := timed s + clock_checks timeout k;
                    slept := slept s + k |}).
Proof.
  induction k as [| k IH]; intros fuel s Hfuel Hsame Hread Hne Htime;
    (destruct fuel as [| fuel]; [ lia | ]).
  - rewrite Nat.add_0_r in Hread. rewrite (loop_ends original timeout fuel s r Hread Hne).
    f_equal. apply polled_eq; cbn; destruct timeout; cbn; lia.
  - destruct (in_time_next timeout _ _ Htime) as [Hone Hrest].
    rewrite loop_again; [ | rewrite <- (Hsame 0%nat) by lia; now rewrite Nat.add_0_r | exact Hone ].
    rewrite (IH fuel); cbn [pasted timed slept].
    + f_equal. apply polled_eq; cbn [pasted timed slept]; try lia.
      rewrite (clock_checks_S timeout k). lia.
    + lia.
    + intros i Hi. specialize (Hsame (S i) ltac:(lia)).
      rewrite Nat.add_succ_r in Hsame. exact Hsame.
    + rewrite Nat.add_succ_r in Hread. exact Hread.
    + exact Hne.
    + exact Hrest.
Qed.

Lemma paste_loop_finds (timeout : option float) (r : outcome (option string)) :
  forall k fuel s,
    k < fuel ->
    (forall i, i < k -> reads sc (pasted s + i) = Ret (Some "")) ->
    reads sc (pasted s + k) = r -> r <> Ret (Some "") ->
    in_time sc startTime timeout (timed s) k ->
    paste_loop sc float_text startTime timeout fuel s
    = (handed r, {| pasted := pasted s + k + 1; timed := timed s + clock_checks timeout k;
                    slept := slept s + k |}).
Proof.
  induction k as [| k IH]; intros fuel s Hfuel Hsame Hread Hne Htime;
    (destruct fuel as [| fuel]; [ lia | ]).
  - rewrite Nat.add_0_r in Hread. rewrite (paste_loop_ends timeout fuel s r Hread Hne).
    f_equal. apply polled_eq; cbn; destruct timeout; cbn; lia.
  - destruct (in_time_next timeout _ _ Htime) as [Hone Hrest].
    rewrite paste_loop_again;
      [ | rewrite <- (Hsame 0%nat) by lia; now rewrite Nat.add_0_r | exact Hone ].
    rewrite (IH fuel); cbn [pasted timed slept].
    + f_equal. apply polled_eq; cbn [pasted timed slept]; try lia.
      rewrite (clock_checks_S timeout k). lia.
    + lia.
    + intros i Hi. specialize (Hsame (S i) ltac:(lia)).
      rewrite Nat.add_succ_r in Hsame. exact Hsame.
    + rewrite Nat.add_succ_r in Hread. exact Hread.
    + exact Hne.
    + exact Hrest.
Qed.

(** When the reads keep handing back the empty text until the clock is
    found past the limit, the loop of [waitForPaste] raises its timeout
    error. *)
Lemma paste_loop_times_out (seconds : float) :
  forall k fuel s,
    k < fuel ->
    (forall i, i <= k -> reads sc (pasted s + i) = Ret (Some "")) ->
    in_time sc startTime (Some seconds) (timed s) k ->
    PrimFloat.ltb (PrimFloat.add startTime seconds) (readings sc (timed s + k)) = true ->
    fst (paste_loop sc float_text startTime (Some seconds) fuel s)
    = Raise (PyperclipTimeoutException
               ("waitForPaste() timed out after " ++ float_text seconds ++ " seconds.")).
Proof.
  induction k as [| k IH]; intros fuel s Hfuel Hsame Htime Hlate;
    (destruct fuel as [| fuel]; [ lia | ]).
  - unfold paste_loop. poll_step.
    pose proof (Hsame 0%nat ltac:(lia)) as H0. rewrite Nat.add_0_r in H0. rewrite H0.
    change (PyStr "") with (text_value (Some "")).
    rewrite (proj2 (text_neqb_false (Some "") (Some "")) eq_refl).
    poll_sleep. unfold bind at 1, scripted_time at 1, ret at 1. cbn beta iota. cbn [timed].
    rewrite Nat.add_0_r in Hlate. rewrite Hlate. reflexivity.
  - destruct (in_time_next (Some seconds) _ _ Htime) as [Hone Hrest].
    rewrite paste_loop_again;
      [ | rewrite <- (Hsame 0%nat) by lia; now rewrite Nat.add_0_r | exact Hone ].
    apply IH; cbn [pasted timed clock_checks].
    + lia.
    + intros i Hi. specialize (Hsame (S i) ltac:(lia)).
      rewrite Nat.add_succ_r in Hsame. exact Hsame.
    + exact Hrest.
    + replace (timed s + 1 + k) with (timed s + S k) by lia. exact Hlate.
Qed.

(** With no timeout the loops never look at the clock, and raise only
    what a read raised. *)
Lemma loop_unbounded (original : option string) :
  forall fuel s r s',
    loop sc float_text startTime original None fuel s = (r, s') ->
    timed s' = timed s
    /\ forall e, r = Raise e -> exists k, reads sc (pasted s + k) = Raise e.
Proof.
  unfold loop.
  induction fuel as [| fuel IH]; intros s r s' H.
  - inversion H; subst. split; [ reflexivity | discriminate ].
  - poll_step in H.
    destruct (reads sc (pasted s)) as [x | e0 | ] eqn:Hread.
    + destruct (text_neqb (text_value x) (text_value original)).
      * inversion H; subst. split; [ reflexivity | discriminate ].
      * poll_sleep in H. unfold ret at 1 in H. cbn beta iota in H.
        apply IH in H. cbn [pasted timed] in H. destruct H as [Ht Hr].
        split; [ exact Ht | ].
        intros e He. destruct (Hr e He) as [k Hk].
        exists (S k). rewrite Nat.add_succ_r. exact Hk.
    + inversion H; subst. split; [ reflexivity | ].
      intros e He. inversion He; subst. exists 0%nat. now rewrite Nat.add_0_r.
    + inversion H; subst. split; [ reflexivity | discriminate ].
Qed.

Lemma paste_loop_unbounded :
  forall fuel s r s',
    paste_loop sc float_text startTime None fuel s = (r, s') ->
    timed s' = timed s
    /\ forall e, r = Raise e -> exists k, reads sc (pasted s + k) = Raise e.
Proof.
  unfold paste_loop.
  induction fuel as [| fuel IH]; intros s r s' H.
  - inversion H; subst. split; [ reflexivity | discriminate ].
  - poll_step in H.
    destruct (reads sc (pasted s)) as [x | e0 | ] eqn:Hread.
    + destruct (text_neqb (text_value x) (PyStr "")).
      * inversion H; subst. split; [ reflexivity | discriminate ].
      * poll_sleep in H. unfold ret at 1 in H. cbn beta iota in H.
        apply IH in H. cbn [pasted timed] in H. destruct H as [Ht Hr].
        split; [ exact Ht | ].
        intros e He. destruct (Hr e He) as [k Hk].
        exists (S k). rewrite Nat.add_succ_r. exact Hk.
    + inversion H; subst. split; [ reflexivity | ].
      intros e He. inversion He; subst. exists 0%nat. now rewrite Nat.add_0_r.
    + inversion H; subst. split; [ reflexivity | discriminate ].
Qed.

(** While the reads hand back the awaited-against text and no check of
    the clock is late, the loop goes on: after [fuel] polls it has slept
    [fuel] times and is still polling. *)
Lemma loop_waits (original : option string) (timeout : option float) :
  forall fuel s,
    (forall i, i < fuel -> reads sc (pasted s + i) = Ret original) ->
    in_time sc startTime timeout (timed s) fuel ->
    loop sc float_text startTime original timeout fuel s
    = (Diverge, {| pasted := pasted s + fuel; timed := timed s + clock_checks timeout fuel;
                   slept := slept s + fuel |}).
Proof.
  induction fuel as [| fuel IH]; intros s Hsame Htime.
  - unfold loop. cbn [waitForNewPaste_loop]. f_equal.
    apply polled_eq; cbn; destruct timeout; cbn; lia.
  - destruct (in_time_next timeout _ _ Htime) as [Hone Hrest].
    rewrite loop_again; [ | rewrite <- (Hsame 0%nat) by lia; now rewrite Nat.add_0_r | exact Hone ].
    rewrite IH; cbn [pasted timed slept].
    + f_equal. apply polled_eq; cbn [pasted timed slept]; try lia.
      rewrite (clock_checks_S timeout fuel). lia.
    + intros i Hi. specialize (Hsame (S i) ltac:(lia)).
      rewrite Nat.add_succ_r in Hsame. exact Hsame.
    + exact Hrest.
Qed.

(** While the reads hand back the awaited-against text, the loop does
    not return, and the one exception it raises is its timeout error. *)
Lemma loop_same (original : option string) (timeout : option float) :
  forall fuel s r s',
    (forall i, reads sc (pasted s + i) = Ret original) ->
    loop sc float_text startTime original timeout fuel s = (r, s') ->
    r = Diverge
    \/ exists seconds, timeout = Some seconds /\ r = Raise (timeout_error float_text seconds).
Proof.
  unfold loop.
  induction fuel as [| fuel IH]; intros s r s' Hsame H;
    [ left; cbn [waitForNewPaste_loop] in H; congruence | ].
  assert (Hnext : forall s1, pasted s1 = S (pasted s) ->
                             forall i, reads sc (pasted s1 + i) = Ret original).
  { intros s1 Hs1 i. rewrite Hs1. specialize (Hsame (S i)).
    rewrite Nat.add_succ_r in Hsame. exact Hsame. }
  poll_step in H.
  pose proof (Hsame 0%nat) as H0. rewrite Nat.add_0_r in H0. rewrite H0 in H.
  rewrite (proj2 (text_neqb_false original original) eq_refl) in H.
  poll_sleep in H. destruct timeout as [seconds |].
  - unfold bind at 1, scripted_time at 1, ret at 1 in H. cbn beta iota in H. cbn [timed] in H.
    destruct (PrimFloat.ltb (PrimFloat.add startTime seconds) (readings sc (timed s))).
    + right. exists seconds. split; [ reflexivity | ]. unfold raise in H.
      inversion H. reflexivity.
    + refine (IH _ _ _ (Hnext _ _) H). reflexivity.
  - unfold ret at 1 in H. cbn beta iota in H. refine (IH _ _ _ (Hnext _ _) H). reflexivity.
Qed.

End ScriptedWaits.

Lemma waitForPaste_on_loop (sc : script) (float_text : float -> string)
  (timeout : option float) (fuel : nat) (s : polled) :
  waitForPaste_on sc float_text fuel timeout s
  = paste_loop sc float_text (readings sc (timed s)) timeout fuel
      {| pasted := pasted s; timed := S (timed s); slept := slept s |}.
Proof. reflexivity. Qed.

Lemma waitForNewPaste_on_loop (sc : script) (float_text : float -> string)
  (timeout : option float) (fuel : nat) (s : polled) (original : option string) :
  reads sc (pasted s) = Ret original ->
  waitForNewPaste_on sc float_text fuel timeout s
  = loop sc float_text (readings sc (timed s)) original timeout fuel
      {| pasted := S (pasted s); timed := S (timed s); slept := slept s |}.
Proof.
  intro Hfirst. unfold waitForNewPaste_on, waitForNewPaste, loop.
  unfold bind at 1, scripted_time at 1. cbn beta iota.
  unfold bind at 1, scripted_paste at 1. cbn [pasted].
  rewrite Hfirst. reflexivity.
Qed.


(** C8.  Against any clipboard and clock, started where the first read
    hands back [original].  When [waitForNewPaste] returns, it returns
    the value of the first later read that differs from [original], all
    reads before it having handed back [original].  It does return that
    value: when the poll after [k] polls that found [original] finds a
    value that differs, no check of the clock before it having been
    late, it returns it after [k] sleeps.  While the reads keep handing
    back [original], however often that value is written again, it does
    not return and raises nothing but its timeout error: with no check
    of the clock late, it is still polling after any number of polls.
    And when a timeout is given and the clock is found later than the
    start plus the timeout after a sleep, no read up to then having
    differed, it raises the timeout error. *)
Theorem waitForNewPaste_waits_for_change (sc : script) (float_text : float -> string)
  (timeout : option float) (s : polled) (original : option string) :
  reads sc (pasted s) = Ret original ->
  (forall fuel v s',
      waitForNewPaste_on sc float_text fuel timeout s = (Ret v, s') ->
      exists k x,
        v = text_value x /\ x <> original
        /\ reads sc (pasted s + 1 + k) = Ret x
        /\ forall i, i < k -> reads sc (pasted s + 1 + i) = Ret original)
  /\ (forall k x fuel,
         k < fuel ->
         (forall i, i < k -> reads sc (pasted s + 1 + i) = Ret original) ->
         reads sc (pasted s + 1 + k) = Ret x -> x <> original ->
         (forall seconds, timeout = Some seconds ->
            forall i, i < k ->
              PrimFloat.ltb (PrimFloat.add (readings sc (timed s)) seconds)
                (readings sc (timed s + 1 + i)) = false) ->
         waitForNewPaste_on sc float_text fuel timeout s
         = (Ret (text_value x),
            {| pasted := pasted s + 1 + k + 1;
               timed := timed s + 1 + match timeout with Some _ => k | None => 0 end;
               slept := slept s + k |}))
  /\ ((forall i, reads sc (pasted s + 1 + i) = Ret original) ->
      forall fuel,
        (fst (waitForNewPaste_on sc float_text fuel timeout s) = Diverge
         \/ exists seconds,
              timeout = Some seconds
              /\ fst (waitForNewPaste_on sc float_text fuel timeout s)
                 = Raise (PyperclipTimeoutException
                            ("waitForNewPaste() timed out after " ++ float_text seconds
                             ++ " seconds.")))
        /\ ((forall seconds, timeout = Some seconds ->
               forall i, i < fuel ->
                 PrimFloat.ltb (PrimFloat.add (readings sc (timed s)) seconds)
                   (readings sc (timed s + 1 + i)) = false) ->
            waitForNewPaste_on sc float_text fuel timeout s
            = (Diverge,
               {| pasted := pasted s + 1 + fuel;
                  timed := timed s + 1 + match timeout with Some _ => fuel | None => 0 end;
                  slept := slept s + fuel |})))
  /\ (forall seconds k fuel,
         timeout = Some seconds ->
         k < fuel ->
         (forall i, i <= k -> reads sc (pasted s + 1 + i) = Ret original) ->
         (forall i, i < k ->
                    PrimFloat.ltb (PrimFloat.add (readings sc (timed s)) seconds)
                      (readings sc (timed s + 1 + i)) = false) ->
         PrimFloat.ltb (PrimFloat.add (readings sc (timed s)) seconds)
           (readings sc (timed s + 1 + k)) = true ->
         fst (waitForNewPaste_on sc float_text fuel timeout s)
         = Raise (PyperclipTimeoutException
                    ("waitForNewPaste() timed out after " ++ float_text seconds ++ " seconds."))).
Proof.
  intro Hfirst.
  pose proof (fun fuel => waitForNewPaste_on_loop sc float_text timeout fuel s original Hfirst)
    as Hrun.
  split; [ | split; [ | split ] ].
  - intros fuel v s' H. rewrite Hrun in H. apply loop_returns in H. cbn [pasted] in H.
    destruct H as [k [x [Hv [Hx [Hk Hbefore]]]]].
    exists k, x. replace (pasted s + 1 + k) with (S (pasted s) + k) by lia.
    repeat split; try assumption.
    intros i Hi. replace (pasted s + 1 + i) with (S (pasted s) + i) by lia.
    now apply Hbefore.
  - intros k x fuel Hfuel Hsame Hread Hne Htime. rewrite Hrun.
    rewrite (loop_finds sc float_text _ original timeout (Ret x) k fuel);
      cbn [pasted timed slept handed].
    + f_equal. apply polled_eq; cbn; destruct timeout; cbn; lia.
    + exact Hfuel.
    + intros i Hi. replace (S (pasted s) + i) with (pasted s + 1 + i) by lia. now apply Hsame.
    + replace (S (pasted s) + k) with (pasted s + 1 + k) by lia. exact Hread.
    + congruence.
    + intros seconds Hs i Hi.
      replace (S (timed s) + i) with (timed s + 1 + i) by lia. now apply (Htime seconds Hs).
  - intros Hsame fuel. rewrite Hrun. split.
    + refine (loop_same sc float_text _ original timeout fuel _ _ _ _ (surjective_pairing _)).
      intro i. cbn [pasted].
      replace (S (pasted s) + i) with (pasted s + 1 + i) by lia. apply Hsame.
    + intro Htime. rewrite loop_waits; cbn [pasted timed slept].
      * f_equal. apply polled_eq; cbn; destruct timeout; cbn; lia.
      * intros i Hi. replace (S (pasted s) + i) with (pasted s + 1 + i) by lia. apply Hsame.
      * intros seconds Hs i Hi.
        replace (S (timed s) + i) with (timed s + 1 + i) by lia. now apply (Htime seconds Hs).
  - intros seconds k fuel Ht Hfuel Hsame Hearly Hlate.
    rewrite Hrun.
    apply (loop_times_out sc float_text (readings sc (timed s)) original timeout seconds Ht k).
    + exact Hfuel.
    + intros i Hi. cbn [pasted]. specialize (Hsame i Hi).
      replace (pasted s + 1 + i) with (S (pasted s) + i) in Hsame by lia. exact Hsame.
    + intros i Hi. cbn [timed]. specialize (Hearly i Hi).
      replace (timed s + 1 + i) with (S (timed s) + i) in Hearly by lia. exact Hearly.
    + cbn [timed]. replace (timed s + 1 + k) with (S (timed s) + k) in Hlate by lia.
      exact Hlate.
Qed.

(** The clipboard reads a, a, b: the wait returns b after one sleep; and
    a clipboard that keeps reading a makes the wait time out. *)
Lemma waitForNewPaste_waits_for_change_witness :
  (exists k x,
      PyStr "b" = text_value x /\ x <> Some "a"
      /\ reads changing_script (0 + 1 + k) = Ret x
      /\ forall i, i < k -> reads changing_script (0 + 1 + i) = Ret (Some "a"))
  /\ waitForNewPaste_on changing_script (fun _ => "0.5") 3 None polled0
     = (Ret (PyStr "b"), {| pasted := 3; timed := 1; slept := 1 |})
  /\ fst (waitForNewPaste_on constant_script (fun _ => "0.5") 5 (Some 0.5%float) polled0)
     = Raise (PyperclipTimeoutException "waitForNewPaste() timed out after 0.5 seconds.").
Proof.
  split; [ | split ].
  - refine (proj1 (waitForNewPaste_waits_for_change changing_script (fun _ => "0.5") None
                     polled0 (Some "a") eq_refl)
              3%nat (PyStr "b") {| pasted := 3; timed := 1; slept := 1 |} _).
    reflexivity.
  - refine (proj1 (proj2 (waitForNewPaste_waits_for_change changing_script (fun _ => "0.5") None
                            polled0 (Some "a") eq_refl))
              1%nat (Some "b") 3%nat _ _ eq_refl _ _).
    + lia.
    + intros i Hi. assert (i = 0)%nat as -> by lia. reflexivity.
    + discriminate.
    + intros seconds Hs. discriminate Hs.
  - refine (proj2 (proj2 (proj2 (waitForNewPaste_waits_for_change constant_script
                                   (fun _ => "0.5") (Some 0.5%float) polled0 (Some "a")
                                   eq_refl)))
              0.5%float 1%nat 5%nat eq_refl _ _ _ _).
    + lia.
    + intros i Hi. reflexivity.
    + intros i Hi. assert (i = 0)%nat as -> by lia. reflexivity.
    + reflexivity.
Defined.

(* ================================================================== *)
(** * What the helpers print and what the reads make of it *)
(* ================================================================== *)

Lemma length_append (s t : string) :
  String.length (s ++ t) = String.length s + String.length t.
Proof. induction s as [| c s IH]; simpl; [ reflexivity | now rewrite IH ]. Qed.

Lemma substring_all (s : string) : substring 0 (String.length s) s = s.
Proof. induction s as [| c s IH]; simpl; [ reflexivity | now rewrite IH ]. Qed.

Lemma substring_head (s t : string) : substring 0 (String.length s) (s ++ t) = s.
Proof.
  induction s as [| c s IH]; simpl; [ destruct t; reflexivity | now rewrite IH ].
Qed.

Lemma substring_tail (s t : string) :
  substring (String.length s) (String.length t) (s ++ t) = t.
Proof. induction s as [| c s IH]; simpl; [ apply substring_all | exact IH ]. Qed.

Lemma endswith_append (s t : string) : endswith (s ++ t) t = true.
Proof.
  unfold endswith. rewrite length_append.
  replace (String.length s + String.length t - String.length t) with (String.length s) by lia.
  rewrite substring_tail, String.eqb_refl, andb_true_r.
  apply Nat.leb_le. lia.
Qed.

Lemma drop_last_append (s t : string) : drop_last (String.length t) (s ++ t) = s.
Proof.
  unfold drop_last. rewrite length_append.
  replace (String.length s + String.length t - String.length t) with (String.length s) by lia.
  apply substring_head.
Qed.

Lemma drop_last_short (k : nat) (s : string) : String.length s <= k -> drop_last k s = "".
Proof.
  intro H. unfold drop_last.
  replace (String.length s - k) with 0 by lia. destruct s; reflexivity.
Qed.

(** X1.  The Klipper read takes one line feed off the end of what qdbus
    printed, and one only: a text that itself ends in a line feed comes
    back with it, and output that ends in none comes back whole. *)
Theorem paste_klipper_strips_one_line_feed (h : Host) (w : world) (text : string) :
  on_path h "qdbus" = true ->
  (bytes_decode h "utf-8" "strict"
     (helper_stdout h (stamp w) ["qdbus"; "org.kde.klipper"; "/klipper"; "getClipboardContents"])
   = Some (text ++ nl) ->
   fst (paste_klipper h w) = Ret (PyStr text))
  /\ (bytes_decode h "utf-8" "strict"
        (helper_stdout h (stamp w) ["qdbus"; "org.kde.klipper"; "/klipper"; "getClipboardContents"])
      = Some text ->
      endswith text nl = false ->
      fst (paste_klipper h w) = Ret (PyStr text)).
Proof.
  intro Hq.
  split; [ intro Hout | intros Hout Hend ];
    unfold paste_klipper; unfold bind at 1;
    (rewrite Popen_runs; [ | reflexivity | exact Hq | short ]);
    unfold decode, ENCODING, bind, ret, raise; rewrite Hout; cbn [fst].
  - rewrite endswith_append.
    change 1 with (String.length nl). rewrite drop_last_append. reflexivity.
  - rewrite Hend. reflexivity.
Qed.

Lemma paste_klipper_strips_one_line_feed_witness :
  fst (paste_klipper
         (host_of "Linux" "posix" [] [] ["qdbus"] [] ("two lines" ++ nl ++ nl)) world0)
  = Ret (PyStr ("two lines" ++ nl)).
Proof.
  refine (proj1 (paste_klipper_strips_one_line_feed
                   (host_of "Linux" "posix" [] [] ["qdbus"] [] ("two lines" ++ nl ++ nl))
                   world0 ("two lines" ++ nl) eq_refl) _).
  reflexivity.
Defined.

(** X2.  The WSL read drops the last two bytes of what PowerShell
    printed, whatever they are, before it decodes: output of two bytes
    or fewer decodes as the empty byte string. *)
Theorem paste_wsl_drops_two_bytes (h : Host) (w : world) :
  on_path h "powershell.exe" = true ->
  (forall data tail,
      helper_stdout h (stamp w) ["powershell.exe"; "-noprofile"; "-command"; "Get-Clipboard"]
      = data ++ tail ->
      String.length tail = 2 ->
      fst (paste_wsl h w)
      = match bytes_decode h "utf-8" "strict" data with
        | Some text => Ret (PyStr text)
        | None => Raise (UnicodeDecodeError "utf-8")
        end)
  /\ (String.length
        (helper_stdout h (stamp w) ["powershell.exe"; "-noprofile"; "-command"; "Get-Clipboard"])
      <= 2 ->
      fst (paste_wsl h w)
      = match bytes_decode h "utf-8" "strict" "" with
        | Some text => Ret (PyStr text)
        | None => Raise (UnicodeDecodeError "utf-8")
        end).
Proof.
  intro Hp.
  split; [ intros data tail Hout Htail | intro Hshort ];
    unfold paste_wsl; unfold bind at 1;
    (rewrite Popen_runs; [ | reflexivity | exact Hp | short ]);
    unfold decode, ENCODING, bind, ret, raise.
  - rewrite Hout, <- Htail, drop_last_append.
    destruct (bytes_decode h "utf-8" "strict" data); reflexivity.
  - rewrite (drop_last_short 2 _ Hshort).
    destruct (bytes_decode h "utf-8" "strict" ""); reflexivity.
Qed.

(** PowerShell prints the text and a carriage return and line feed: the
    text comes back; had it printed the text alone, its last two
    characters would be lost. *)
Lemma paste_wsl_drops_two_bytes_witness :
  fst (paste_wsl (host_of "Linux" "posix" [] [] ["powershell.exe"] [] ("hello" ++ cr ++ nl))
         world0)
  = Ret (PyStr "hello")
  /\ fst (paste_wsl (host_of "Linux" "posix" [] [] ["powershell.exe"] [] "hello") world0)
     = Ret (PyStr "hel").
Proof.
  split.
  - exact (proj1 (paste_wsl_drops_two_bytes
                    (host_of "Linux" "posix" [] [] ["powershell.exe"] [] ("hello" ++ cr ++ nl))
                    world0 eq_refl)
             "hello" (cr ++ nl) eq_refl eq_refl).
  - exact (proj1 (paste_wsl_drops_two_bytes
                    (host_of "Linux" "posix" [] [] ["powershell.exe"] [] "hello")
                    world0 eq_refl)
             "hel" "lo" eq_refl eq_refl).
Defined.

Lemma append_empty (s : string) : s ++ "" = s.
Proof. induction s as [| c s IH]; cbn; [ reflexivity | now rewrite IH ]. Qed.

Lemma append_one (s t : string) (c : ascii) : (s ++ String c "") ++ t = s ++ String c t.
Proof. induction s as [| d s IH]; cbn; [ reflexivity | now rewrite IH ]. Qed.

Lemma splitlines_from_line (line : string) :
  forall cur rest,
    one_line line = true ->
    splitlines_from cur (line ++ nl ++ rest)
    = ((match cur with Some l => l | None => "" end) ++ line) :: splitlines_from None rest.
Proof.
  induction line as [| c line IH]; intros cur rest Hone.
  - cbn. destruct cur as [l |]; cbn.
    + now rewrite append_empty.
    + reflexivity.
  - unfold one_line in Hone. cbn [list_ascii_of_string forallb] in Hone.
    apply andb_true_iff in Hone. destruct Hone as [Hc Hline].
    apply negb_true_iff in Hc.
    cbn [append splitlines_from]. rewrite Hc. rewrite (IH _ rest Hline).
    f_equal. destruct cur as [l |]; cbn.
    + apply append_one.
    + reflexivity.
Qed.

(** X3.  The GPaste read returns the first line of the history listing
    with the blanks at its two ends taken off: of an entry of several
    lines only the first comes back, and an entry that begins or ends in
    blanks comes back without them.  Lines and blanks are those of
    [str.splitlines] and [str.strip] on the code points below 256: a
    line ends at 10 to 13, 28 to 30 and 133, and the blanks are 9 to 13,
    28 to 32, 133 and 160. *)
Theorem paste_gpaste_first_line_stripped (h : Host) (w : world) (line rest : string) :
  shell_stdout h (stamp w) "gpaste-client history --raw & exit" = line ++ nl ++ rest ->
  one_line line = true ->
  paste_gpaste h w
  = (Ret (PyStr (strip line)), probed w [EvShell "gpaste-client history --raw & exit"]).
Proof.
  intros Hout Hone.
  unfold paste_gpaste, shell_run, bind, ask, emit, ret. rewrite Hout.
  unfold splitlines. rewrite (splitlines_from_line line None rest Hone). reflexivity.
Qed.

Lemma paste_gpaste_first_line_stripped_witness :
  fst (paste_gpaste
         (host_of "Linux" "posix" [] [] [] [] ("  first line " ++ nl ++ "second line" ++ nl))
         world0)
  = Ret (PyStr "first line").
Proof.
  exact (f_equal fst
           (paste_gpaste_first_line_stripped
              (host_of "Linux" "posix" [] [] [] [] ("  first line " ++ nl ++ "second line" ++ nl))
              world0 "  first line " ("second line" ++ nl) eq_refl eq_refl)).
Defined.

(* ================================================================== *)
(** * Polling: what ends a wait *)
(* ================================================================== *)

(** X4.  Against any clipboard and clock: when [waitForPaste] returns,
    it returns what the first read that did not hand back the empty
    text handed it, every read before that one having handed back the
    empty text.  It does return it: when the poll after [k] polls that
    found the empty text finds something else, no check of the clock
    before it having been late, that value is returned after [k]
    sleeps.  A read that hands back [None] counts as such a read, so
    [None] is returned at once.  And when a timeout is given and the
    clock is found later than the start plus the timeout after a sleep,
    every read up to then having been empty, it raises the timeout
    error that names [waitForPaste]. *)
Theorem waitForPaste_returns_first_text (sc : script) (float_text : float -> string)
  (timeout : option float) (s : polled) :
  (forall fuel v s',
      waitForPaste_on sc float_text fuel timeout s = (Ret v, s') ->
      exists k x,
        v = text_value x /\ x <> Some ""
        /\ reads sc (pasted s + k) = Ret x
        /\ forall i, i < k -> reads sc (pasted s + i) = Ret (Some ""))
  /\ (forall k x fuel,
         k < fuel ->
         (forall i, i < k -> reads sc (pasted s + i) = Ret (Some "")) ->
         reads sc (pasted s + k) = Ret x -> x <> Some "" ->
         (forall seconds, timeout = Some seconds ->
            forall i, i < k ->
              PrimFloat.ltb (PrimFloat.add (readings sc (timed s)) seconds)
                (readings sc (timed s + 1 + i)) = false) ->
         waitForPaste_on sc float_text fuel timeout s
         = (Ret (text_value x),
            {| pasted := pasted s + k + 1;
               timed := timed s + 1 + match timeout with Some _ => k | None => 0 end;
               slept := slept s + k |}))
  /\ (forall fuel,
         0 < fuel -> reads sc (pasted s) = Ret None ->
         fst (waitForPaste_on sc float_text fuel timeout s) = Ret PyNone)
  /\ (forall seconds k fuel,
         timeout = Some seconds ->
         k < fuel ->
         (forall i, i <= k -> reads sc (pasted s + i) = Ret (Some "")) ->
         (forall i, i < k ->
                    PrimFloat.ltb (PrimFloat.add (readings sc (timed s)) seconds)
                      (readings sc (timed s + 1 + i)) = false) ->
         PrimFloat.ltb (PrimFloat.add (readings sc (timed s)) seconds)
           (readings sc (timed s + 1 + k)) = true ->
         fst (waitForPaste_on sc float_text fuel timeout s)
         = Raise (PyperclipTimeoutException
                    ("waitForPaste() timed out after " ++ float_text seconds ++ " seconds."))).
Proof.
  split; [ | split; [ | split ] ].
  - intros fuel v s' H. rewrite waitForPaste_on_loop in H.
    apply paste_loop_returns in H. exact H.
  - intros k x fuel Hfuel Hsame Hread Hne Htime. rewrite waitForPaste_on_loop.
    rewrite (paste_loop_finds sc float_text _ timeout (Ret x) k fuel);
      cbn [pasted timed slept handed].
    + f_equal. apply polled_eq; cbn; destruct timeout; cbn; lia.
    + exact Hfuel.
    + exact Hsame.
    + exact Hread.
    + congruence.
    + intros seconds Hs i Hi.
      replace (S (timed s) + i) with (timed s + 1 + i) by lia. now apply (Htime seconds Hs).
  - intros fuel Hfuel Hnone. rewrite waitForPaste_on_loop.
    destruct fuel as [| fuel]; [ lia | ].
    rewrite (paste_loop_ends sc float_text _ timeout fuel _ (Ret None)).
    + reflexivity.
    + exact Hnone.
    + discriminate.
  - intros seconds k fuel Ht Hfuel Hsame Hearly Hlate. subst timeout.
    rewrite waitForPaste_on_loop.
    apply (paste_loop_times_out sc float_text _ seconds k); cbn [pasted timed].
    + exact Hfuel.
    + exact Hsame.
    + intros seconds' Hs i Hi. inversion Hs; subst seconds'.
      replace (S (timed s) + i) with (timed s + 1 + i) by lia. now apply Hearly.
    + replace (S (timed s) + k) with (timed s + 1 + k) by lia. exact Hlate.
Qed.

(** A pasteboard without text ends the wait with [None]; a clipboard
    that fills at its third poll ends it with the new text after two
    sleeps; a clipboard that stays empty ends it with the timeout
    error. *)
Lemma waitForPaste_returns_first_text_witness :
  fst (waitForPaste_on no_text_script (fun _ => "0.5") 1 None polled0) = Ret PyNone
  /\ waitForPaste_on filling_script (fun _ => "0.5") 3 (Some 0.5%float) polled0
     = (Ret (PyStr "b"), {| pasted := 3; timed := 3; slept := 2 |})
  /\ fst (waitForPaste_on empty_script (fun _ => "0.5") 5 (Some 0.5%float) polled0)
     = Raise (PyperclipTimeoutException "waitForPaste() timed out after 0.5 seconds.").
Proof.
  split; [ | split ].
  - refine (proj1 (proj2 (proj2 (waitForPaste_returns_first_text no_text_script
                                   (fun _ => "0.5") None polled0)))
              1%nat _ eq_refl).
    lia.
  - refine (proj1 (proj2 (waitForPaste_returns_first_text filling_script (fun _ => "0.5")
                            (Some 0.5%float) polled0))
              2%nat (Some "b") 3%nat _ _ eq_refl _ _).
    + lia.
    + intros i Hi. destruct i as [| [| i]]; [ reflexivity | reflexivity | lia ].
    + discriminate.
    + intros seconds Hs i Hi. inversion Hs; subst seconds. reflexivity.
  - refine (proj2 (proj2 (proj2 (waitForPaste_returns_first_text empty_script (fun _ => "0.5")
                                   (Some 0.5%float) polled0)))
              0.5%float 1%nat 5%nat eq_refl _ _ _ _).
    + lia.
    + intros i Hi. reflexivity.
    + intros i Hi. assert (i = 0)%nat as -> by lia. reflexivity.
    + reflexivity.
Defined.

(** X5.  Called without a timeout, neither wait looks at the clock
    again after the reading it takes on entry, and neither raises the
    timeout error of its own: an exception that comes out of the wait
    is one that a read raised. *)
Theorem waits_without_timeout (sc : script) (float_text : float -> string)
  (fuel : nat) (s : polled) :
  (timed (snd (waitForPaste_on sc float_text fuel None s)) = S (timed s)
   /\ forall e,
        fst (waitForPaste_on sc float_text fuel None s) = Raise e ->
        exists k, reads sc (pasted s + k) = Raise e)
  /\ (timed (snd (waitForNewPaste_on sc float_text fuel None s)) = S (timed s)
      /\ forall e,
           fst (waitForNewPaste_on sc float_text fuel None s) = Raise e ->
           exists k, reads sc (pasted s + k) = Raise e).
Proof.
  split.
  - rewrite waitForPaste_on_loop.
    exact (paste_loop_unbounded sc float_text _ fuel _ _ _ (surjective_pairing _)).
  - destruct (reads sc (pasted s)) as [original | e0 | ] eqn:Hfirst.
    + rewrite (waitForNewPaste_on_loop sc float_text None fuel s original Hfirst).
      destruct (loop_unbounded sc float_text (readings sc (timed s)) original fuel
                  {| pasted := S (pasted s); timed := S (timed s); slept := slept s |}
                  _ _ (surjective_pairing _))
        as [Ht Hr].
      split; [ exact Ht | ].
      intros e He. destruct (Hr e He) as [k Hk]. cbn [pasted] in Hk.
      exists (S k). rewrite Nat.add_succ_r. exact Hk.
    + assert (Hrun : waitForNewPaste_on sc float_text fuel None s
                     = (Raise e0, {| pasted := S (pasted s); timed := S (timed s);
                                     slept := slept s |})).
      { unfold waitForNewPaste_on, waitForNewPaste.
        unfold bind at 1, scripted_time at 1. cbn beta iota.
        unfold bind at 1, scripted_paste at 1. cbn [pasted]. rewrite Hfirst. reflexivity. }
      rewrite Hrun. split; [ reflexivity | ].
      intros e He. cbn in He. inversion He; subst. exists 0%nat. now rewrite Nat.add_0_r.
    + assert (Hrun : waitForNewPaste_on sc float_text fuel None s
                     = (Diverge, {| pasted := S (pasted s); timed := S (timed s);
                                    slept := slept s |})).
      { unfold waitForNewPaste_on, waitForNewPaste.
        unfold bind at 1, scripted_time at 1. cbn beta iota.
        unfold bind at 1, scripted_paste at 1. cbn [pasted]. rewrite Hfirst. reflexivity. }
      rewrite Hrun. split; [ reflexivity | intros e He; discriminate He ].
Qed.

(** X6.  A wait ends at the first poll whose read does not hand back the
    text waited against (the empty text for [waitForPaste], the text of
    the first read for [waitForNewPaste]), provided no check of the
    clock before it was late: it ends as that read ended, returning its
    value or raising its exception, after one sleep for each earlier
    poll and, when a timeout is given, one look at the clock after each
    sleep.  The clock is looked at only after a sleep, so a first poll
    that finds other text returns it whatever the timeout. *)
Theorem wait_ends_at_first_other_read (sc : script) (float_text : float -> string)
  (timeout : option float) (s : polled) (k fuel : nat) (r : outcome (option string)) :
  k < fuel ->
  in_time sc (readings sc (timed s)) timeout (timed s + 1) k ->
  ((forall i, i < k -> reads sc (pasted s + i) = Ret (Some "")) ->
   reads sc (pasted s + k) = r -> r <> Ret (Some "") ->
   waitForPaste_on sc float_text fuel timeout s = (handed r, after_polls timeout 0 k s))
  /\ (forall original,
         reads sc (pasted s) = Ret original ->
         (forall i, i < k -> reads sc (pasted s + 1 + i) = Ret original) ->
         reads sc (pasted s + 1 + k) = r -> r <> Ret original ->
         waitForNewPaste_on sc float_text fuel timeout s
         = (handed r, after_polls timeout 1 k s)).
Proof.
  intros Hfuel Htime. split.
  - intros Hsame Hread Hne. rewrite waitForPaste_on_loop.
    rewrite (paste_loop_finds sc float_text _ timeout r k fuel); cbn [pasted timed slept].
    + f_equal. apply polled_eq; cbn; lia.
    + exact Hfuel.
    + exact Hsame.
    + exact Hread.
    + exact Hne.
    + replace (S (timed s)) with (timed s + 1) by lia. exact Htime.
  - intros original Hfirst Hsame Hread Hne.
    rewrite (waitForNewPaste_on_loop sc float_text timeout fuel s original Hfirst).
    rewrite (loop_finds sc float_text _ original timeout r k fuel); cbn [pasted timed slept].
    + f_equal. apply polled_eq; cbn; lia.
    + exact Hfuel.
    + intros i Hi. replace (S (pasted s) + i) with (pasted s + 1 + i) by lia. now apply Hsame.
    + replace (S (pasted s) + k) with (pasted s + 1 + k) by lia. exact Hread.
    + exact Hne.
    + replace (S (timed s)) with (timed s + 1) by lia. exact Htime.
Qed.

(** The clipboard is empty for two polls and holds text at the third:
    [waitForPaste] returns it after two sleeps.  With a timeout of zero
    seconds, [waitForNewPaste] still returns a change seen by its first
    poll; and an exception of a read comes out as it is. *)
Lemma wait_ends_at_first_other_read_witness :
  waitForPaste_on filling_script (fun _ => "0.5") 3 None polled0
  = (Ret (PyStr "b"), {| pasted := 3; timed := 1; slept := 2 |})
  /\ waitForNewPaste_on filling_script (fun _ => "0") 2 (Some 0%float)
       {| pasted := 1; timed := 0; slept := 0 |}
     = (Ret (PyStr "b"), {| pasted := 3; timed := 1; slept := 0 |})
  /\ fst (waitForNewPaste_on failing_script (fun _ => "0.5") 1 None polled0)
     = Raise (PyperclipException "clipboard lost").
Proof.
  split; [ | split ].
  - refine (proj1 (wait_ends_at_first_other_read filling_script (fun _ => "0.5") None polled0
                     2 3 (Ret (Some "b")) _ _) _ eq_refl _).
    + lia.
    + intros seconds Hs. discriminate Hs.
    + intros i Hi. destruct i as [| [| i]]; [ reflexivity | reflexivity | lia ].
    + discriminate.
  - refine (proj2 (wait_ends_at_first_other_read filling_script (fun _ => "0") (Some 0%float)
                     {| pasted := 1; timed := 0; slept := 0 |} 0 2 (Ret (Some "b")) _ _)
              (Some "") eq_refl _ eq_refl _).
    + lia.
    + intros seconds Hs i Hi. lia.
    + intros i Hi. lia.
    + discriminate.
  - refine (f_equal fst
              (proj2 (wait_ends_at_first_other_read failing_script (fun _ => "0.5") None polled0
                        0 1 (Raise (PyperclipException "clipboard lost")) _ _)
                 (Some "") eq_refl _ eq_refl _)).
    + lia.
    + intros seconds Hs. discriminate Hs.
    + intros i Hi. lia.
    + discriminate.
Defined.

(* ================================================================== *)
(** * Dispatch: before, at and after resolution *)
(* ================================================================== *)

Lemma serve_keeps_bindings (h : Host) (fuel : nat) (r : request) (p : process) :
  resolved p ->
  copy (snd (serve h fuel r p)) = copy p /\ paste (snd (serve h fuel r p)) = paste p.
Proof.
  intros [b [Hc Hp]]. destruct p as [c q e]. simpl in Hc, Hp. subst c q.
  destruct r as [args kw | args kw];
    unfold serve, call_copy, call_paste, call, in_world; cbn [copy paste env].
  - destruct (call_backend h fuel (copy_of b) args kw e). split; reflexivity.
  - destruct (call_backend h fuel (paste_of b) args kw e). split; reflexivity.
Qed.

(** X7.  Once both entry points are bound to the functions of a backend,
    no call of [copy] or [paste] rebinds them, however the calls end:
    the lazy resolution does not run again, and [is_available()] answers
    [True] after every call. *)
Theorem resolved_bindings_stay (h : Host) (fuel : nat) (rs : list request) (p : process) :
  resolved p ->
  copy (snd (serve_all h fuel rs p)) = copy p
  /\ paste (snd (serve_all h fuel rs p)) = paste p
  /\ Forall (fun ob => snd ob = true) (fst (serve_all h fuel rs p)).
Proof.
  revert p. induction rs as [| r rs IH]; intros p Hres.
  - repeat split. constructor.
  - destruct (serve_keeps_bindings h fuel r p Hres) as [Hc Hp].
    cbn [serve_all]. destruct (serve h fuel r p) as [o p'] eqn:Hs. cbn [snd] in Hc, Hp.
    assert (Hres' : resolved p').
    { destruct Hres as [b [Hb1 Hb2]]. exists b. split; congruence. }
    specialize (IH p' Hres').
    destruct (serve_all h fuel rs p') as [os p''] eqn:Hall. cbn [fst snd] in IH |- *.
    destruct IH as [IHc [IHp IHo]].
    split; [ congruence | split; [ congruence | ] ].
    constructor; [ | exact IHo ].
    cbn [snd]. destruct Hres' as [b [Hb1 Hb2]]. unfold is_available.
    rewrite Hb1, Hb2. reflexivity.
Qed.

(** Bound to xclip on a machine without xclip, every call fails, and the
    bindings stay. *)
Lemma resolved_bindings_stay_witness :
  copy (snd (serve_all bare_linux 0 [Copy [PyStr "x"] []; Paste [] []]
               {| copy := copy_of Xclip; paste := paste_of Xclip; env := world0 |}))
  = copy_of Xclip
  /\ paste (snd (serve_all bare_linux 0 [Copy [PyStr "x"] []; Paste [] []]
                   {| copy := copy_of Xclip; paste := paste_of Xclip; env := world0 |}))
     = paste_of Xclip
  /\ Forall (fun ob => snd ob = true)
       (fst (serve_all bare_linux 0 [Copy [PyStr "x"] []; Paste [] []]
               {| copy := copy_of Xclip; paste := paste_of Xclip; env := world0 |})).
Proof.
  apply (resolved_bindings_stay bare_linux 0 [Copy [PyStr "x"] []; Paste [] []]
           {| copy := copy_of Xclip; paste := paste_of Xclip; env := world0 |}).
  exists Xclip. split; reflexivity.
Defined.

(** X8.  The lazy stubs take the parameters of their own [def] lines,
    [text] for the write and none for the read.  A first call that does
    not fit them raises [TypeError] before resolution starts: nothing is
    probed and the stubs stay bound.  So on a freshly loaded module a
    call that passes [primary] fails on every host, also where
    resolution would select a backend that takes the flag. *)
Theorem stubs_refuse_before_resolving (h : Host) (fuel : nat) (w : world) :
  (forall args kw e,
      bind_args {| sig_name := "lazy_load_stub_copy"; sig_params := [required "text"] |} args kw
      = Raise e ->
      call_copy h fuel args kw (loaded w) = (Raise e, loaded w))
  /\ (forall args kw e,
         bind_args {| sig_name := "lazy_load_stub_paste"; sig_params := [] |} args kw = Raise e ->
         call_paste h fuel args kw (loaded w) = (Raise e, loaded w))
  /\ (forall text flag,
         call_copy h fuel [text] [("primary", flag)] (loaded w)
         = (Raise (TypeError
                     "lazy_load_stub_copy() got an unexpected keyword argument 'primary'"),
            loaded w))
  /\ (forall flag,
         call_paste h fuel [] [("primary", flag)] (loaded w)
         = (Raise (TypeError
                     "lazy_load_stub_paste() got an unexpected keyword argument 'primary'"),
            loaded w))
  /\ call_copy h fuel [] [] (loaded w)
     = (Raise (TypeError "lazy_load_stub_copy() missing 1 required positional argument: 'text'"),
        loaded w)
  /\ (forall v,
         call_paste h fuel [v] [] (loaded w)
         = (Raise (TypeError "lazy_load_stub_paste() takes 0 positional arguments but 1 was given"),
            loaded w)).
Proof.
  split; [ | split; [ | repeat split ] ].
  - intros args kw e He.
    unfold call_copy, call, loaded; cbn [copy signature_of].
    unfold bind at 1, lift_outcome. rewrite He. reflexivity.
  - intros args kw e He.
    unfold call_paste, call, loaded; cbn [paste signature_of].
    unfold bind at 1, lift_outcome. rewrite He. reflexivity.
Qed.

(** X9.  A first call that fits its stub runs the resolution once, binds
    both entry points to the pair it returned, and hands its argument to
    the function just bound: a first [paste()] binds [copy] as well.
    When the resolution itself raises, the exception comes out and both
    stubs stay bound, so [is_available()] still answers [False] and the
    next call resolves again. *)
Theorem first_call_resolves_and_forwards (h : Host) (fuel : nat) (w w1 : world) :
  (forall b v,
      determine_clipboard h w = (Ret (pair_of b), w1) ->
      call_copy h fuel [v] [] (loaded w)
      = in_world (call_backend h fuel (copy_of b) [v] [])
          {| copy := copy_of b; paste := paste_of b; env := w1 |}
      /\ call_paste h fuel [] [] (loaded w)
         = in_world (call_backend h fuel (paste_of b) [] [])
             {| copy := copy_of b; paste := paste_of b; env := w1 |})
  /\ (forall e v,
         determine_clipboard h w = (Raise e, w1) ->
         call_copy h fuel [v] [] (loaded w) = (Raise e, loaded w1)
         /\ call_paste h fuel [] [] (loaded w) = (Raise e, loaded w1)
         /\ is_available (loaded w1) = false).
Proof.
  split.
  - intros b v Hd.
    unfold call_copy, call_paste, call, loaded; cbn [copy paste signature_of].
    unfold bind, lift_outcome, in_world, rebind; cbn. rewrite Hd. cbn. split; reflexivity.
  - intros e v Hd.
    unfold call_copy, call_paste, call, loaded; cbn [copy paste signature_of].
    unfold bind, lift_outcome, in_world, rebind; cbn. rewrite Hd. cbn.
    repeat split.
Qed.

(** On a machine that reports Windows while [os.name] is not ['nt'], the
    resolution raises and the module stays unresolved. *)
Lemma first_call_resolves_and_forwards_witness :
  call_paste odd_windows 0 [] [] (loaded world0)
  = (Raise (AttributeError "module 'ctypes' has no attribute 'windll'"), loaded world0)
  /\ fst (call_copy kde_linux 0 [PyInt 42] [] (loaded world0)) = Ret PyNone.
Proof.
  split.
  - exact (proj1 (proj2 (proj2 (first_call_resolves_and_forwards odd_windows 0 world0 world0)
                           (AttributeError "module 'ctypes' has no attribute 'windll'")
                           PyNone eq_refl))).
  - rewrite (proj1 (proj1 (first_call_resolves_and_forwards kde_linux 0 world0
                             (snd (determine_clipboard kde_linux world0)))
                      Klipper (PyInt 42) eq_refl)).
    reflexivity.
Defined.

Lemma initialiser_setup (h : Host) (b : backend) (w : world) :
  b <> Qt -> b <> Windows ->
  initialiser h b w = (Ret (pair_of b), probed w (setup_trace b)).
Proof.
  intros Hq Hw.
  destruct b; try congruence; cbn [initialiser setup_trace]; try (now rewrite probed_nil).
  unfold init_gpaste_clipboard, start_client_gpaste, shell_run, bind, ask, emit, ret.
  cbn. f_equal. apply world_eq; cbn; try reflexivity.
  rewrite <- app_assoc. reflexivity.
Qed.

(** X10.  [set_clipboard] checks nothing about the host: with every name
    it knows, other than [qt] (which imports the toolkit) and [windows]
    (which loads the system libraries), it returns on every host, the
    helper of the backend installed or not, with both entry points
    bound to that backend.  The surroundings see nothing of the call,
    except for [gpaste], whose two daemon commands are run at every
    call. *)
Theorem override_checks_nothing (h : Host) (name : string) (b : backend) (p : process) :
  In (name, b) named_backends -> b <> Qt -> b <> Windows ->
  set_clipboard h name p
  = (Ret tt,
     {| copy := copy_of b; paste := paste_of b; env := probed (env p) (setup_trace b) |}).
Proof.
  intros Hin Hq Hw. unfold set_clipboard.
  rewrite (named_initialiser h name b Hin).
  unfold bind, in_world, rebind. rewrite (initialiser_setup h b (env p) Hq Hw). reflexivity.
Qed.

(** On a machine with no helper at all, the name xsel is accepted and
    the name gpaste starts the daemon commands. *)
Lemma override_checks_nothing_witness :
  set_clipboard bare_linux "xsel" (loaded world0)
  = (Ret tt, {| copy := copy_of Xsel; paste := paste_of Xsel; env := world0 |})
  /\ set_clipboard bare_linux "gpaste" (loaded world0)
     = (Ret tt,
        {| copy := copy_of Gpaste; paste := paste_of Gpaste;
           env := probed world0 [EvShell "gpaste-client daemon-reexec & exit";
                                 EvShell "gpaste-client start & exit"] |}).
Proof.
  split.
  - refine (override_checks_nothing bare_linux "xsel" Xsel (loaded world0) _ _ _);
      [ simpl; tauto | discriminate | discriminate ].
  - refine (override_checks_nothing bare_linux "gpaste" Gpaste (loaded world0) _ _ _);
      [ simpl; tauto | discriminate | discriminate ].
Defined.

(** X11.  The test for Windows is the [elif] of the test for Cygwin: on
    a host that reports itself as Cygwin the native Windows backend is
    never selected, whatever [os.name] says.  With [/dev/clipboard]
    present the Cygwin backend is selected; without it the resolution
    goes on with the branches after the Windows one.  Either way it
    returns a pair. *)
Theorem cygwin_never_native (h : Host) (w : world) :
  is_cygwin h = true ->
  first_match resolution_order h <> Windows
  /\ fst (determine_clipboard h w) = Ret (pair_of (first_match resolution_order h))
  /\ (path_exists h "/dev/clipboard" = true ->
      determine_clipboard h w = (Ret (pair_of DevClipboard), probed w [EvPathExists "/dev/clipboard"]))
  /\ (path_exists h "/dev/clipboard" = false ->
      2 <= rank (first_match resolution_order h)).
Proof.
  intro Hc.
  assert (Hm : first_match resolution_order h
               = if path_exists h "/dev/clipboard" then DevClipboard else winner_from 2 h).
  { change (first_match resolution_order h) with
      (if is_cygwin h && path_exists h "/dev/clipboard" then DevClipboard
       else if negb (is_cygwin h) && is_windows h then Windows else winner_from 2 h).
    rewrite Hc. cbn [andb negb]. reflexivity. }
  assert (Hnw : first_match resolution_order h <> Windows).
  { rewrite Hm. destruct (path_exists h "/dev/clipboard"); [ discriminate | ].
    intro Heq. pose proof (rank_winner_from h 2 ltac:(lia)) as Hr.
    rewrite Heq in Hr. cbn in Hr. lia. }
  split; [ exact Hnw | split; [ | split ] ].
  - apply determine_clipboard_returns. intro Heq. contradiction.
  - intro He. unfold determine_clipboard. unfold is_cygwin in Hc. rewrite Hc.
    unfold bind, os_path_exists, emit, ret. cbn. rewrite He. reflexivity.
  - intro He. rewrite Hm, He. apply rank_winner_from. lia.
Qed.

Lemma cygwin_never_native_witness :
  first_match resolution_order cygwin_host <> Windows
  /\ fst (determine_clipboard cygwin_host world0) = Ret (pair_of NoClipboard).
Proof.
  split.
  - exact (proj1 (cygwin_never_native cygwin_host world0 eq_refl)).
  - exact (proj1 (proj2 (cygwin_never_native cygwin_host world0 eq_refl))).
Defined.

(* ================================================================== *)
(** * The native backend: what is called, in which order *)
(* ================================================================== *)

(** X12.  The native write of the empty text empties the clipboard and
    puts nothing on it: between opening and closing the clipboard it
    calls [EmptyClipboard] and nothing else, no memory is allocated and
    [SetClipboardData] is not called.  The clipboard is closed and the
    window destroyed whether or not [EmptyClipboard] failed, and the
    error that comes out is that of the last call that failed. *)
Theorem empty_native_write_only_empties (h : Host) (fuel : nat) (v : pyvalue)
  (n : nat) (w : world) :
  n < fuel -> _stringifyText h v = Ret "" ->
  call_fails h "CreateWindowExA" = false -> opens_after h w n ->
  trace (snd (copy_windows h fuel v w))
  = (trace w ++ [EvWin (CreateWindowExA "STATIC"); EvTime]
     ++ retry_trace (win_reply h "CreateWindowExA") n
     ++ [EvTime; EvWin (OpenClipboard (win_reply h "CreateWindowExA"));
         EvWin EmptyClipboard; EvWin CloseClipboard;
         EvWin (DestroyWindow (win_reply h "CreateWindowExA"))])%list
  /\ fst (copy_windows h fuel v w)
     = (if call_fails h "DestroyWindow" then Raise (call_error h "DestroyWindow")
        else if call_fails h "CloseClipboard" then Raise (call_error h "CloseClipboard")
        else if call_fails h "EmptyClipboard" then Raise (call_error h "EmptyClipboard")
        else Ret PyNone).
Proof.
  intros Hfuel Htext Hwin Hopen.
  rewrite (copy_windows_opens h fuel v "" n w Hfuel Htext Hwin Hopen).
  unfold try_finally, call_fails, call_error, windows_exception. cbn [truthy String.eqb negb].
  cbv beta iota zeta delta [bind CheckedCall foreign ret raise call_name].
  destruct (Z.eqb (win_reply h "EmptyClipboard") 0 && negb (Z.eqb (ctypes_errno h) 0));
    destruct (Z.eqb (win_reply h "CloseClipboard") 0 && negb (Z.eqb (ctypes_errno h) 0));
    destruct (Z.eqb (win_reply h "DestroyWindow") 0 && negb (Z.eqb (ctypes_errno h) 0));
    cbn [fst snd]; (split; [ flatten_trace; reflexivity | reflexivity ]).
Qed.

Lemma empty_native_write_only_empties_witness :
  trace (snd (copy_windows (free_windows 7 0) 1 (PyStr "") world0))
  = [ EvWin (CreateWindowExA "STATIC"); EvTime; EvTime; EvWin (OpenClipboard 7);
      EvWin EmptyClipboard; EvWin CloseClipboard; EvWin (DestroyWindow 7) ]
  /\ fst (copy_windows (free_windows 7 0) 1 (PyStr "") world0) = Ret PyNone.
Proof.
  refine (empty_native_write_only_empties (free_windows 7 0) 1 (PyStr "") 0 world0 _ eq_refl
            eq_refl _).
  - lia.
  - split; [ | split ].
    + intros i Hi. lia.
    + reflexivity.
    + discriminate.
Defined.

(** X13.  What a native operation acquires it hands back in the reverse
    order, once each and after everything else.  A read that gets the
    clipboard makes its calls and then closes the clipboard, the last
    thing it does; a write that gets the clipboard makes its calls,
    closes the clipboard and then destroys its window, the last two
    things it does; and this however the calls in between ended. *)
Theorem native_release_order (h : Host) (fuel : nat) (n : nat) (w : world) :
  n < fuel -> opens_after h w n ->
  (exists calls,
      trace (snd (paste_windows h fuel w))
      = (trace w ++ [EvTime] ++ retry_trace 0 n ++ [EvTime; EvWin (OpenClipboard 0)]
         ++ calls ++ [EvWin CloseClipboard])%list
      /\ Forall inner_call calls)
  /\ (forall v text,
         _stringifyText h v = Ret text ->
         call_fails h "CreateWindowExA" = false ->
         exists calls,
           trace (snd (copy_windows h fuel v w))
           = (trace w ++ [EvWin (CreateWindowExA "STATIC"); EvTime]
              ++ retry_trace (win_reply h "CreateWindowExA") n
              ++ [EvTime; EvWin (OpenClipboard (win_reply h "CreateWindowExA"))]
              ++ calls
              ++ [EvWin CloseClipboard; EvWin (DestroyWindow (win_reply h "CreateWindowExA"))])%list
           /\ Forall inner_call calls).
Proof.
  intros Hfuel Hopen. split.
  - exact (paste_windows_order h fuel n w Hfuel Hopen).
  - intros v text Htext Hwin.
    exact (copy_windows_order h fuel n w v text Hfuel Hopen Htext Hwin).
Qed.

(** A write whose allocation fails still closes the clipboard and then
    destroys its window. *)
Lemma native_release_order_witness :
  exists calls,
    trace (snd (copy_windows no_memory_windows 1 (PyStr "hi") world0))
    = ([] ++ [EvWin (CreateWindowExA "STATIC"); EvTime]
       ++ retry_trace 7 0
       ++ [EvTime; EvWin (OpenClipboard 7)]
       ++ calls
       ++ [EvWin CloseClipboard; EvWin (DestroyWindow 7)])%list
    /\ Forall inner_call calls.
Proof.
  refine (proj2 (native_release_order no_memory_windows 1 0 world0 _ _) (PyStr "hi") "hi"
            eq_refl _).
  - lia.
  - split; [ | split ].
    + intros i Hi. lia.
    + reflexivity.
    + discriminate.
  - reflexivity.
Defined.

Tactic Notation "clear_errno" hyp(Herr) :=
  cbv beta iota zeta delta
    [bind CheckedCall foreign ctypes_memmove ret raise call_name];
  rewrite ?Herr; cbn [Z.eqb negb]; rewrite ?andb_false_r; cbv beta iota zeta.

Tactic Notation "clear_errno" hyp(Herr) "in" hyp(H) :=
  cbv beta iota zeta delta
    [bind CheckedCall foreign ctypes_memmove ret raise call_name] in H;
  rewrite ?Herr in H; cbn [Z.eqb negb] in H; rewrite ?andb_false_r in H;
  cbv beta iota zeta in H.

Lemma copy_body_clear (h : Host) (text : string) (w : world) :
  ctypes_errno h = 0%Z ->
  fst ((CheckedCall h EmptyClipboard ;;;
        if truthy (PyStr text) then
          n <- CheckedCall h (wcslen text) ;;
          let count := (n + 1)%Z in
          handle <- CheckedCall h (GlobalAlloc GMEM_MOVEABLE (count * sizeof_c_wchar)) ;;
          locked_handle <- CheckedCall h (GlobalLock handle) ;;
          ctypes_memmove h locked_handle text (count * sizeof_c_wchar) ;;;
          CheckedCall h (GlobalUnlock handle) ;;;
          CheckedCall h (SetClipboardData CF_UNICODETEXT handle) ;;;
          ret PyNone
        else ret PyNone) w)
  = if null_copy h text then Raise access_violation else Ret PyNone.
Proof.
  intro Herr. unfold null_copy. clear_errno Herr.
  destruct (truthy (PyStr text)); [ | reflexivity ].
  cbn [andb]. destruct (Z.eqb (win_reply h "GlobalLock") 0); reflexivity.
Qed.

Lemma paste_body_clear (h : Host) (w : world) :
  ctypes_errno h = 0%Z ->
  fst ((handle <- CheckedCall h (GetClipboardData CF_UNICODETEXT) ;;
        if Z.eqb handle 0 then ret (PyStr "")
        else
          locked_handle <- CheckedCall h (GlobalLock handle) ;;
          let return_value :=
            if Z.eqb locked_handle 0 then PyNone else PyStr (locked_text h) in
          CheckedCall h (GlobalUnlock handle) ;;;
          ret return_value) w)
  = Ret (if Z.eqb (win_reply h "GetClipboardData") 0 then PyStr ""
         else if Z.eqb (win_reply h "GlobalLock") 0 then PyNone
              else PyStr (locked_text h)).
Proof.
  intro Herr. clear_errno Herr.
  destruct (Z.eqb (win_reply h "GetClipboardData") 0); reflexivity.
Qed.

(** With [errno] clear, closing the clipboard never replaces how the
    body ended. *)
Lemma close_clear {A} (h : Host) (body : M world A) (w : world) (r0 : outcome A) :
  ctypes_errno h = 0%Z -> fst (body w) = r0 -> r0 <> Diverge ->
  fst (try_finally body (CheckedCall h CloseClipboard ;;; ret tt) w) = r0.
Proof.
  intros Herr Hb Hnd. unfold try_finally. destruct (body w) as [rb wb]. cbn in Hb. subst rb.
  destruct r0 as [a | e | ]; [ | | congruence ]; clear_errno Herr; reflexivity.
Qed.

Lemma clipboard_clear {A} (h : Host) (fuel : nat) (hwnd : Z) (body : M world A)
  (r0 : outcome A) (w : world) (r : outcome A) (w' : world) :
  ctypes_errno h = 0%Z -> r0 <> Diverge -> (forall w1, fst (body w1) = r0) ->
  clipboard h fuel hwnd body w = (r, w') ->
  r = r0 \/ r = Raise (busy_error h) \/ r = Diverge.
Proof.
  intros Herr Hnd Hbody H.
  unfold clipboard in H. unfold bind at 1 in H. unfold time_time at 1 in H.
  cbn beta iota in H. unfold bind at 1 in H.
  match type of H with
  | context [open_loop h fuel ?t hwnd ?w1] =>
      destruct (open_loop h fuel t hwnd w1) as [[[|] | e | ] w2] eqn:Hl;
      apply open_loop_ledger in Hl; cbn in Hl; destruct Hl as [_ Ho]
  end.
  - left. cbn [negb] in H.
    pose proof (close_clear h body w2 r0 Herr (Hbody w2) Hnd) as Hc.
    rewrite H in Hc. exact Hc.
  - right. left. cbn [negb] in H. unfold raise in H. inversion H. reflexivity.
  - contradiction.
  - right. right. inversion H. reflexivity.
Qed.

Lemma null_copy_ends (h : Host) (text : string) :
  (if null_copy h text then Raise access_violation else Ret PyNone) <> @Diverge pyvalue.
Proof. destruct (null_copy h text); discriminate. Qed.

Lemma copy_windows_clear (h : Host) (fuel : nat) (v : pyvalue) (text : string) (w : world)
  (r : outcome pyvalue) (w' : world) :
  ctypes_errno h = 0%Z ->
  _stringifyText h v = Ret text ->
  copy_windows h fuel v w = (r, w') ->
  r = (if null_copy h text then Raise access_violation else Ret PyNone)
  \/ r = Raise (busy_error h) \/ r = Diverge.
Proof.
  intros Herr Hs H. unfold copy_windows in H. unfold bind at 1, lift_outcome in H.
  rewrite Hs in H.
  unfold window in H. unfold bind at 1, CheckedCall at 1 in H.
  unfold bind at 1, foreign at 1 in H. cbn [call_name] in H.
  rewrite Herr in H. cbn [Z.eqb negb] in H. rewrite andb_false_r in H.
  unfold ret at 1 in H. unfold try_finally in H.
  match type of H with
  | context [clipboard h fuel ?hw ?b ?w1] =>
      destruct (clipboard h fuel hw b w1) as [rc wc] eqn:Hrun;
      destruct (clipboard_clear h fuel hw b _ w1 rc wc Herr (null_copy_ends h text)
                  (fun w2 => copy_body_clear h text w2 Herr) Hrun) as [Hc | [Hc | Hc]]
  end; subst rc.
  - left. destruct (null_copy h text); clear_errno Herr in H; inversion H; reflexivity.
  - right. left. clear_errno Herr in H. inversion H. reflexivity.
  - right. right. inversion H. reflexivity.
Qed.

(** X14.  With [errno] reading 0, as it does when no library was loaded
    with [use_errno=True], no wrapped call raises, whatever it hands
    back.  The native read then fails in one way only, with the busy
    error of a clipboard that could not be opened in time: a read that
    gets the clipboard returns the empty string for a null handle,
    [None] for a handle that does not lock, the text otherwise.  The
    native write refuses what the coercion refuses, fails with the busy
    error, and has one more way to fail: [memmove] is not a wrapped
    call, and when [GlobalLock] has handed back a null pointer for a
    text that is not empty, copying the text to it faults and the fault
    comes out as [OSError].  Short of that, a write that gets the
    clipboard returns [None] even if every wrapped call handed back a
    null value. *)
Theorem clear_errno_hides_failures (h : Host) :
  ctypes_errno h = 0%Z ->
  (forall c w, CheckedCall h c w = foreign h c w)
  /\ (forall fuel v w,
         match _stringifyText h v with
         | Ret text =>
             fst (copy_windows h fuel v w)
             = (if truthy (PyStr text) && Z.eqb (win_reply h "GlobalLock") 0
                then Raise (OSError "exception: access violation writing 0x0000000000000000")
                else Ret PyNone)
             \/ fst (copy_windows h fuel v w) = Raise (busy_error h)
             \/ fst (copy_windows h fuel v w) = Diverge
         | Raise e => copy_windows h fuel v w = (Raise e, w)
         | Diverge => False
         end)
  /\ (forall fuel w,
         fst (paste_windows h fuel w)
         = Ret (if Z.eqb (win_reply h "GetClipboardData") 0 then PyStr ""
                else if Z.eqb (win_reply h "GlobalLock") 0 then PyNone
                     else PyStr (locked_text h))
         \/ fst (paste_windows h fuel w) = Raise (busy_error h)
         \/ fst (paste_windows h fuel w) = Diverge)
  /\ (forall fuel n v text w,
         n < fuel -> opens_after h w n -> _stringifyText h v = Ret text ->
         fst (copy_windows h fuel v w)
         = (if truthy (PyStr text) && Z.eqb (win_reply h "GlobalLock") 0
            then Raise (OSError "exception: access violation writing 0x0000000000000000")
            else Ret PyNone))
  /\ (forall fuel n w,
         n < fuel -> opens_after h w n ->
         fst (paste_windows h fuel w)
         = Ret (if Z.eqb (win_reply h "GetClipboardData") 0 then PyStr ""
                else if Z.eqb (win_reply h "GlobalLock") 0 then PyNone
                     else PyStr (locked_text h))).
Proof.
  intro Herr. split; [ | split; [ | split; [ | split ] ] ].
  - intros c w. clear_errno Herr. reflexivity.
  - intros fuel v w.
    destruct (_stringifyText h v) as [text | e | ] eqn:Hs.
    + exact (copy_windows_clear h fuel v text w _ _ Herr Hs (surjective_pairing _)).
    + unfold copy_windows. unfold bind at 1, lift_outcome. rewrite Hs. reflexivity.
    + rewrite stringify_cases in Hs. destruct v; try discriminate Hs.
      match type of Hs with
      | context [over_limit h ?z] => destruct (over_limit h z)
      end; discriminate Hs.
  - intros fuel w. unfold paste_windows.
    refine (clipboard_clear h fuel 0 _ _ w _ _ Herr _
              (fun w1 => paste_body_clear h w1 Herr) (surjective_pairing _)).
    discriminate.
  - intros fuel n v text w Hfuel Hopen Htext.
    unfold copy_windows. unfold bind at 1, lift_outcome. rewrite Htext.
    unfold window. unfold bind at 1, CheckedCall at 1.
    unfold bind at 1, foreign at 1. cbn [call_name].
    rewrite Herr. cbn [Z.eqb negb]. rewrite andb_false_r. unfold ret at 1.
    unfold try_finally at 1.
    rewrite (clipboard_opens h fuel _ _ n);
      [ | exact Hfuel | apply (opens_after_same h w); [ reflexivity | reflexivity | exact Hopen ] ].
    match goal with
    | |- context [try_finally ?b ?f ?w1] =>
        pose proof (close_clear h b w1 _ Herr (copy_body_clear h text w1 Herr)
                      (null_copy_ends h text)) as Hc;
        destruct (try_finally b f w1) as [rc wc]
    end.
    cbn [fst] in Hc. subst rc. unfold null_copy, access_violation.
    destruct (truthy (PyStr text) && Z.eqb (win_reply h "GlobalLock") 0);
      clear_errno Herr; reflexivity.
  - intros fuel n w Hfuel Hopen.
    unfold paste_windows. rewrite (clipboard_opens h fuel 0 _ n w Hfuel Hopen).
    apply close_clear; [ exact Herr | apply paste_body_clear; exact Herr | discriminate ].
Qed.

(** Every call hands back a null value and [errno] reads 0: the write of
    the empty text returns as if it had succeeded, the write of a text
    faults in [memmove], and the read returns the empty string. *)
Lemma clear_errno_hides_failures_witness :
  fst (copy_windows (free_windows 0 0) 1 (PyStr "") world0) = Ret PyNone
  /\ fst (copy_windows (free_windows 0 0) 1 (PyStr "hi") world0)
     = Raise (OSError "exception: access violation writing 0x0000000000000000")
  /\ fst (paste_windows (free_windows 0 0) 1 world0) = Ret (PyStr "").
Proof.
  split; [ | split ].
  - refine (proj1 (proj2 (proj2 (proj2 (clear_errno_hides_failures (free_windows 0 0) eq_refl))))
              1%nat 0%nat (PyStr "") "" world0 _ _ eq_refl).
    + lia.
    + split; [ | split ]; [ intros i Hi; lia | reflexivity | discriminate ].
  - refine (proj1 (proj2 (proj2 (proj2 (clear_errno_hides_failures (free_windows 0 0) eq_refl))))
              1%nat 0%nat (PyStr "hi") "hi" world0 _ _ eq_refl).
    + lia.
    + split; [ | split ]; [ intros i Hi; lia | reflexivity | discriminate ].
  - refine (proj2 (proj2 (proj2 (proj2 (clear_errno_hides_failures (free_windows 0 0) eq_refl))))
              1%nat 0%nat world0 _ _).
    + lia.
    + split; [ | split ]; [ intros i Hi; lia | reflexivity | discriminate ].
Defined.

(* ================================================================== *)
(** * The writes that start a helper program *)
(* ================================================================== *)

Lemma spawn_nul (h : Host) (argv : list string) (w : world) :
  existsb has_nul argv = true ->
  spawn h argv w = (Raise (ValueError "embedded null byte"), w).
Proof. intro Hnul. unfold spawn. rewrite Hnul. reflexivity. Qed.

Lemma spawn_refused (h : Host) (argv : list string) (w : world) :
  existsb has_nul argv = false ->
  on_path h (hd "" argv) = true ->
  existsb (too_long h) argv = true ->
  spawn h argv w
  = (Raise (OSError ("[Errno 7] Argument list too long: '" ++ hd "" argv ++ "'")), w).
Proof.
  unfold on_path. intros Hnul Hp Hlong. unfold spawn. rewrite Hnul.
  destruct (which h (hd "" argv)); [ | discriminate Hp ].
  rewrite Hlong. reflexivity.
Qed.

Lemma spawn_taken (h : Host) (argv : list string) (w : world) :
  existsb has_nul argv = false ->
  on_path h (hd "" argv) = true ->
  existsb (too_long h) argv = false ->
  spawn h argv w = (Ret tt, w).
Proof.
  unfold on_path. intros Hnul Hp Hlong. unfold spawn. rewrite Hnul.
  destruct (which h (hd "" argv)); [ | discriminate Hp ].
  rewrite Hlong. reflexivity.
Qed.

(** A call of a write with the text as its one argument is the write
    itself, the flag at its default where there is one. *)
Lemma call_write (h : Host) (fuel : nat) (b : backend) (v : pyvalue) (w : world) :
  call_backend h fuel (copy_of b) [v] [] w
  = match b with
    | DevClipboard => copy_dev_clipboard h v w
    | Windows => copy_windows h fuel v w
    | Wsl => copy_wsl h v w
    | OsxPyobjc => copy_osx_pyobjc h v w
    | OsxPbcopy => copy_osx_pbcopy h v w
    | Gpaste => copy_gpaste h v w
    | Klipper => copy_klipper h v w
    | WlClipboard => copy_wl h v (PyBool false) w
    | Xsel => copy_xsel h v (PyBool false) w
    | Xclip => copy_xclip h v (PyBool false) w
    | Qt => copy_qt h v w
    | NoClipboard => (Raise (PyperclipException EXCEPT_MSG), w)
    end.
Proof.
  unfold call_backend, shown. destruct b; cbn [signature_of];
    destruct (qualified_names h); reflexivity.
Qed.

(** The write starts with the coercion. *)
Ltac coerce Hs :=
  cbv beta iota;
  unfold copy_osx_pbcopy, copy_xclip, copy_xsel, copy_wl, copy_gpaste, copy_klipper, copy_wsl,
    stringify, lift_outcome;
  unfold bind at 1; rewrite Hs; cbn [truthy app];
  unfold Popen_communicate, check_call.

Ltac starts Hp :=
  do 2 (unfold bind at 1);
  match goal with
  | |- context [spawn ?h ?argv ?w] =>
      rewrite (spawn_starts h argv w) by first [ reflexivity | exact Hp | short ]
  end.

Ltac missing Hp :=
  do 2 (unfold bind at 1);
  match goal with
  | |- context [spawn ?h ?argv ?w] =>
      rewrite (spawn_missing h argv w) by first [ reflexivity | exact Hp ]
  end.

Lemma klipper_no_nul (h : Host) (text : string) :
  has_nul (encode h text) = false ->
  existsb has_nul
    ["qdbus"; "org.kde.klipper"; "/klipper"; "setClipboardContents"; encode h text] = false.
Proof. intro H. cbn [existsb]. rewrite H. reflexivity. Qed.

Lemma klipper_too_long (h : Host) (text : string) :
  existsb (too_long h)
    ["qdbus"; "org.kde.klipper"; "/klipper"; "setClipboardContents"; encode h text]
  = too_long h (encode h text).
Proof.
  cbn [existsb].
  rewrite !(short_argument h "qdbus"), !(short_argument h "org.kde.klipper"),
    !(short_argument h "/klipper"), !(short_argument h "setClipboardContents")
    by (vm_compute; discriminate).
  cbn [orb]. apply orb_false_r.
Qed.

(** X15.  The writes of the pbcopy, xclip, xsel, wl-clipboard, GPaste,
    Klipper and WSL backends start a program.  When the program is not
    on the search path the write raises [FileNotFoundError] with nothing
    done.  When it is, the write hands it the text and returns [None]
    without looking at its exit status: a helper that fails goes
    unnoticed.  There are two exceptions.  The empty text on
    wl-clipboard and GPaste runs the clearing command of the backend
    through [check_call] and so raises [CalledProcessError] when the
    command exits with a status other than 0.  And Klipper's write
    hands the text over as an argument of the program, not on its
    standard input: a text whose encoding holds a null byte raises
    [ValueError] and one that the system finds too long for an argument
    raises [OSError], in both cases with nothing run. *)
Theorem helper_exit_status_unseen (h : Host) (fuel : nat) (b : backend) (prog : string)
  (v : pyvalue) (text : string) (w : world) :
  write_helper b = Some prog -> _stringifyText h v = Ret text ->
  (on_path h prog = false ->
   (b = Klipper -> has_nul (encode h text) = false) ->
   call_backend h fuel (copy_of b) [v] [] w = (Raise (FileNotFoundError prog), w))
  /\ (on_path h prog = true ->
      (b = Klipper -> has_nul (encode h text) = false /\ too_long h (encode h text) = false) ->
      text <> "" \/ (b <> WlClipboard /\ b <> Gpaste) ->
      fst (call_backend h fuel (copy_of b) [v] [] w) = Ret PyNone)
  /\ (on_path h prog = true ->
      text = "" -> b = WlClipboard \/ b = Gpaste ->
      call_backend h fuel (copy_of b) [v] [] w
      = (if Z.eqb (helper_exit h (stamp w) (clearing_command b)) 0 then Ret PyNone
         else Raise (CalledProcessError (clearing_command b)),
         probed w [EvCheckCall (clearing_command b)]))
  /\ (b = Klipper ->
      (has_nul (encode h text) = true ->
       call_backend h fuel (copy_of b) [v] [] w = (Raise (ValueError "embedded null byte"), w))
      /\ (has_nul (encode h text) = false -> on_path h prog = true ->
          too_long h (encode h text) = true ->
          call_backend h fuel (copy_of b) [v] [] w
          = (Raise (OSError "[Errno 7] Argument list too long: 'qdbus'"), w))).
Proof.
  intros Hb Hs. rewrite call_write.
  destruct b; inversion Hb; subst prog; clear Hb;
    (split; [ | split; [ | split ] ]);
    try (intros Hp _ [Hw | Hw]; discriminate Hw);
    try (intro Hk; discriminate Hk).
  (* WSL *)
  - intros Hp _. coerce Hs. missing Hp. reflexivity.
  - intros Hp _ _. coerce Hs. starts Hp. reflexivity.
  (* pbcopy *)
  - intros Hp _. coerce Hs. missing Hp. reflexivity.
  - intros Hp _ _. coerce Hs. starts Hp. reflexivity.
  (* GPaste *)
  - intros Hp _. coerce Hs.
    destruct (negb (negb (String.eqb text ""))); missing Hp; reflexivity.
  - intros Hp _ [Hne | [_ Hn]]; [ | congruence ].
    coerce Hs. apply String.eqb_neq in Hne. rewrite Hne. cbn [negb].
    starts Hp. reflexivity.
  - intros Hp Ht _. subst text. coerce Hs. cbn [String.eqb negb clearing_command].
    starts Hp. unfold bind, ask, emit, ret, raise.
    destruct (Z.eqb (helper_exit h (stamp w) ["gpaste-client"; "delete-history"]) 0);
      reflexivity.
  (* Klipper *)
  - intros Hp Hnul. coerce Hs. do 2 (unfold bind at 1).
    rewrite spawn_missing; [ reflexivity | exact (klipper_no_nul h text (Hnul eq_refl)) | exact Hp ].
  - intros Hp Hk _. destruct (Hk eq_refl) as [Hnul Hshort]. coerce Hs. do 2 (unfold bind at 1).
    rewrite spawn_taken;
      [ reflexivity | exact (klipper_no_nul h text Hnul) | exact Hp
      | rewrite klipper_too_long; exact Hshort ].
  - intros _. split.
    + intro Hnul. coerce Hs. do 2 (unfold bind at 1).
      rewrite spawn_nul; [ reflexivity | ].
      apply existsb_exists. exists (encode h text). split; [ simpl; tauto | exact Hnul ].
    + intros Hnul Hp Hlong. coerce Hs. do 2 (unfold bind at 1).
      rewrite spawn_refused;
        [ reflexivity | exact (klipper_no_nul h text Hnul) | exact Hp
        | rewrite klipper_too_long; exact Hlong ].
  (* wl-clipboard *)
  - intros Hp _. coerce Hs.
    destruct (negb (negb (String.eqb text ""))); missing Hp; reflexivity.
  - intros Hp _ [Hne | [Hn _]]; [ | congruence ].
    coerce Hs. apply String.eqb_neq in Hne. rewrite Hne. cbn [negb].
    starts Hp. reflexivity.
  - intros Hp Ht _. subst text. coerce Hs. cbn [String.eqb negb clearing_command].
    starts Hp. unfold bind, ask, emit, ret, raise.
    destruct (Z.eqb (helper_exit h (stamp w) ["wl-copy"; "--clear"]) 0); reflexivity.
  (* xsel *)
  - intros Hp _. coerce Hs. missing Hp. reflexivity.
  - intros Hp _ _. coerce Hs. starts Hp. reflexivity.
  (* xclip *)
  - intros Hp _. coerce Hs. missing Hp. reflexivity.
  - intros Hp _ _. coerce Hs. starts Hp. reflexivity.
Qed.

(** The write of a text through [wl-copy] returns although the program
    exits with status 1; the write of the empty text raises; and
    Klipper's write of a text that holds a null character raises before
    qdbus is started. *)
Lemma helper_exit_status_unseen_witness :
  fst (call_backend failing_wayland 0 (copy_of WlClipboard) [PyStr "x"] [] world0) = Ret PyNone
  /\ call_backend failing_wayland 0 (copy_of WlClipboard) [PyStr ""] [] world0
     = (Raise (CalledProcessError ["wl-copy"; "--clear"]),
        probed world0 [EvCheckCall ["wl-copy"; "--clear"]])
  /\ call_backend kde_linux 0 (copy_of Klipper) [PyStr (String "000"%char "x")] [] world0
     = (Raise (ValueError "embedded null byte"), world0).
Proof.
  split; [ | split ].
  - refine (proj1 (proj2 (helper_exit_status_unseen failing_wayland 0 WlClipboard "wl-copy"
                            (PyStr "x") "x" world0 eq_refl eq_refl))
              eq_refl _ _).
    + intro Hk. discriminate Hk.
    + left. discriminate.
  - refine (proj1 (proj2 (proj2 (helper_exit_status_unseen failing_wayland 0 WlClipboard "wl-copy"
                                   (PyStr "") "" world0 eq_refl eq_refl)))
              eq_refl eq_refl _).
    left. reflexivity.
  - exact (proj1 (proj2 (proj2 (proj2 (helper_exit_status_unseen kde_linux 0 Klipper "qdbus"
                                         (PyStr (String "000"%char "x")) (String "000"%char "x")
                                         world0 eq_refl eq_refl)))
                    eq_refl)
             eq_refl).
Defined.

(* ================================================================== *)
(** * Waiting on a machine without a clipboard mechanism *)
(* ================================================================== *)

Lemma first_paste_unavailable (h : Host) (fuel : nat) (w : world) :
  first_match resolution_order h = NoClipboard ->
  call_paste h fuel [] [] (loaded w)
  = (Raise (PyperclipException EXCEPT_MSG),
     {| copy := copy_of NoClipboard; paste := paste_of NoClipboard;
        env := snd (determine_clipboard h w) |}).
Proof.
  intro Hno.
  pose proof (determine_clipboard_returns h w) as Hret. rewrite Hno in Hret.
  specialize (Hret ltac:(discriminate)).
  destruct (determine_clipboard h w) as [r w1] eqn:Hd. cbn [fst snd] in Hret |- *. subst r.
  unfold call_paste, loaded, call; cbn.
  unfold bind, in_world, rebind, lift_outcome; cbn. rewrite Hd. reflexivity.
Qed.

(** X16.  On a host where resolution finds no mechanism, the two waits
    do not wait: called on the freshly loaded module, with or without a
    timeout, each reads the clock, resolves the backend through its
    first [paste()] and raises the no-mechanism error of that call at
    once, without a sleep, leaving both entry points bound to the
    unavailable sentinels. *)
Theorem waits_report_no_mechanism (h : Host) (fuel polls : nat) (timeout : option float)
  (w : world) :
  first_match resolution_order h = NoClipboard ->
  (0 < polls ->
   module_waitForPaste h fuel polls timeout (loaded w)
   = (Raise (PyperclipException EXCEPT_MSG),
      {| copy := copy_of NoClipboard; paste := paste_of NoClipboard;
         env := snd (determine_clipboard h (snd (time_time h w))) |}))
  /\ module_waitForNewPaste h fuel polls timeout (loaded w)
     = (Raise (PyperclipException EXCEPT_MSG),
        {| copy := copy_of NoClipboard; paste := paste_of NoClipboard;
           env := snd (determine_clipboard h (snd (time_time h w))) |}).
Proof.
  intro Hno. split.
  - intro Hpolls. destruct polls as [| polls]; [ lia | ].
    unfold module_waitForPaste, waitForPaste. unfold bind at 1.
    change (in_world (time_time h) (loaded w))
      with (Ret (clock h (ticks w)), loaded (snd (time_time h w))).
    cbn beta iota. cbn [waitForPaste_loop]. unfold bind at 1.
    rewrite (first_paste_unavailable h fuel _ Hno). reflexivity.
  - unfold module_waitForNewPaste, waitForNewPaste. unfold bind at 1.
    change (in_world (time_time h) (loaded w))
      with (Ret (clock h (ticks w)), loaded (snd (time_time h w))).
    cbn beta iota. unfold bind at 1.
    rewrite (first_paste_unavailable h fuel _ Hno). reflexivity.
Qed.

(** On the bare Linux machine the surroundings see the clock read and
    the probes of the resolution, and no sleep. *)
Lemma waits_report_no_mechanism_witness :
  module_waitForNewPaste bare_linux 0 0 None (loaded world0)
  = (Raise (PyperclipException EXCEPT_MSG),
     {| copy := copy_of NoClipboard; paste := paste_of NoClipboard;
        env := {| trace := [EvTime; EvIsFile "/proc/version"; EvGetenv "XDG_CURRENT_DESKTOP";
                            EvGetenv "WAYLAND_DISPLAY"; EvGetenv "DISPLAY";
                            EvImport "qtpy"; EvImport "PyQt5"];
                  ticks := 1; opens := 0; hwnds := []; holding := false |} |}).
Proof.
  exact (proj2 (waits_report_no_mechanism bare_linux 0 0 None world0 eq_refl)).
Defined.

(* ================================================================== *)
(** * What resolution does to the surroundings *)
(* ================================================================== *)

Lemma quiet_ret {A} (a : A) : resolves_quietly (ret a : M world A).
Proof. intro w. exists []. rewrite probed_nil. split; [ reflexivity | constructor ]. Qed.

Lemma quiet_raise {A} (e : exn) : resolves_quietly (raise e : M world A).
Proof. intro w. exists []. rewrite probed_nil. split; [ reflexivity | constructor ]. Qed.

Lemma quiet_emit (e : event) : resolution_event e -> resolves_quietly (emit e).
Proof. intros He w. exists [e]. split; [ reflexivity | repeat constructor; exact He ]. Qed.

Lemma quiet_ask {A} (f : nat -> A) : resolves_quietly (ask f).
Proof. intro w. exists []. rewrite probed_nil. split; [ reflexivity | constructor ]. Qed.

Lemma quiet_bind {A B} (c : M world A) (k : A -> M world B) :
  resolves_quietly c -> (forall a, resolves_quietly (k a)) -> resolves_quietly (bind c k).
Proof.
  intros Hc Hk w. unfold bind. destruct (Hc w) as [evs [Hw Hevs]].
  destruct (c w) as [[a | e | ] w1]; cbn [snd] in Hw; subst w1.
  - destruct (Hk a (probed w evs)) as [evs' [Hw' Hevs']].
    exists (evs ++ evs')%list. rewrite Hw', probed_app.
    split; [ reflexivity | apply Forall_app; split; assumption ].
  - exists evs. split; [ reflexivity | assumption ].
  - exists evs. split; [ reflexivity | assumption ].
Qed.

Lemma quiet_except {A} (body handler : M world A) :
  resolves_quietly body -> resolves_quietly handler ->
  resolves_quietly (except_ImportError body handler).
Proof.
  intros Hb Hh w. unfold except_ImportError. destruct (Hb w) as [evs [Hw Hevs]].
  destruct (body w) as [[a | e | ] w1]; cbn [snd] in Hw; subst w1;
    try (exists evs; split; [ reflexivity | assumption ]).
  destruct e; try (exists evs; split; [ reflexivity | assumption ]).
  destruct (Hh (probed w evs)) as [evs' [Hw' Hevs']].
  exists (evs ++ evs')%list. rewrite Hw', probed_app.
  split; [ reflexivity | apply Forall_app; split; assumption ].
Qed.

Ltac quiet :=
  repeat first
    [ apply quiet_ret
    | apply quiet_raise
    | apply quiet_ask
    | apply quiet_emit; cbn; solve [ exact I | left; reflexivity | right; reflexivity ]
    | apply quiet_except
    | apply quiet_bind
    | match goal with
      | |- resolves_quietly (if ?g then _ else _) => destruct g
      | |- resolves_quietly (match ?o with Some _ => _ | None => _ end) => destruct o
      | |- forall _, _ => intro
      end ].

Lemma quiet_initialiser (h : Host) (b : backend) : resolves_quietly (initialiser h b).
Proof.
  destruct b; cbn [initialiser];
    unfold init_dev_clipboard_clipboard, init_windows_clipboard, init_wsl_clipboard,
      init_osx_pyobjc_clipboard, init_osx_pbcopy_clipboard, init_gpaste_clipboard,
      init_klipper_clipboard, init_wl_clipboard, init_xsel_clipboard, init_xclip_clipboard,
      init_qt_clipboard, init_no_clipboard, qt_application, start_client_gpaste, shell_run,
      import;
    quiet.
Qed.

(** X17.  Resolution only looks.  Whatever the host, and however it
    ends, [determine_clipboard] reads the platform, the environment, the
    search path, [/proc/version] and the importable modules, and runs at
    most the set-up of the initialiser it selects (the two daemon
    commands of GPaste, the Qt application): it starts no helper
    program, writes no file, makes no native call, and neither reads the
    clock nor sleeps.  The same holds of every initialiser, hence of
    [set_clipboard]. *)
Theorem resolution_only_looks (h : Host) (w : world) :
  (exists evs,
      snd (determine_clipboard h w) = probed w evs /\ Forall resolution_event evs)
  /\ (forall b, exists evs,
         snd (initialiser h b w) = probed w evs /\ Forall resolution_event evs)
  /\ (forall name p, exists evs,
         env (snd (set_clipboard h name p)) = probed (env p) evs
         /\ Forall resolution_event evs).
Proof.
  split; [ | split ].
  - revert w. change (resolves_quietly (determine_clipboard h)).
    unfold determine_clipboard, from_wsl, from_mac, from_desktop, from_kde, from_wayland,
      from_x11, from_toolkit, os_path_exists, os_path_isfile, read_file, os_getenv,
      _executable_exists, import,
      init_dev_clipboard_clipboard, init_windows_clipboard, init_wsl_clipboard,
      init_osx_pyobjc_clipboard, init_osx_pbcopy_clipboard, init_gpaste_clipboard,
      init_klipper_clipboard, init_wl_clipboard, init_xsel_clipboard, init_xclip_clipboard,
      init_qt_clipboard, init_no_clipboard, qt_application, start_client_gpaste, shell_run.
    quiet.
  - intro b. apply quiet_initialiser.
  - intros name p. unfold set_clipboard.
    destruct (assoc name (clipboard_types h)) as [init |] eqn:Hname.
    + assert (Hq : resolves_quietly init).
      { unfold clipboard_types in Hname. cbn [assoc] in Hname.
        repeat match type of Hname with
          | (if ?g then _ else _) = _ =>
              destruct g; [ inversion Hname; subst init | ]
          end;
          try discriminate Hname;
          first [ apply (quiet_initialiser h Gpaste) | apply (quiet_initialiser h OsxPbcopy)
                | apply (quiet_initialiser h OsxPyobjc) | apply (quiet_initialiser h Qt)
                | apply (quiet_initialiser h Xclip) | apply (quiet_initialiser h Xsel)
                | apply (quiet_initialiser h WlClipboard) | apply (quiet_initialiser h Klipper)
                | apply (quiet_initialiser h Windows) | apply (quiet_initialiser h Wsl)
                | apply (quiet_initialiser h DevClipboard)
                | apply (quiet_initialiser h NoClipboard) ]. }
      destruct (Hq (env p)) as [evs [Hw Hevs]]. exists evs. split; [ | exact Hevs ].
      unfold bind, in_world, rebind.
      destruct (init (env p)) as [[pair | e | ] w1]; cbn [snd env] in Hw |- *; exact Hw.
    + exists []. rewrite probed_nil. split; [ reflexivity | constructor ].
Qed.

(* ================================================================== *)
(** * Runs of the model *)
(* ================================================================== *)

(** [set_clipboard("xclip")] then [copy(42)] runs
    [xclip -selection c] with the digits on its standard input. *)
Example copy_42_through_xclip :
  (set_clipboard kde_linux "xclip" ;;; call_copy kde_linux 0 [PyInt 42] []) (loaded world0)
  = (Ret PyNone,
     {| copy := copy_of Xclip; paste := paste_of Xclip;
        env := probed world0 [EvPopen ["xclip"; "-selection"; "c"] (Some "42")] |}).
Proof. reflexivity. Qed.

(** A first [paste()] in a KDE session resolves to Klipper, binds both
    entry points and strips the line feed qdbus prints after the text. *)
Example first_paste_resolves_to_klipper :
  fst (call_paste (host_of "Linux" "posix" [] [("XDG_CURRENT_DESKTOP", "KDE")]
                     ["klipper"; "qdbus"] [] ("hello" ++ nl)) 0 [] [] (loaded world0))
  = Ret (PyStr "hello")
  /\ is_available
       (snd (call_paste (host_of "Linux" "posix" [] [("XDG_CURRENT_DESKTOP", "KDE")]
                           ["klipper"; "qdbus"] [] ("hello" ++ nl)) 0 [] [] (loaded world0)))
     = true.
Proof. split; reflexivity. Qed.

(** The native write of a text, the clipboard free at the first attempt:
    the calls in the order the protocol asks for, the clipboard closed
    and the window destroyed at the end. *)
Example native_write_trace :
  trace (snd (copy_windows
                (windows_host (fun name => if String.eqb name "wcslen" then 2%Z else 7%Z)
                   (fun _ => 1%Z) 0 (fun _ => 0%float) "")
                1 (PyStr "hi") world0))
  = [ EvWin (CreateWindowExA "STATIC"); EvTime; EvTime; EvWin (OpenClipboard 7);
      EvWin EmptyClipboard; EvWin (wcslen "hi"); EvWin (GlobalAlloc 2 6);
      EvWin (GlobalLock 7); EvWin (memmove 7 "hi" 6); EvWin (GlobalUnlock 7);
      EvWin (SetClipboardData 13 7); EvWin CloseClipboard; EvWin (DestroyWindow 7) ].
Proof. reflexivity. Qed.
